(** * web_gui.py: request/response orchestration of the Luraph web GUI

    A shallow embedding of [src/web_gui.py] (the [WebGuiHandler] class) and
    the properties its specification states about it.

    Layout:
    - [Text]: Python [str] values as code-point lists, [str.strip],
      [int(str)], decimal rendering;
    - [Utf8]: [bytes.decode("utf-8")] and [str.encode("utf-8")];
    - [Json]: the objects [json.loads] builds, truthiness, [str()],
      [json.dumps] and [json.loads];
    - [Effects]: the handler's world (file system, socket streams, child
      processes) and a state-and-exception monad over it;
    - [Handler]: [_send_json], [_send_html], [_read_request_json], [do_GET],
      [do_POST];
    - [Main]: [main];
    - the vocabulary of the specification, lemmas on the codecs and on the
      handler's exit paths, and the claims C1 to C10.

    What lies outside [web_gui.py] enters as follows.  The interpreter's
    codecs, [str.strip], [int()], [json.loads] and [json.dumps] are written
    out, with the limits CPython puts on them (the number of digits [int()]
    takes, the nesting [json.loads] can enter).  The platform is POSIX and
    64-bit (paths joined with a slash, no newline translation when a text
    file is written, [sys.maxsize] is 2^63-1).  What only the machine
    decides is a field of [runtime]: the interpreter path, the repository
    root, the name [mkdtemp] picks, what the child process returns and does
    to the files, the [repr] of floats and containers, the decimal digits of
    the Unicode database, the depth of nesting the stack allows, and whether
    a buffer can be had for a read.  An exception that escapes [do_GET] or
    [do_POST] is a [Raise] result: [http.server] and [socketserver] answer
    it with nothing (the traceback is logged and the connection closed), so
    [wfile] holds all the client ever receives. *)

From Stdlib Require Import ZArith NArith List Strings.String Strings.Ascii Strings.Byte Lia Bool.
From stdpp Require Import base option list gmap.

#[local] Set Warnings "-register-all".

Local Open Scope N_scope.
Local Open Scope list_scope.

(* ===================================================================== *)
(** ** Text: Python strings *)
(* ===================================================================== *)

Module Text.

(** A Python [str] is a sequence of Unicode code points (lone surrogates
    included: [json.loads] can produce them). *)
Definition codepoint := N.
Definition pystr := list N.

(** An ASCII literal as a Python string. *)
Definition lit (s : string) : pystr :=
  List.map N_of_ascii (list_ascii_of_string s).
Arguments lit : simpl never.

(** [str.isspace] on one character: CPython's [Py_UNICODE_ISSPACE]. *)
Definition py_isspace (c : codepoint) : bool :=
  ((0x09 <=? c) && (c <=? 0x0D)) || ((0x1C <=? c) && (c <=? 0x20))
  || (c =? 0x85) || (c =? 0xA0) || (c =? 0x1680)
  || ((0x2000 <=? c) && (c <=? 0x200A))
  || (c =? 0x2028) || (c =? 0x2029) || (c =? 0x202F) || (c =? 0x205F)
  || (c =? 0x3000).

Fixpoint lstrip (s : pystr) : pystr :=
  match s with
  | c :: r => if py_isspace c then lstrip r else s
  | [] => []
  end.

Definition rstrip (s : pystr) : pystr := rev (lstrip (rev s)).

(** [s.strip()] *)
Definition strip (s : pystr) : pystr := rstrip (lstrip s).

(** Python truthiness of a string: [bool(s)]. *)
Definition nonempty (s : pystr) : bool :=
  match s with [] => false | _ => true end.

(** *** [int(s)] for base 10

    [None] stands for [ValueError].  CPython first rewrites the text
    ([_PyUnicode_TransformDecimalAndSpaceToASCII]): text that is ASCII
    throughout stays as it is; otherwise every character from U+007F on
    becomes a space when it is Unicode whitespace and an ASCII digit when it
    is a decimal digit, and the text is cut at the first character that is
    neither.  [PyLong_FromString] then reads C whitespace, an optional sign,
    digits separated by single underscores, and C whitespace to the end.
    More than [int_max_str_digits] digits are refused. *)

(** [Py_ISSPACE]: the whitespace of the C locale. *)
Definition c_isspace (c : codepoint) : bool :=
  ((0x09 <=? c) && (c <=? 0x0D)) || (c =? 0x20).

(** [sys.get_int_max_str_digits()], at its default. *)
Definition int_max_str_digits : N := 4300.

(** [decimal] is [Py_UNICODE_TODECIMAL], the decimal digit value the
    interpreter's Unicode database gives a character, if any. *)
Fixpoint transform_decimal_and_space (decimal : codepoint -> option N) (s : pystr)
  : pystr :=
  match s with
  | [] => []
  | c :: r =>
      if c <? 127 then c :: transform_decimal_and_space decimal r
      else if py_isspace c then 0x20 :: transform_decimal_and_space decimal r
      else match decimal c with
           | Some d => (0x30 + d) :: transform_decimal_and_space decimal r
           | None => [0x3F]
           end
  end.

Definition to_ascii_decimal (decimal : codepoint -> option N) (s : pystr) : pystr :=
  if forallb (fun c => c <? 0x80) s then s
  else transform_decimal_and_space decimal s.

Fixpoint lstrip_c (s : pystr) : pystr :=
  match s with
  | c :: r => if c_isspace c then lstrip_c r else s
  | [] => []
  end.

Definition strip_c (s : pystr) : pystr := rev (lstrip_c (rev (lstrip_c s))).

Definition digit_val (c : codepoint) : option Z :=
  if (0x30 <=? c) && (c <=? 0x39) then Some (Z.of_N (c - 0x30)) else None.

(** [digits_from acc count prev_digit s]: the digits of [s] appended to
    [acc], and how many there are with the [count] before them; an
    underscore is legal only between two digits. *)
Fixpoint digits_from (acc : Z) (count : N) (prev_digit : bool) (s : pystr)
  : option (Z * N) :=
  match s with
  | [] => if prev_digit then Some (acc, count) else None
  | c :: r =>
      match digit_val c with
      | Some d => digits_from (10 * acc + d)%Z (count + 1) true r
      | None =>
          if (c =? 0x5F) && prev_digit
          then match r with
               | [] => None
               | c' :: _ => match digit_val c' with
                            | Some _ => digits_from acc count false r
                            | None => None
                            end
               end
          else None
      end
  end.

(** The digits of a literal, within the limit on their number. *)
Definition decimal_literal (s : pystr) : option Z :=
  match digits_from 0 0 false s with
  | Some (v, count) => if int_max_str_digits <? count then None else Some v
  | None => None
  end.

Definition py_int (decimal : codepoint -> option N) (s : pystr) : option Z :=
  match strip_c (to_ascii_decimal decimal s) with
  | [] => None
  | c :: r =>
      if c =? 0x2D then Z.opp <$> decimal_literal r
      else if c =? 0x2B then decimal_literal r
      else decimal_literal (c :: r)
  end.

(** *** [str(n)] for an [int] *)
Fixpoint dec_digits (fuel : nat) (n : N) (acc : pystr) : pystr :=
  match fuel with
  | O => acc
  | S f =>
      let acc' := (0x30 + n mod 10) :: acc in
      if n <? 10 then acc' else dec_digits f (n / 10) acc'
  end.

Definition str_of_N (n : N) : pystr := dec_digits (S (N.to_nat (N.log2 n))) n [].

Definition str_of_Z (z : Z) : pystr :=
  match z with
  | Zneg p => 0x2D :: str_of_N (Npos p)
  | _ => str_of_N (Z.to_N z)
  end.

(** ASCII lower-casing, for header names. *)
Definition ascii_lower (c : codepoint) : codepoint :=
  if (0x41 <=? c) && (c <=? 0x5A) then c + 0x20 else c.

Definition lower (s : pystr) : pystr := List.map ascii_lower s.

End Text.

Import Text.

(* ===================================================================== *)
(** ** Utf8: the "utf-8" codec in strict mode *)
(* ===================================================================== *)

Module Utf8.

Definition bytes := list byte.

Definition byte_of_N (n : N) : byte :=
  match Byte.of_N n with Some b => b | None => x00 end.

(** A continuation byte, 10xxxxxx. *)
Definition is_cont (b : N) : bool := (0x80 <=? b) && (b <=? 0xBF).

Definition is_surrogate (c : codepoint) : bool := (0xD800 <=? c) && (c <=? 0xDFFF).

(** [raw.decode("utf-8")]; [None] stands for [UnicodeDecodeError].
    Overlong forms, surrogates and values above U+10FFFF are rejected. *)
Fixpoint utf8_decode (bs : bytes) : option pystr :=
  match bs with
  | [] => Some []
  | b0 :: r0 =>
      let n0 := Byte.to_N b0 in
      if n0 <? 0x80 then cons n0 <$> utf8_decode r0
      else if n0 <? 0xC0 then None
      else if n0 <? 0xE0 then
        match r0 with
        | b1 :: r1 =>
            let n1 := Byte.to_N b1 in
            let c := (n0 - 0xC0) * 64 + (n1 - 0x80) in
            if is_cont n1 && (0x80 <=? c)
            then cons c <$> utf8_decode r1 else None
        | _ => None
        end
      else if n0 <? 0xF0 then
        match r0 with
        | b1 :: b2 :: r2 =>
            let n1 := Byte.to_N b1 in
            let n2 := Byte.to_N b2 in
            let c := (n0 - 0xE0) * 4096 + (n1 - 0x80) * 64 + (n2 - 0x80) in
            if is_cont n1 && is_cont n2 && (0x800 <=? c) && negb (is_surrogate c)
            then cons c <$> utf8_decode r2 else None
        | _ => None
        end
      else if n0 <? 0xF5 then
        match r0 with
        | b1 :: b2 :: b3 :: r3 =>
            let n1 := Byte.to_N b1 in
            let n2 := Byte.to_N b2 in
            let n3 := Byte.to_N b3 in
            let c := (n0 - 0xF0) * 262144 + (n1 - 0x80) * 4096
                     + (n2 - 0x80) * 64 + (n3 - 0x80) in
            if is_cont n1 && is_cont n2 && is_cont n3
               && (0x10000 <=? c) && (c <=? 0x10FFFF)
            then cons c <$> utf8_decode r3 else None
        | _ => None
        end
      else None
  end.

(** The UTF-8 bytes of one code point that is not a surrogate. *)
Definition encode_cp (c : codepoint) : bytes :=
  if c <? 0x80 then [byte_of_N c]
  else if c <? 0x800 then
    [byte_of_N (0xC0 + c / 64); byte_of_N (0x80 + c mod 64)]
  else if c <? 0x10000 then
    [byte_of_N (0xE0 + c / 4096); byte_of_N (0x80 + (c / 64) mod 64);
     byte_of_N (0x80 + c mod 64)]
  else
    [byte_of_N (0xF0 + c / 262144); byte_of_N (0x80 + (c / 4096) mod 64);
     byte_of_N (0x80 + (c / 64) mod 64); byte_of_N (0x80 + c mod 64)].

(** [s.encode("utf-8")]; [None] stands for [UnicodeEncodeError] (a lone
    surrogate in [s]). *)
Fixpoint utf8_encode (s : pystr) : option bytes :=
  match s with
  | [] => Some []
  | c :: r =>
      if is_surrogate c || (0x10FFFF <? c) then None
      else app (encode_cp c) <$> utf8_encode r
  end.

(** Text-mode reading with [newline=None]: "\r\n" and a lone "\r" both
    become "\n". *)
Fixpoint universal_newlines (s : pystr) : pystr :=
  match s with
  | [] => []
  | c :: r =>
      if c =? 0x0D then
        match r with
        | c' :: r' => if c' =? 0x0A then 0x0A :: universal_newlines r'
                      else 0x0A :: universal_newlines r
        | [] => [0x0A]
        end
      else c :: universal_newlines r
  end.

End Utf8.

Import Utf8.

(* ===================================================================== *)
(** ** Json: Python objects, [json.dumps], [json.loads] *)
(* ===================================================================== *)

Module Json.

(** A Python [float] built by [json.loads], kept as the decimal literal it
    was read from: [FDec neg d e] is the double nearest to [±d * 10^e]. *)
Inductive pyfloat :=
| FDec (neg : bool) (digits : N) (exp10 : Z)
| FInf (neg : bool)
| FNan.

(** The objects [json.loads] can return. A [dict] keeps insertion order and
    has unique keys. *)
Inductive pyobj :=
| PNone
| PBool (b : bool)
| PInt (z : Z)
| PFloat (f : pyfloat)
| PStr (s : pystr)
| PList (l : list pyobj)
| PDict (kvs : list (pystr * pyobj)).

Definition pystr_eqb (a b : pystr) : bool := bool_decide (a = b).

(** [d.get(k)] on the items of a dict: [None] when the key is missing. *)
Fixpoint dict_get (k : pystr) (kvs : list (pystr * pyobj)) : option pyobj :=
  match kvs with
  | [] => None
  | (k', v) :: r => if pystr_eqb k k' then Some v else dict_get k r
  end.

(** [d[k] = v]: overwrite in place, or append a new item. *)
Fixpoint dict_set (k : pystr) (v : pyobj) (kvs : list (pystr * pyobj))
  : list (pystr * pyobj) :=
  match kvs with
  | [] => [(k, v)]
  | (k', v') :: r =>
      if pystr_eqb k k' then (k, v) :: r else (k', v') :: dict_set k v r
  end.


(** A decimal literal becomes the double 0.0 when its digits are all zero
    or when it is at most 2^-1075, half the least subnormal (ties go to the
    even neighbour, which is zero). *)
Definition float_is_zero (f : pyfloat) : bool :=
  match f with
  | FDec _ d e =>
      (d =? 0) || ((e <? 0)%Z && (d * 2 ^ 1075 <=? 10 ^ Z.to_N (- e)))
  | _ => false
  end.

(** [bool(v)] *)
Definition py_truthy (v : pyobj) : bool :=
  match v with
  | PNone => false
  | PBool b => b
  | PInt z => negb (z =? 0)%Z
  | PFloat f => negb (float_is_zero f)
  | PStr s => nonempty s
  | PList l => match l with [] => false | _ => true end
  | PDict kvs => match kvs with [] => false | _ => true end
  end.

(** [a or b] *)
Definition py_or (a b : pyobj) : pyobj := if py_truthy a then a else b.

(** The text renderings this development does not compute: the shortest
    round-tripping digits of a finite double, and the [repr] of a list or
    dict. They are supplied by the interpreter. *)
Record renderer := {
  float_repr : pyfloat -> pystr;
  container_repr : pyobj -> pystr;
}.

(** [str(v)] *)
Definition py_str (R : renderer) (v : pyobj) : pystr :=
  match v with
  | PNone => lit "None"
  | PBool true => lit "True"
  | PBool false => lit "False"
  | PInt z => str_of_Z z
  | PFloat FNan => lit "nan"
  | PFloat (FInf false) => lit "inf"
  | PFloat (FInf true) => lit "-inf"
  | PFloat f => float_repr R f
  | PStr s => s
  | PList _ | PDict _ => container_repr R v
  end.

(** *** [json.dumps] with its defaults ([ensure_ascii=True]) *)

Definition hex_digit (n : N) : codepoint :=
  if n <? 10 then 0x30 + n else 0x61 + (n - 10).

(** [\uXXXX], four lower-case hex digits. *)
Definition u_escape (c : N) : pystr :=
  [0x5C; 0x75; hex_digit (c / 4096 mod 16); hex_digit (c / 256 mod 16);
   hex_digit (c / 16 mod 16); hex_digit (c mod 16)].

Definition escape_char (c : codepoint) : pystr :=
  if c =? 0x22 then [0x5C; 0x22]
  else if c =? 0x5C then [0x5C; 0x5C]
  else if c =? 0x0A then lit "\n"
  else if c =? 0x0D then lit "\r"
  else if c =? 0x09 then lit "\t"
  else if c =? 0x08 then lit "\b"
  else if c =? 0x0C then lit "\f"
  else if (0x20 <=? c) && (c <=? 0x7E) then [c]
  else if c <? 0x10000 then u_escape c
  else u_escape (0xD800 + (c - 0x10000) / 1024 mod 1024)
       ++ u_escape (0xDC00 + (c - 0x10000) mod 1024).

Definition json_quote (s : pystr) : pystr :=
  0x22 :: List.concat (List.map escape_char s) ++ [0x22].

Fixpoint join (sep : pystr) (parts : list pystr) : pystr :=
  match parts with
  | [] => []
  | [p] => p
  | p :: r => p ++ sep ++ join sep r
  end.

Fixpoint json_dumps (R : renderer) (v : pyobj) : pystr :=
  match v with
  | PNone => lit "null"
  | PBool true => lit "true"
  | PBool false => lit "false"
  | PInt z => str_of_Z z
  | PFloat FNan => lit "NaN"
  | PFloat (FInf false) => lit "Infinity"
  | PFloat (FInf true) => lit "-Infinity"
  | PFloat f => float_repr R f
  | PStr s => json_quote s
  | PList l => lit "[" ++ join (lit ", ") (List.map (json_dumps R) l) ++ lit "]"
  | PDict kvs =>
      lit "{"
      ++ join (lit ", ")
           (List.map (fun kv => json_quote (fst kv) ++ lit ": " ++ json_dumps R (snd kv)) kvs)
      ++ lit "}"
  end.

(** *** [json.loads]

    The scanner follows CPython's [json.scanner] and [json.decoder]: strict
    strings, [NaN] and the infinities accepted, the last of two equal keys
    wins.  It can fail in three ways: on text that is not JSON
    ([json.JSONDecodeError]), on an object or array nested deeper than the
    interpreter's stack allows ([RecursionError]), and on an integer of more
    than [int_max_str_digits] digits ([ValueError] from [int()]). *)

Inductive decode_error :=
| Malformed     (* [json.JSONDecodeError] *)
| TooDeep       (* [RecursionError] *)
| TooLong.      (* [ValueError]: the limit for integer string conversion *)

(** What a scanning function gives: a value, an error, or [Exhausted] when
    the recursion fuel of this development ran out (which [json_loads]
    excludes by the fuel it gives). *)
Inductive parsed (A : Type) :=
| Parsed (a : A)
| Failed (e : decode_error)
| Exhausted.
Arguments Parsed {A} a.
Arguments Failed {A} e.
Arguments Exhausted {A}.

(** A scan that can only fail on syntax. *)
Definition syntax {A} (o : option A) : parsed A :=
  match o with Some a => Parsed a | None => Failed Malformed end.

Definition json_ws (c : codepoint) : bool :=
  (c =? 0x20) || (c =? 0x09) || (c =? 0x0A) || (c =? 0x0D).

Fixpoint skip_ws (s : pystr) : pystr :=
  match s with
  | c :: r => if json_ws c then skip_ws r else s
  | [] => []
  end.

Fixpoint strip_prefix (p s : pystr) : option pystr :=
  match p, s with
  | [], _ => Some s
  | a :: p', b :: s' => if a =? b then strip_prefix p' s' else None
  | _ :: _, [] => None
  end.

Definition is_digit (c : codepoint) : bool := (0x30 <=? c) && (c <=? 0x39).

(** The longest run of ASCII digits at the head of [s]: its value, its
    length, and what follows. *)
Fixpoint take_digits (acc : N) (len : nat) (s : pystr) : N * nat * pystr :=
  match s with
  | c :: r => if is_digit c then take_digits (10 * acc + (c - 0x30)) (S len) r
              else (acc, len, s)
  | [] => (acc, len, [])
  end.

Definition hex_val (c : codepoint) : option N :=
  if is_digit c then Some (c - 0x30)
  else if (0x61 <=? c) && (c <=? 0x66) then Some (c - 0x61 + 10)
  else if (0x41 <=? c) && (c <=? 0x46) then Some (c - 0x41 + 10)
  else None.

Definition hex4 (a b c d : codepoint) : option N :=
  match hex_val a, hex_val b, hex_val c, hex_val d with
  | Some x, Some y, Some z, Some w => Some (x * 4096 + y * 256 + z * 16 + w)
  | _, _, _, _ => None
  end.

Definition simple_escape (c : codepoint) : option codepoint :=
  if c =? 0x22 then Some 0x22          (* quote *)
  else if c =? 0x5C then Some 0x5C     (* backslash *)
  else if c =? 0x2F then Some 0x2F     (* slash *)
  else if c =? 0x62 then Some 0x08     (* b: backspace *)
  else if c =? 0x66 then Some 0x0C     (* f: form feed *)
  else if c =? 0x6E then Some 0x0A     (* n: line feed *)
  else if c =? 0x72 then Some 0x0D     (* r: carriage return *)
  else if c =? 0x74 then Some 0x09     (* t: tab *)
  else None.

(** A low surrogate written [\uXXXX] at the head of [s]. *)
Definition low_surrogate (s : pystr) : option N :=
  match s with
  | 0x5C :: 0x75 :: a :: b :: c :: d :: _ =>
      match hex4 a b c d with
      | Some lo => if (0xDC00 <=? lo) && (lo <=? 0xDFFF) then Some lo else None
      | None => None
      end
  | _ => None
  end.

(** [scan_string s acc]: [s] starts just after the opening quote; [acc] is
    the reversed text read so far. *)
Fixpoint scan_string (s : pystr) (acc : pystr) : option (pystr * pystr) :=
  match s with
  | [] => None
  | c :: r =>
      if c =? 0x22 then Some (rev acc, r)
      else if c <? 0x20 then None
      else if c =? 0x5C then
        match r with
        | 0x75 :: h1 :: h2 :: h3 :: h4 :: r' =>
            match hex4 h1 h2 h3 h4 with
            | None => None
            | Some hi =>
                if (0xD800 <=? hi) && (hi <=? 0xDBFF) then
                  match low_surrogate r', r' with
                  | Some lo, _ :: _ :: _ :: _ :: _ :: _ :: r'' =>
                      scan_string r''
                        ((0x10000 + (hi - 0xD800) * 1024 + (lo - 0xDC00)) :: acc)
                  | _, _ => scan_string r' (hi :: acc)
                  end
                else scan_string r' (hi :: acc)
            end
        | e :: r' =>
            match simple_escape e with
            | Some x => scan_string r' (x :: acc)
            | None => None
            end
        | [] => None
        end
      else scan_string r (c :: acc)
  end.

(** The fraction [.digits] of a number, when one is there. *)
Definition scan_frac (s : pystr) : option (N * nat * pystr) :=
  match s with
  | 0x2E :: (c :: _) as r => if is_digit c then Some (take_digits 0 0 r) else None
  | _ => None
  end.

(** The exponent [e±digits] of a number, when one is there. *)
Definition scan_exp (s : pystr) : option (Z * pystr) :=
  match s with
  | e :: r =>
      if (e =? 0x65) || (e =? 0x45) then
        match r with
        | sg :: (c :: _) as r' =>
            if ((sg =? 0x2B) || (sg =? 0x2D)) && is_digit c then
              let '(v, _, rest) := take_digits 0 0 r' in
              Some (if sg =? 0x2D then (- Z.of_N v)%Z else Z.of_N v, rest)
            else if is_digit sg then
              let '(v, _, rest) := take_digits 0 0 r in Some (Z.of_N v, rest)
            else None
        | [c] => if is_digit c then Some (Z.of_N (c - 0x30), []) else None
        | [] => None
        end
      else None
  | [] => None
  end.

(** A number whose integer part starts at [s] (the sign already read).  An
    integer goes through [int()], with its limit on the number of digits; a
    float does not. *)
Definition scan_number (neg : bool) (s : pystr) : parsed (pyobj * pystr) :=
  match s with
  | c :: r =>
      if is_digit c then
        let '(ipart, ilen, rest) :=
          if c =? 0x30 then (0, 1%nat, r) else take_digits 0 0 s in
        let '(fdigits, flen, has_frac, rest1) :=
          match scan_frac rest with
          | Some (v, len, rest1) => (v, len, true, rest1)
          | None => (0, O, false, rest)
          end in
        let '(ex, has_exp, rest2) :=
          match scan_exp rest1 with
          | Some (x, rest2) => (x, true, rest2)
          | None => (0%Z, false, rest1)
          end in
        if has_frac || has_exp then
          Parsed (PFloat (FDec neg (ipart * 10 ^ N.of_nat flen + fdigits)
                            (ex - Z.of_nat flen)), rest2)
        else if int_max_str_digits <? N.of_nat ilen then Failed TooLong
        else
          Parsed (PInt (if neg then (- Z.of_N ipart)%Z else Z.of_N ipart), rest2)
      else Failed Malformed
  | [] => Failed Malformed
  end.

(** [depth] is the number of nested objects and arrays the scanner may
    still enter: each one is a recursive call that CPython counts against
    its recursion limit. *)
Fixpoint parse_value (fuel : nat) (depth : nat) (s : pystr) {struct fuel}
  : parsed (pyobj * pystr) :=
  match fuel with
  | O => Exhausted
  | S n =>
      match s with
      | [] => Failed Malformed
      | c :: r =>
          if c =? 0x22 then
            match scan_string r [] with
            | Some (t, rest) => Parsed (PStr t, rest)
            | None => Failed Malformed
            end
          else if c =? 0x7B then
            match depth with
            | O => Failed TooDeep
            | S d =>
                match skip_ws r with
                | c' :: rest =>
                    if c' =? 0x7D then Parsed (PDict [], rest)
                    else parse_members n d (c' :: rest) []
                | [] => Failed Malformed
                end
            end
          else if c =? 0x5B then
            match depth with
            | O => Failed TooDeep
            | S d =>
                match skip_ws r with
                | c' :: rest =>
                    if c' =? 0x5D then Parsed (PList [], rest)
                    else parse_elements n d (c' :: rest) []
                | [] => Failed Malformed
                end
            end
          else if c =? 0x6E then syntax (pair PNone <$> strip_prefix (lit "ull") r)
          else if c =? 0x74 then syntax (pair (PBool true) <$> strip_prefix (lit "rue") r)
          else if c =? 0x66 then syntax (pair (PBool false) <$> strip_prefix (lit "alse") r)
          else if c =? 0x4E then syntax (pair (PFloat FNan) <$> strip_prefix (lit "aN") r)
          else if c =? 0x49 then
            syntax (pair (PFloat (FInf false)) <$> strip_prefix (lit "nfinity") r)
          else if c =? 0x2D then
            match strip_prefix (lit "Infinity") r with
            | Some rest => Parsed (PFloat (FInf true), rest)
            | None => scan_number true r
            end
          else scan_number false s
      end
  end
(* the elements of an array after its opening bracket, [acc] reversed *)
with parse_elements (fuel : nat) (depth : nat) (s : pystr) (acc : list pyobj)
  {struct fuel} : parsed (pyobj * pystr) :=
  match fuel with
  | O => Exhausted
  | S n =>
      match parse_value n depth s with
      | Parsed (v, rest) =>
          match skip_ws rest with
          | c :: rest' =>
              if c =? 0x5D then Parsed (PList (rev (v :: acc)), rest')
              else if c =? 0x2C then parse_elements n depth (skip_ws rest') (v :: acc)
              else Failed Malformed
          | [] => Failed Malformed
          end
      | Failed e => Failed e
      | Exhausted => Exhausted
      end
  end
(* the members of an object after its opening brace, [acc] the dict built so far *)
with parse_members (fuel : nat) (depth : nat) (s : pystr) (acc : list (pystr * pyobj))
  {struct fuel} : parsed (pyobj * pystr) :=
  match fuel with
  | O => Exhausted
  | S n =>
      match s with
      | q :: r =>
          if negb (q =? 0x22) then Failed Malformed
          else
            match scan_string r [] with
            | None => Failed Malformed
            | Some (k, rest) =>
                match skip_ws rest with
                | colon :: rest1 =>
                    if negb (colon =? 0x3A) then Failed Malformed
                    else
                      match parse_value n depth (skip_ws rest1) with
                      | Parsed (v, rest2) =>
                          match skip_ws rest2 with
                          | c :: rest3 =>
                              if c =? 0x7D then Parsed (PDict (dict_set k v acc), rest3)
                              else if c =? 0x2C then
                                parse_members n depth (skip_ws rest3) (dict_set k v acc)
                              else Failed Malformed
                          | [] => Failed Malformed
                          end
                      | Failed e => Failed e
                      | Exhausted => Exhausted
                      end
                | [] => Failed Malformed
                end
            end
      | [] => Failed Malformed
      end
  end.

(** [json.loads(s)] for a [str] argument, with [depth] levels of nesting
    available.  The fuel is more than any text of that length needs. *)
Definition json_loads (depth : nat) (s : pystr) : decode_error + pyobj :=
  match parse_value (2 * length s + 1) depth (skip_ws s) with
  | Parsed (v, rest) => match skip_ws rest with [] => inr v | _ => inl Malformed end
  | Failed e => inl e
  | Exhausted => inl Malformed
  end.

End Json.

Import Json.

(* ===================================================================== *)
(** ** Effects: the world a handler call runs in *)
(* ===================================================================== *)

Module Effects.

(** The exceptions that can travel through the handler. *)
Inductive os_error := FileNotFoundError | IsADirectoryError | PermissionError | OtherOSError.

Inductive exn :=
| ValueError            (* [int()] on text that is no integer *)
| JSONDecodeError
| RecursionError
| OverflowError
| MemoryError
| UnicodeDecodeError
| UnicodeEncodeError
| AttributeError
| OSError (kind : os_error)
| OtherException (name : pystr).

(** [except OSError] *)
Definition is_OSError (e : exn) : bool :=
  match e with OSError _ => true | _ => false end.

(** [except json.JSONDecodeError] *)
Definition is_JSONDecodeError (e : exn) : bool :=
  match e with JSONDecodeError => true | _ => false end.

Inductive result (A : Type) :=
| Ok (a : A)
| Raise (e : exn).
Arguments Ok {A} a.
Arguments Raise {A} e.

(** A [pathlib.Path]: the components below the root; [str(p)] joins them. *)
Definition path := list pystr.

Definition path_str (p : path) : pystr :=
  match p with
  | [] => lit "/"
  | _ => List.concat (List.map (fun c => 0x2F :: c) p)
  end.

(** The file system: directories, and files with their bytes. *)
Inductive node :=
| Dir
| File (readable : bool) (content : bytes).

Abbreviation filesystem := (gmap path node).

(** [shutil.rmtree(d)]: [d] and everything below it. *)
Definition rmtree (d : path) (fs : filesystem) : filesystem :=
  filter (fun kv => ¬ (d `prefix_of` kv.1)) fs.

(** What [subprocess.run(..., capture_output=True, text=True)] returns. *)
Record CompletedProcess := {
  returncode : Z;
  stdout : pystr;
  stderr : pystr;
}.

(** What the handler writes to the client.  [Response] is
    [send_response] + [send_header]s + [end_headers] + [wfile.write] (the
    headers listed are the ones the handler adds itself); [ErrorResponse]
    is [send_error], whose page is produced by [http.server]. *)
Inductive response :=
| Response (status : Z) (headers : list (pystr * pystr)) (body : bytes)
| ErrorResponse (status : Z) (message : pystr).

Definition status_of (r : response) : Z :=
  match r with Response s _ _ => s | ErrorResponse s _ => s end.

(** File and process operations, in the order they happen. *)
Inductive event :=
| EvRead (n : Z)                              (* [rfile.read(n)] *)
| EvMkdtemp (d : path)                        (* directory [d] created *)
| EvWrite (p : path) (content : bytes)        (* file [p] now holds [content] *)
| EvRun (argv : list pystr) (cwd : pystr)     (* [subprocess.run(argv, cwd=cwd)] *)
        (outcome : result CompletedProcess)   (*   and what it returned or raised *)
| EvRmtree (d : path).                        (* directory tree [d] removed *)

Record state := {
  fs : filesystem;
  rfile : bytes;            (* request bytes not read yet *)
  wfile : list response;    (* responses written, oldest first *)
  trace : list event;       (* oldest first *)
}.

(** What is fixed outside the handler: module constants and the platform
    facilities it calls. *)
Record runtime := {
  sys_executable : pystr;
  REPO_ROOT : path;
  render : renderer;
  (** [tempfile.mkdtemp]: the name it picks, or the error it raises *)
  mkdtemp : filesystem -> result path;
  (** the child process: what [subprocess.run] returns or raises, and what
      the child did to the file system *)
  run_child : list pystr -> pystr -> filesystem -> result CompletedProcess * filesystem;
  (** [Py_UNICODE_TODECIMAL]: the decimal digit value of a character in the
      interpreter's Unicode database *)
  unicode_decimal : codepoint -> option N;
  (** how many nested objects and arrays [json.loads] may enter, called from
      [_read_request_json], before the interpreter raises [RecursionError] *)
  json_depth : nat;
  (** the exception, if any, with which a read of [n] bytes fails for want of
      a buffer of that size ([MemoryError], or [OverflowError] close to the
      largest size) *)
  read_fault : Z -> option exn;
}.

(** [sys.maxsize] of a 64-bit interpreter: the largest size a read accepts. *)
Definition sys_maxsize : Z := 2 ^ 63 - 1.

(** State and exceptions. *)
Definition M (A : Type) : Type := state -> result A * state.

Definition ret {A} (a : A) : M A := fun st => (Ok a, st).

Definition raise {A} (e : exn) : M A := fun st => (Raise e, st).

Definition bind {A B} (m : M A) (k : A -> M B) : M B :=
  fun st =>
    match m st with
    | (Ok a, st') => k a st'
    | (Raise e, st') => (Raise e, st')
    end.

(** [try: m  except <catches>: h] *)
Definition try_except {A} (m : M A) (catches : exn -> bool) (h : exn -> M A) : M A :=
  fun st =>
    match m st with
    | (Raise e, st') => if catches e then h e st' else (Raise e, st')
    | r => r
    end.

Definition of_option {A} (e : exn) (o : option A) : M A :=
  match o with Some a => ret a | None => raise e end.

Definition log (ev : event) (st : state) : state :=
  {| fs := fs st; rfile := rfile st; wfile := wfile st; trace := trace st ++ [ev] |}.

Definition set_fs (f : filesystem) (st : state) : state :=
  {| fs := f; rfile := rfile st; wfile := wfile st; trace := trace st |}.

(** [self.rfile.read(n)] for [n > 0].  A size above [sys.maxsize] raises
    [OverflowError], and the buffer for [n] bytes may be refused; in both
    cases nothing has been consumed.  Otherwise the result is the next [n]
    bytes, fewer only at end of stream. *)
Definition rfile_read (rt : runtime) (n : Z) : M bytes :=
  fun st =>
    if (sys_maxsize <? n)%Z then (Raise OverflowError, st)
    else
      match read_fault rt n with
      | Some e => (Raise e, st)
      | None =>
          (Ok (take (Z.to_nat n) (rfile st)),
           log (EvRead n)
             {| fs := fs st; rfile := drop (Z.to_nat n) (rfile st);
                wfile := wfile st; trace := trace st |})
      end.

(** The exception [json.loads] raises for each way of failing. *)
Definition json_exception (e : decode_error) : exn :=
  match e with
  | Malformed => JSONDecodeError
  | TooDeep => RecursionError
  | TooLong => ValueError
  end.

Definition of_loaded (r : decode_error + pyobj) : M pyobj :=
  match r with
  | inr v => ret v
  | inl e => raise (json_exception e)
  end.

Definition send (r : response) : M unit :=
  fun st =>
    (Ok tt, {| fs := fs st; rfile := rfile st; wfile := wfile st ++ [r];
               trace := trace st |}).

(** [self.send_error(code, message)] *)
Definition send_error (code : Z) (message : pystr) : M unit :=
  send (ErrorResponse code message).

(** [p.read_text(encoding="utf-8")] *)
Definition read_text (p : path) : M pystr :=
  fun st =>
    match fs st !! p with
    | None => (Raise (OSError FileNotFoundError), st)
    | Some Dir => (Raise (OSError IsADirectoryError), st)
    | Some (File false _) => (Raise (OSError PermissionError), st)
    | Some (File true bs) =>
        match utf8_decode bs with
        | Some s => (Ok (universal_newlines s), st)
        | None => (Raise UnicodeDecodeError, st)
        end
    end.

(** [p.write_text(s, encoding="utf-8")] into an existing directory: the
    file is created empty, then the encoded text is written (as it is: a
    POSIX text file keeps its line feeds). *)
Definition write_text (p : path) (s : pystr) : M unit :=
  fun st =>
    match utf8_encode s with
    | Some bs =>
        (Ok tt, log (EvWrite p bs) (set_fs (<[p := File true bs]> (fs st)) st))
    | None =>
        (Raise UnicodeEncodeError,
         log (EvWrite p []) (set_fs (<[p := File true []]> (fs st)) st))
    end.

(** [with tempfile.TemporaryDirectory() as tmpdir: body]: the directory is
    removed when the block is left, by return or by exception, and an
    exception goes on to the caller. *)
Definition with_TemporaryDirectory {A} (rt : runtime) (body : path -> M A) : M A :=
  fun st =>
    match mkdtemp rt (fs st) with
    | Raise e => (Raise e, st)
    | Ok d =>
        let st1 := log (EvMkdtemp d) (set_fs (<[d := Dir]> (fs st)) st) in
        let '(r, st2) := body d st1 in
        (r, log (EvRmtree d) (set_fs (rmtree d (fs st2)) st2))
    end.

(** [subprocess.run(argv, cwd=cwd, capture_output=True, text=True)] *)
Definition subprocess_run (rt : runtime) (argv : list pystr) (cwd : pystr)
  : M CompletedProcess :=
  fun st =>
    let '(r, fs') := run_child rt argv cwd (fs st) in
    (r, set_fs fs' (log (EvRun argv cwd r) st)).

End Effects.

Import Effects.

Declare Scope py_scope.
Delimit Scope py_scope with py.
Notation "x <- m ;; k" := (bind m (fun x => k))
  (at level 100, m at next level, right associativity) : py_scope.
Notation "m ;;; k" := (bind m (fun _ => k))
  (at level 100, right associativity) : py_scope.
Local Open Scope py_scope.

(* ===================================================================== *)
(** ** Handler: [WebGuiHandler] *)
(* ===================================================================== *)

Module Handler.

(** The parsed request line and headers; the body is [rfile] of the state. *)
Record request := {
  req_path : pystr;
  req_headers : list (pystr * pystr);
}.

(** [self.headers.get(name, default)]: names compare without case, the
    first match is returned. *)
Fixpoint headers_get (hs : list (pystr * pystr)) (name default : pystr) : pystr :=
  match hs with
  | [] => default
  | (k, v) :: r =>
      if pystr_eqb (lower k) (lower name) then v else headers_get r name default
  end.

Definition OK : Z := 200.
Definition BAD_REQUEST : Z := 400.
Definition NOT_FOUND : Z := 404.
Definition INTERNAL_SERVER_ERROR : Z := 500.

Definition WEB_ROOT (rt : runtime) : path := REPO_ROOT rt ++ [lit "web_gui"].

Definition INDEX_PATH (rt : runtime) : path := WEB_ROOT rt ++ [lit "index.html"].

Definition len_str (body : bytes) : pystr := str_of_N (N.of_nat (length body)).

(** [_send_json(payload, status)] *)
Definition _send_json (rt : runtime) (payload : pyobj) (status : Z) : M unit :=
  body <- of_option UnicodeEncodeError (utf8_encode (json_dumps (render rt) payload)) ;;
  send (Response status
          [(lit "Content-Type", lit "application/json; charset=utf-8");
           (lit "Content-Length", len_str body)]
          body).

(** [_send_html(payload)] *)
Definition _send_html (payload : pystr) : M unit :=
  body <- of_option UnicodeEncodeError (utf8_encode payload) ;;
  send (Response OK
          [(lit "Content-Type", lit "text/html; charset=utf-8");
           (lit "Content-Length", len_str body)]
          body).

(** [_read_request_json()] *)
Definition _read_request_json (rt : runtime) (req : request) : M pyobj :=
  length <- of_option ValueError
              (py_int (unicode_decimal rt)
                 (headers_get (req_headers req) (lit "Content-Length") (lit "0"))) ;;
  if (length <=? 0)%Z then ret (PDict [])
  else
    raw <- rfile_read rt length ;;
    try_except
      (text <- of_option UnicodeDecodeError (utf8_decode raw) ;;
       of_loaded (json_loads (json_depth rt) text))
      is_JSONDecodeError
      (fun _ => ret (PDict [])).

(** [do_GET()] *)
Definition do_GET (rt : runtime) (req : request) : M unit :=
  if negb (pystr_eqb (req_path req) (lit "/")
           || pystr_eqb (req_path req) (lit "/index.html"))
  then send_error NOT_FOUND (lit "Not Found")
  else
    html <- try_except
              (text <- read_text (INDEX_PATH rt) ;; ret (Some text))
              is_OSError
              (fun _ => send_error INTERNAL_SERVER_ERROR (lit "index.html missing") ;;;
                        ret None) ;;
    match html with
    | None => ret tt
    | Some html => _send_html html
    end.

(** [payload.get(key)]: a method of [dict] only. *)
Definition py_get (payload : pyobj) (key : pystr) : M pyobj :=
  match payload with
  | PDict kvs => ret (default PNone (dict_get key kvs))
  | _ => raise AttributeError
  end.

(** The argument vector built in [do_POST]. *)
Definition cmd (rt : runtime) (temp_path : path) (script_key : pystr) : list pystr :=
  [sys_executable rt;
   path_str (REPO_ROOT rt ++ [lit "main.py"]);
   lit "--format";
   lit "lua";
   lit "--no-report";
   lit "--no-execute-output";
   lit "--force";
   path_str temp_path]
  ++ (if nonempty script_key then [lit "--script-key"; script_key] else []).

(** The JSON object answered after the tool has run. *)
Definition tool_response (result : CompletedProcess) : pyobj :=
  PDict [(lit "ok", PBool (returncode result =? 0)%Z);
         (lit "returncode", PInt (returncode result));
         (lit "output", PStr (stdout result));
         (lit "stderr", PStr (stderr result))].

Definition no_source_response : pyobj :=
  PDict [(lit "ok", PBool false); (lit "error", PStr (lit "No source provided."))].

(** [do_POST()] from line 64 on, the payload decoded. *)
Definition deobfuscate (rt : runtime) (payload : pyobj) : M unit :=
  source_v <- py_get payload (lit "source") ;;
  let source := py_str (render rt) (py_or source_v (PStr [])) in
  key_v <- py_get payload (lit "script_key") ;;
  let script_key := strip (py_str (render rt) (py_or key_v (PStr []))) in
  if negb (nonempty (strip source))
  then _send_json rt no_source_response BAD_REQUEST
  else
    result <- with_TemporaryDirectory rt (fun tmpdir =>
                let temp_path := tmpdir ++ [lit "input.lua"] in
                write_text temp_path source ;;;
                subprocess_run rt (cmd rt temp_path script_key)
                  (path_str (REPO_ROOT rt))) ;;
    _send_json rt (tool_response result) OK.

(** [do_POST()] *)
Definition do_POST (rt : runtime) (req : request) : M unit :=
  if negb (pystr_eqb (req_path req) (lit "/deobfuscate"))
  then send_error NOT_FOUND (lit "Not Found")
  else
    payload <- _read_request_json rt req ;;
    deobfuscate rt payload.

End Handler.

Import Handler.

(* ===================================================================== *)
(** ** Main: [main()] *)
(* ===================================================================== *)

Module Main.

(** What [argparse] collected from the command line for each option, before
    defaults and [type=int] are applied. *)
Record command_line := {
  given_host : option pystr;
  given_port : option pystr;
}.

Record Namespace := {
  host : pystr;
  port : Z;
}.

(** How [serve_forever()] comes to an end. *)
Inductive serve_end :=
| KeyboardInterrupt
| ServeRaises (e : exn)
| ServeReturns.

(** The machine around [main]: whether the listener can be bound, and how
    serving ends. *)
Record surroundings := {
  bind_error : pystr -> Z -> option exn;
  serving : serve_end;
}.

(** How [main] ends. *)
Inductive ending :=
| Returns (code : Z)
| UsageError                        (* [parser.error(...)]: exit status 2 *)
| SystemExit (message : pystr)      (* [raise SystemExit(message)] *)
| Propagates (e : exn).

(** What [main] does that can be seen from outside. *)
Inductive action :=
| Bound (h : pystr) (p : Z)         (* [ThreadingHTTPServer((h, p), WebGuiHandler)] *)
| Printed (line : pystr)            (* [print(line)] *)
| Served.                           (* [serve_forever()] entered *)

(** [parser.parse_args()] for the two options of [main]: [--host] with
    default 127.0.0.1, [--port] with [type=int] and default 8000.  A port
    that [int()] rejects is a usage error. *)
Definition parse_args (rt : runtime) (cl : command_line) : ending + Namespace :=
  match given_port cl with
  | None =>
      inr {| host := default (lit "127.0.0.1") (given_host cl); port := 8000 |}
  | Some t =>
      match py_int (unicode_decimal rt) t with
      | Some p => inr {| host := default (lit "127.0.0.1") (given_host cl); port := p |}
      | None => inl UsageError
      end
  end.

(** [INDEX_PATH.exists()] *)
Definition exists_ (p : path) (f : filesystem) : bool := bool_decide (is_Some (f !! p)).

Definition missing_message (rt : runtime) : pystr :=
  lit "Missing " ++ path_str (INDEX_PATH rt) ++ lit "; did you checkout the web_gui folder?".

Definition listening_line (args : Namespace) : pystr :=
  lit "Listening on http://" ++ host args ++ lit ":" ++ str_of_Z (port args).

(** [main()] *)
Definition main (rt : runtime) (w : surroundings) (cl : command_line)
    (f : filesystem) : ending * list action :=
  match parse_args rt cl with
  | inl e => (e, [])
  | inr args =>
      if negb (exists_ (INDEX_PATH rt) f)
      then (SystemExit (missing_message rt), [])
      else
        match bind_error w (host args) (port args) with
        | Some e => (Propagates e, [])
        | None =>
            let acts := [Bound (host args) (port args); Printed (listening_line args);
                         Served] in
            match serving w with
            | KeyboardInterrupt => (Returns 0, acts)
            | ServeReturns => (Returns 0, acts)
            | ServeRaises e => (Propagates e, acts)
            end
        end
  end.

End Main.

Import Main.

(* ===================================================================== *)
(** ** Vocabulary of the specification *)
(* ===================================================================== *)

(** What one handler call adds to the trace and to the client's stream. *)
Definition events_of {A} (m : M A) (st : state) : list event :=
  drop (length (trace st)) (trace (m st).2).

Definition replies_of {A} (m : M A) (st : state) : list response :=
  drop (length (wfile st)) (wfile (m st).2).

(** Lines 64 and 65 of [do_POST] on the items of a dict payload. *)
Definition source_of (rt : runtime) (kvs : list (pystr * pyobj)) : pystr :=
  py_str (render rt) (py_or (default PNone (dict_get (lit "source") kvs)) (PStr [])).

Definition script_key_of (rt : runtime) (kvs : list (pystr * pyobj)) : pystr :=
  strip (py_str (render rt)
           (py_or (default PNone (dict_get (lit "script_key") kvs)) (PStr []))).

(** [source] absent, empty, or made of whitespace only. *)
Definition blank_source (kvs : list (pystr * pyobj)) : Prop :=
  match dict_get (lit "source") kvs with
  | None => True
  | Some (PStr s) => forallb py_isspace s = true
  | Some _ => False
  end.


(** A Unicode scalar value: what a strict decoder yields and what can be
    encoded. *)
Definition scalar (c : codepoint) : Prop :=
  is_surrogate c = false /\ c <= 0x10FFFF.

Definition ascii_text (s : pystr) : Prop := Forall (fun c => c < 0x80) s.

(** The bytes of a text that is ASCII throughout. *)
Definition ascii_bytes (s : pystr) : bytes := List.map byte_of_N s.

(** The response [_send_json] writes for an ASCII rendering. *)
Definition json_response (rt : runtime) (payload : pyobj) (status : Z) : response :=
  let body := ascii_bytes (json_dumps (render rt) payload) in
  Response status
    [(lit "Content-Type", lit "application/json; charset=utf-8");
     (lit "Content-Length", len_str body)]
    body.

(** The response [_send_html] writes for body bytes [body]. *)
Definition html_response (body : bytes) : response :=
  Response OK
    [(lit "Content-Type", lit "text/html; charset=utf-8");
     (lit "Content-Length", len_str body)]
    body.

(** The fixed part of the tool's argument vector, up to the staged path. *)
Definition fixed_args (rt : runtime) (staged : path) : list pystr :=
  [sys_executable rt; path_str (REPO_ROOT rt ++ [lit "main.py"]);
   lit "--format"; lit "lua"; lit "--no-report"; lit "--no-execute-output";
   lit "--force"; path_str staged].

(** JSON text written with apostrophes for its quotation marks. *)
Definition json_text (s : string) : pystr :=
  List.map (fun c => if c =? 0x27 then 0x22 else c) (lit s).

(** A value [json.dumps] renders without help from the interpreter. *)
Definition flat (v : pyobj) : Prop :=
  match v with
  | PNone | PBool _ | PInt _ | PStr _ => True
  | _ => False
  end.

(** The state after a step that leaves the input stream alone: file system
    [f], responses [rs] and events [evs] added. *)
Definition advance (st : state) (f : filesystem) (rs : list response)
    (evs : list event) : state :=
  {| fs := f; rfile := rfile st; wfile := wfile st ++ rs;
     trace := trace st ++ evs |}.

(** The state after [rfile.read(n)]. *)
Definition after_read (n : Z) (st : state) : state :=
  {| fs := fs st; rfile := drop (Z.to_nat n) (rfile st); wfile := wfile st;
     trace := trace st ++ [EvRead n] |}.

(** The declared body length, as [_read_request_json] computes it. *)
Definition declared_length (rt : runtime) (req : request) : option Z :=
  py_int (unicode_decimal rt)
    (headers_get (req_headers req) (lit "Content-Length") (lit "0")).

(** The body is read, in one read of the declared [n] bytes. *)
Definition reads_body (rt : runtime) (req : request) (n : Z) : Prop :=
  declared_length rt req = Some n /\ (0 < n <= sys_maxsize)%Z
  /\ read_fault rt n = None.

(** *** The exit paths of [_read_request_json] and [do_POST] as relations *)

(** [decodes rt req st payload pre]: [_read_request_json] returns [payload]
    after the events [pre]. *)
Inductive decodes (rt : runtime) (req : request) (st : state)
  : pyobj -> list event -> Prop :=
| decodes_no_body n :
    declared_length rt req = Some n -> (n <= 0)%Z ->
    decodes rt req st (PDict []) []
| decodes_json n text v :
    reads_body rt req n ->
    utf8_decode (take (Z.to_nat n) (rfile st)) = Some text ->
    json_loads (json_depth rt) text = inr v ->
    decodes rt req st v [EvRead n]
| decodes_not_json n text :
    reads_body rt req n ->
    utf8_decode (take (Z.to_nat n) (rfile st)) = Some text ->
    json_loads (json_depth rt) text = inl Malformed ->
    decodes rt req st (PDict []) [EvRead n].

(** [decoder_raises rt req st e pre]: [_read_request_json] raises [e] after
    the events [pre]. *)
Inductive decoder_raises (rt : runtime) (req : request) (st : state)
  : exn -> list event -> Prop :=
| raises_bad_length :
    declared_length rt req = None ->
    decoder_raises rt req st ValueError []
| raises_too_large n :
    declared_length rt req = Some n -> (sys_maxsize < n)%Z ->
    decoder_raises rt req st OverflowError []
| raises_no_buffer n e :
    declared_length rt req = Some n -> (0 < n <= sys_maxsize)%Z ->
    read_fault rt n = Some e ->
    decoder_raises rt req st e []
| raises_bad_utf8 n :
    reads_body rt req n ->
    utf8_decode (take (Z.to_nat n) (rfile st)) = None ->
    decoder_raises rt req st UnicodeDecodeError [EvRead n]
| raises_too_deep n text :
    reads_body rt req n ->
    utf8_decode (take (Z.to_nat n) (rfile st)) = Some text ->
    json_loads (json_depth rt) text = inl TooDeep ->
    decoder_raises rt req st RecursionError [EvRead n]
| raises_too_long n text :
    reads_body rt req n ->
    utf8_decode (take (Z.to_nat n) (rfile st)) = Some text ->
    json_loads (json_depth rt) text = inl TooLong ->
    decoder_raises rt req st ValueError [EvRead n].

(** [exit_path rt req st r evs rs f]: [do_POST] ends with result [r],
    having added the events [evs] and the responses [rs], and leaves the
    file system [f]. *)
Inductive exit_path (rt : runtime) (req : request) (st : state)
  : result unit -> list event -> list response -> filesystem -> Prop :=
| exit_not_found :
    req_path req <> lit "/deobfuscate" ->
    exit_path rt req st (Ok tt) [] [ErrorResponse NOT_FOUND (lit "Not Found")] (fs st)
| exit_decoder_fault e pre :
    req_path req = lit "/deobfuscate" ->
    decoder_raises rt req st e pre ->
    exit_path rt req st (Raise e) pre [] (fs st)
| exit_not_dict payload pre :
    req_path req = lit "/deobfuscate" ->
    decodes rt req st payload pre ->
    (forall kvs, payload <> PDict kvs) ->
    exit_path rt req st (Raise AttributeError) pre [] (fs st)
| exit_rejected kvs pre :
    req_path req = lit "/deobfuscate" ->
    decodes rt req st (PDict kvs) pre ->
    nonempty (strip (source_of rt kvs)) = false ->
    exit_path rt req st (Ok tt) pre
      [json_response rt no_source_response BAD_REQUEST] (fs st)
| exit_temp_fault kvs pre e :
    req_path req = lit "/deobfuscate" ->
    decodes rt req st (PDict kvs) pre ->
    nonempty (strip (source_of rt kvs)) = true ->
    mkdtemp rt (fs st) = Raise e ->
    exit_path rt req st (Raise e) pre [] (fs st)
| exit_write_fault kvs pre d :
    req_path req = lit "/deobfuscate" ->
    decodes rt req st (PDict kvs) pre ->
    nonempty (strip (source_of rt kvs)) = true ->
    mkdtemp rt (fs st) = Ok d ->
    utf8_encode (source_of rt kvs) = None ->
    let staged := d ++ [lit "input.lua"] in
    exit_path rt req st (Raise UnicodeEncodeError)
      (pre ++ [EvMkdtemp d; EvWrite staged []; EvRmtree d]) []
      (rmtree d (<[staged := File true []]> (<[d := Dir]> (fs st))))
| exit_tool_fault kvs pre d bs e f2 :
    req_path req = lit "/deobfuscate" ->
    decodes rt req st (PDict kvs) pre ->
    nonempty (strip (source_of rt kvs)) = true ->
    mkdtemp rt (fs st) = Ok d ->
    utf8_encode (source_of rt kvs) = Some bs ->
    let staged := d ++ [lit "input.lua"] in
    let argv := cmd rt staged (script_key_of rt kvs) in
    let cwd := path_str (REPO_ROOT rt) in
    run_child rt argv cwd (<[staged := File true bs]> (<[d := Dir]> (fs st)))
      = (Raise e, f2) ->
    exit_path rt req st (Raise e)
      (pre ++ [EvMkdtemp d; EvWrite staged bs; EvRun argv cwd (Raise e); EvRmtree d])
      [] (rmtree d f2)
| exit_completed kvs pre d bs cp f2 :
    req_path req = lit "/deobfuscate" ->
    decodes rt req st (PDict kvs) pre ->
    nonempty (strip (source_of rt kvs)) = true ->
    mkdtemp rt (fs st) = Ok d ->
    utf8_encode (source_of rt kvs) = Some bs ->
    let staged := d ++ [lit "input.lua"] in
    let argv := cmd rt staged (script_key_of rt kvs) in
    let cwd := path_str (REPO_ROOT rt) in
    run_child rt argv cwd (<[staged := File true bs]> (<[d := Dir]> (fs st)))
      = (Ok cp, f2) ->
    exit_path rt req st (Ok tt)
      (pre ++ [EvMkdtemp d; EvWrite staged bs; EvRun argv cwd (Ok cp); EvRmtree d])
      [json_response rt (tool_response cp) OK] (rmtree d f2).

(** The responses of status 500 to 599. *)
Definition server_error (r : response) : Prop :=
  (500 <= status_of r <= 599)%Z.

(** The asset cannot be opened: missing, a directory, or unreadable. *)
Definition unopenable (o : option node) : Prop :=
  o = None \/ o = Some Dir \/ exists bs, o = Some (File false bs).

(* ===================================================================== *)
(** ** A concrete world, for running the handler *)

(* ===================================================================== *)

(** A field of a JSON object. *)
Definition field (k : pystr) (payload : pyobj) : option pyobj :=
  match payload with
  | PDict kvs => dict_get k kvs
  | _ => None
  end.

Definition sample_renderer : renderer :=
  {| float_repr := fun _ => lit "0.0"; container_repr := fun _ => lit "[]" |}.

Definition sample_tmpdir : path := [lit "tmp"; lit "tmp3k9xq1zs"].

(** A Unicode database that knows the Arabic-Indic and the fullwidth
    digits besides the ASCII ones. *)
Definition sample_decimal (c : codepoint) : option N :=
  if (0x30 <=? c) && (c <=? 0x39) then Some (c - 0x30)
  else if (0x660 <=? c) && (c <=? 0x669) then Some (c - 0x660)
  else if (0xFF10 <=? c) && (c <=? 0xFF19) then Some (c - 0xFF10)
  else None.

(** An installation under [/srv/luraph] whose child process ends with
    [outcome] and touches no file, on a machine that has no buffer of more
    than a tebibyte and whose stack takes 990 levels of JSON nesting. *)
Definition sample_runtime (outcome : result CompletedProcess) : runtime :=
  {| sys_executable := lit "/usr/bin/python3";
     REPO_ROOT := [lit "srv"; lit "luraph"];
     render := sample_renderer;
     mkdtemp := fun _ => Ok sample_tmpdir;
     run_child := fun _ _ f => (outcome, f);
     unicode_decimal := sample_decimal;
     json_depth := 990;
     read_fault := fun n => if (2 ^ 40 <? n)%Z then Some MemoryError else None |}.

(** A file system holding the page [asset], and a connection on which
    [body] is waiting. *)
Definition sample_state (asset body : bytes) : state :=
  {| fs := {[ [lit "srv"; lit "luraph"; lit "web_gui"; lit "index.html"]
              := File true asset ]};
     rfile := body; wfile := []; trace := [] |}.

(** A POST to [/deobfuscate] declaring the length of [body]. *)
Definition post (body : bytes) : request :=
  {| req_path := lit "/deobfuscate";
     req_headers := [(lit "Content-Length", len_str body)] |}.

Definition get (p : string) : request :=
  {| req_path := lit p; req_headers := [] |}.

Definition tool_ok : CompletedProcess :=
  {| returncode := 0; stdout := lit "print(1)"; stderr := [] |}.

Definition body_print : bytes := ascii_bytes (json_text "{'source': 'print(1)'}").

Definition argv_print : list pystr :=
  [lit "/usr/bin/python3"; lit "/srv/luraph/main.py"; lit "--format"; lit "lua";
   lit "--no-report"; lit "--no-execute-output"; lit "--force";
   lit "/tmp/tmp3k9xq1zs/input.lua"].

Definition body_blank : bytes := ascii_bytes (json_text "{'source': ' \t\n '}").

Definition body_key : bytes :=
  ascii_bytes (json_text "{'source': 'x', 'script_key': ' abc '}").



Definition body_empty_source : bytes := ascii_bytes (json_text "{'source': ''}").

Definition body_list : bytes := ascii_bytes (json_text "[]").
Definition body_brace : bytes := ascii_bytes (json_text "{").

Definition asset_crlf : bytes := ascii_bytes (lit "<p>" ++ [0x0D; 0x0A]).
Definition asset_lf : bytes := ascii_bytes (lit "<p>" ++ [0x0A]).

(* ===================================================================== *)
(** ** Vocabulary for the further properties *)
(* ===================================================================== *)

(** The bytes a response carries ([send_error] pages are not modelled). *)
Definition body_of (r : response) : bytes :=
  match r with Response _ _ b => b | ErrorResponse _ _ => [] end.

(** The value of a header the handler set itself. *)
Definition header_of (name : pystr) (r : response) : option pystr :=
  match r with
  | Response _ hs _ => snd <$> List.find (fun kv => pystr_eqb (fst kv) name) hs
  | ErrorResponse _ _ => None
  end.

(** Bytes below 0x80 only. *)
Definition ascii_body (bs : bytes) : Prop := Forall (fun b => Byte.to_N b < 0x80) bs.

(** The child process leaves the file system as it found it. *)
Definition quiet_child (rt : runtime) : Prop :=
  forall argv cwd f, (run_child rt argv cwd f).2 = f.

(** Nothing exists yet at or below the name [mkdtemp] picks in [f]. *)
Definition fresh_tmp (rt : runtime) (f : filesystem) : Prop :=
  forall d, mkdtemp rt f = Ok d -> forall p : path, d `prefix_of` p -> f !! p = None.

(** What [do_POST] can add to the trace: at most one read of the body,
    then nothing, or a staging that failed at the write, or a staging with
    one run of the tool; a directory that was made is removed last. *)
Inductive staging_shape : list event -> Prop :=
| shape_none : staging_shape []
| shape_write_failed d :
    staging_shape [EvMkdtemp d; EvWrite (d ++ [lit "input.lua"]) []; EvRmtree d]
| shape_run d bs argv cwd outcome :
    staging_shape [EvMkdtemp d; EvWrite (d ++ [lit "input.lua"]) bs;
                   EvRun argv cwd outcome; EvRmtree d].

Inductive read_shape : list event -> Prop :=
| shape_no_read : read_shape []
| shape_one_read n : (0 < n)%Z -> read_shape [EvRead n].

(** No whitespace anywhere in the text. *)
Definition no_space (s : pystr) : Prop := Forall (fun c => py_isspace c = false) s.

(** *** For the JSON round trip *)

(** The characters that follow a value inside an object: [,] and [}]. *)
Definition delimiter (c : codepoint) : Prop := c = 0x2C \/ c = 0x7D.

(** The number of decimal digits of [z]. *)
Definition int_digits (z : Z) : N := N.of_nat (length (str_of_N (Z.abs_N z))).

(** A value [json.dumps] writes and [json.loads] gives back: no float, no
    container, no lone surrogate in a string, no integer beyond the limit
    on digits. *)
Definition sendable (v : pyobj) : Prop :=
  match v with
  | PNone | PBool _ => True
  | PInt z => int_digits z <= int_max_str_digits
  | PStr s => Forall scalar s
  | _ => False
  end.

(** An integer within the limit on digits, or any other value. *)
Definition within_limit (v : pyobj) : Prop :=
  match v with
  | PInt z => int_digits z <= int_max_str_digits
  | _ => True
  end.

(** The shallow integers of a parsed value: the value itself, or the
    values of its items when it is an object. *)
Definition shallow_ints_within_limit (v : pyobj) : Prop :=
  within_limit v
  /\ forall kvs, v = PDict kvs -> Forall (fun kv => within_limit kv.2) kvs.

(** One item of an object as [json.dumps] writes it. *)
Definition item (R : renderer) (kv : pystr * pyobj) : pystr :=
  json_quote kv.1 ++ lit ": " ++ json_dumps R kv.2.

(** The items [kvs] stored one by one into the dict [acc], as the parser
    does. *)
Definition set_all (kvs acc : list (pystr * pyobj)) : list (pystr * pyobj) :=
  fold_left (fun a kv => dict_set kv.1 kv.2 a) kvs acc.

(** *** More requests and tools for the concrete world *)

(** A POST to [/deobfuscate] declaring the length [len], whatever it is. *)
Definition post_with_length (len : string) : request :=
  {| req_path := lit "/deobfuscate"; req_headers := [(lit "content-length", lit len)] |}.

(** A run of the tool that fails with a message on its error stream. *)
Definition tool_failed : CompletedProcess :=
  {| returncode := 1; stdout := []; stderr := lit "error: bad input" |}.

(** Bodies that are a JSON string, no JSON at all, an object whose source
    holds a lone surrogate, and an object whose source is a number. *)
Definition body_string : bytes := ascii_bytes (json_text "'print(1)'").

Definition body_form : bytes := ascii_bytes (lit "source=print(1)").

Definition body_surrogate : bytes := ascii_bytes (json_text "{'source': 'x\ud800'}").

(** Output outside ASCII, ending in a lone surrogate. *)
Definition tool_unicode : CompletedProcess :=
  {| returncode := 0; stdout := [0x68; 0xE9; 0x1F600; 0xDC00]; stderr := [] |}.

Definition body_number : bytes := ascii_bytes (json_text "{'source': -42}").

(** Output with a quotation mark, a tab, text outside ASCII and outside the
    basic plane, and a line end. *)
Definition tool_noisy : CompletedProcess :=
  {| returncode := 3;
     stdout := 0x22 :: 0x09 :: 0xE9 :: 0x1F600 :: lit "\n";
     stderr := lit "line 1: unexpected symbol near '<eof>'" |}.

(** Bodies that open one array more than the sample stack takes, and that
    give [source] an integer of 4301 digits. *)
Definition body_deep : bytes := List.repeat x5b 991.

Definition body_long_int : bytes :=
  ascii_bytes (json_text "{'source': " ++ List.repeat 0x31 4301 ++ lit "}").

(** What [json.dumps] writes for an object of three items. *)
Definition body_dumped : bytes :=
  ascii_bytes
    (json_text "{'source': 'print(\'h\u00e9\')', 'script_key': null, 'tries': -3}").

(** A machine on which the listener can always be bound. *)
Definition sample_surroundings (how : serve_end) : surroundings :=
  {| bind_error := fun _ _ => None; serving := how |}.

Definition no_options : command_line := {| given_host := None; given_port := None |}.

(* ===================================================================== *)
(** ** Properties of the codecs *)
(* ===================================================================== *)

Section Utf8Facts.

Local Ltac div_lia := zify; Z.to_euclidean_division_equations; lia.
Local Ltac contra := exfalso; lia.

Lemma byte_of_to_N (b : byte) : byte_of_N (Byte.to_N b) = b.
Proof. unfold byte_of_N. by rewrite Byte.of_to_N. Qed.

Lemma is_cont_range (n : N) : is_cont n = true -> 0x80 <= n <= 0xBF.
Proof. unfold is_cont. intros [?%N.leb_le ?%N.leb_le]%andb_true_iff. lia. Qed.

Lemma encode_cp_1 (b0 : byte) :
  Byte.to_N b0 < 0x80 -> encode_cp (Byte.to_N b0) = [b0].
Proof.
  intros H. unfold encode_cp.
  destruct (N.ltb_spec (Byte.to_N b0) 0x80); [|contra].
  by rewrite byte_of_to_N.
Qed.

Lemma encode_cp_2 (b0 b1 : byte) :
  let n0 := Byte.to_N b0 in
  let n1 := Byte.to_N b1 in
  let c := (n0 - 0xC0) * 64 + (n1 - 0x80) in
  0xC0 <= n0 < 0xE0 -> 0x80 <= n1 <= 0xBF -> 0x80 <= c ->
  encode_cp c = [b0; b1].
Proof.
  intros n0 n1 c H0 H1 Hc. unfold encode_cp.
  destruct (N.ltb_spec c 0x80); [contra|].
  destruct (N.ltb_spec c 0x800); [|exfalso; subst c; lia].
  assert (0xC0 + c / 64 = n0) as -> by (subst c; div_lia).
  assert (0x80 + c mod 64 = n1) as -> by (subst c; div_lia).
  subst n0 n1. by rewrite !byte_of_to_N.
Qed.

Lemma encode_cp_3 (b0 b1 b2 : byte) :
  let n0 := Byte.to_N b0 in
  let n1 := Byte.to_N b1 in
  let n2 := Byte.to_N b2 in
  let c := (n0 - 0xE0) * 4096 + (n1 - 0x80) * 64 + (n2 - 0x80) in
  0xE0 <= n0 < 0xF0 -> 0x80 <= n1 <= 0xBF -> 0x80 <= n2 <= 0xBF -> 0x800 <= c ->
  encode_cp c = [b0; b1; b2].
Proof.
  intros n0 n1 n2 c H0 H1 H2 Hc. unfold encode_cp.
  destruct (N.ltb_spec c 0x80); [contra|].
  destruct (N.ltb_spec c 0x800); [contra|].
  destruct (N.ltb_spec c 0x10000); [|exfalso; subst c; lia].
  assert (0xE0 + c / 4096 = n0) as -> by (subst c; div_lia).
  assert (0x80 + (c / 64) mod 64 = n1) as -> by (subst c; div_lia).
  assert (0x80 + c mod 64 = n2) as -> by (subst c; div_lia).
  subst n0 n1 n2. by rewrite !byte_of_to_N.
Qed.

Lemma encode_cp_4 (b0 b1 b2 b3 : byte) :
  let n0 := Byte.to_N b0 in
  let n1 := Byte.to_N b1 in
  let n2 := Byte.to_N b2 in
  let n3 := Byte.to_N b3 in
  let c := (n0 - 0xF0) * 262144 + (n1 - 0x80) * 4096 + (n2 - 0x80) * 64 + (n3 - 0x80) in
  0xF0 <= n0 < 0xF5 -> 0x80 <= n1 <= 0xBF -> 0x80 <= n2 <= 0xBF ->
  0x80 <= n3 <= 0xBF -> 0x10000 <= c ->
  encode_cp c = [b0; b1; b2; b3].
Proof.
  intros n0 n1 n2 n3 c H0 H1 H2 H3 Hc. unfold encode_cp.
  destruct (N.ltb_spec c 0x80); [contra|].
  destruct (N.ltb_spec c 0x800); [contra|].
  destruct (N.ltb_spec c 0x10000); [contra|].
  assert (0xF0 + c / 262144 = n0) as -> by (subst c; div_lia).
  assert (0x80 + (c / 4096) mod 64 = n1) as -> by (subst c; div_lia).
  assert (0x80 + (c / 64) mod 64 = n2) as -> by (subst c; div_lia).
  assert (0x80 + c mod 64 = n3) as -> by (subst c; div_lia).
  subst n0 n1 n2 n3. by rewrite !byte_of_to_N.
Qed.

Lemma scalar_intro (c : codepoint) :
  c < 0xD800 \/ 0xDFFF < c -> c <= 0x10FFFF -> scalar c.
Proof.
  intros Hc Hmax. split; [|done]. unfold is_surrogate.
  apply andb_false_iff. rewrite !N.leb_gt. lia.
Qed.

(** One step of the decoder: the first code point, the bytes it was read
    from, and the rest. *)
Lemma utf8_decode_step (b0 : byte) (r0 : bytes) (s : pystr) :
  utf8_decode (b0 :: r0) = Some s ->
  exists c rest s',
    b0 :: r0 = encode_cp c ++ rest /\ s = c :: s'
    /\ utf8_decode rest = Some s' /\ scalar c
    /\ (c < 0x80 -> c = Byte.to_N b0)
    /\ (length rest < length (b0 :: r0))%nat.
Proof.
  cbn [utf8_decode]. intros H.
  destruct (N.ltb_spec (Byte.to_N b0) 0x80) as [L1|L1].
  { apply fmap_Some in H as (s' & Hs' & ->).
    exists (Byte.to_N b0), r0, s'.
    rewrite encode_cp_1 by done. split_and!; try done.
    - apply scalar_intro; lia.
    - simpl; lia. }
  destruct (N.ltb_spec (Byte.to_N b0) 0xC0) as [L2|L2]; [done|].
  destruct (N.ltb_spec (Byte.to_N b0) 0xE0) as [L3|L3].
  { destruct r0 as [|b1 r1]; [done|].
    destruct (is_cont _ && _) eqn:E; [|done].
    apply andb_true_iff in E as [C1%is_cont_range Hc%N.leb_le].
    apply fmap_Some in H as (s' & Hs' & ->).
    eexists _, r1, s'.
    rewrite (encode_cp_2 b0 b1) by (done || lia). split_and!; try done.
    - apply scalar_intro; lia.
    - intros; exfalso; lia.
    - simpl; lia. }
  destruct (N.ltb_spec (Byte.to_N b0) 0xF0) as [L4|L4].
  { destruct r0 as [|b1 [|b2 r2]]; [done..|].
    destruct (is_cont _ && _ && _ && _) eqn:E; [|done].
    apply andb_true_iff in E as [E Hs%negb_true_iff].
    apply andb_true_iff in E as [E Hc%N.leb_le].
    apply andb_true_iff in E as [C1%is_cont_range C2%is_cont_range].
    apply fmap_Some in H as (s' & Hs' & ->).
    eexists _, r2, s'.
    rewrite (encode_cp_3 b0 b1 b2) by (done || lia). split_and!; try done.
    - split; [done | lia].
    - intros; exfalso; lia.
    - simpl; lia. }
  destruct (N.ltb_spec (Byte.to_N b0) 0xF5) as [L5|L5]; [|done].
  destruct r0 as [|b1 [|b2 [|b3 r3]]]; [done..|].
  destruct (is_cont _ && _ && _ && _ && _) eqn:E; [|done].
  apply andb_true_iff in E as [E Hmax%N.leb_le].
  apply andb_true_iff in E as [E Hc%N.leb_le].
  apply andb_true_iff in E as [E C3%is_cont_range].
  apply andb_true_iff in E as [C1%is_cont_range C2%is_cont_range].
  apply fmap_Some in H as (s' & Hs' & ->).
  eexists _, r3, s'.
  rewrite (encode_cp_4 b0 b1 b2 b3) by (done || lia). split_and!; try done.
  - apply scalar_intro; lia.
  - intros; exfalso; lia.
  - simpl; lia.
Qed.

Lemma utf8_decode_facts (n : nat) :
  forall (bs : bytes) (s : pystr),
    (length bs <= n)%nat -> utf8_decode bs = Some s ->
    utf8_encode s = Some bs /\ Forall scalar s
    /\ (x0d ∉ bs -> 0x0D ∉ s).
Proof.
  assert (Hnil : forall s : pystr, utf8_decode [] = Some s ->
            utf8_encode s = Some [] /\ Forall scalar s /\ (x0d ∉ @nil byte -> 0x0D ∉ s)).
  { intros s [= <-]. split_and!; [done | constructor | intros _; apply not_elem_of_nil]. }
  induction n as [|n IH]; intros [|b0 r0] s Hlen Hdec; auto.
  { simpl in Hlen; lia. }
  apply utf8_decode_step in Hdec
    as (c & rest & s' & Hbs & -> & Hrest & Hc & Hlow & Hshort).
  destruct (IH rest s') as (Henc & Hsc & Hcr); [simpl in *; lia | done |].
  split_and!.
  - cbn [utf8_encode]. destruct Hc as [-> Hmax].
    destruct (N.ltb_spec 0x10FFFF c); [exfalso; lia|].
    cbn. rewrite Henc. cbn. by rewrite Hbs.
  - by constructor.
  - intros Hno. apply not_elem_of_cons. split.
    + intros <-. apply Hno. rewrite <- (byte_of_to_N b0), <- Hlow by done.
      apply list_elem_of_here.
    + apply Hcr. rewrite Hbs in Hno. by apply not_elem_of_app in Hno as [_ Hno].
Qed.

(** Decoding then encoding gives the bytes back. *)
Lemma utf8_encode_decode (bs : bytes) (s : pystr) :
  utf8_decode bs = Some s -> utf8_encode s = Some bs.
Proof. intros H. by apply (utf8_decode_facts (length bs)). Qed.

Lemma utf8_decode_scalar (bs : bytes) (s : pystr) :
  utf8_decode bs = Some s -> Forall scalar s.
Proof. intros H. by apply (utf8_decode_facts (length bs) bs). Qed.

Lemma utf8_decode_no_cr (bs : bytes) (s : pystr) :
  utf8_decode bs = Some s -> x0d ∉ bs -> 0x0D ∉ s.
Proof. intros H. by apply (utf8_decode_facts (length bs) bs). Qed.

Lemma utf8_encode_scalar (s : pystr) :
  Forall scalar s -> is_Some (utf8_encode s).
Proof.
  induction 1 as [|c r [Hs Hmax] _ [bs IH]]; [by eexists|].
  cbn [utf8_encode]. rewrite Hs.
  destruct (N.ltb_spec 0x10FFFF c); [exfalso; lia|].
  cbn. rewrite IH. by eexists.
Qed.

Lemma utf8_encode_ascii (s : pystr) :
  ascii_text s -> utf8_encode s = Some (ascii_bytes s).
Proof.
  induction 1 as [|c r Hc _ IH]; [done|].
  cbn [utf8_encode]. unfold is_surrogate.
  destruct (N.leb_spec 0xD800 c); [exfalso; lia|].
  destruct (N.ltb_spec 0x10FFFF c); [exfalso; lia|].
  cbn. rewrite IH. cbn. unfold encode_cp.
  destruct (N.ltb_spec c 0x80); [done | exfalso; lia].
Qed.

Lemma universal_newlines_scalar (s : pystr) :
  Forall scalar s -> Forall scalar (universal_newlines s).
Proof.
  assert (Hlf : scalar 0x0A) by (by apply scalar_intro; [left|]).
  induction 1 as [|c r Hc Hr IH]; [constructor|].
  cbn [universal_newlines]. destruct (c =? 0x0D); [|by constructor].
  destruct Hr as [|c' r' Hc' Hr']; [by constructor|].
  destruct (N.eqb_spec c' 0x0A) as [->|Hne]; constructor; try done.
  cbn in IH. by inversion IH.
Qed.

Lemma universal_newlines_no_cr (s : pystr) :
  0x0D ∉ s -> universal_newlines s = s.
Proof.
  induction s as [|c r IH]; [done|].
  intros [Hc Hr]%not_elem_of_cons. cbn [universal_newlines].
  destruct (N.eqb_spec c 0x0D); [congruence|]. by rewrite IH.
Qed.

Lemma to_N_byte_of_N (n : N) : n < 256 -> Byte.to_N (byte_of_N n) = n.
Proof.
  intros Hn. unfold byte_of_N. destruct (Byte.of_N n) as [b|] eqn:E.
  - by apply Byte.to_of_N.
  - apply Byte.of_N_None_iff in E. exfalso; lia.
Qed.

Lemma is_cont_intro (n : N) : 0x80 <= n <= 0xBF -> is_cont n = true.
Proof. intros H. unfold is_cont. apply andb_true_iff. rewrite !N.leb_le. lia. Qed.

Local Ltac ltb_case :=
  match goal with
  | |- context [N.ltb ?a ?b] =>
      destruct (N.ltb_spec a b); [try (exfalso; div_lia) | try (exfalso; div_lia)]
  end.

(** One step of the decoder on the bytes of one encoded code point. *)
Lemma utf8_decode_encode_cp (c : codepoint) (rest : bytes) :
  scalar c -> utf8_decode (encode_cp c ++ rest) = cons c <$> utf8_decode rest.
Proof.
  intros [Hs Hmax]. unfold is_surrogate in Hs.
  apply andb_false_iff in Hs. rewrite !N.leb_gt in Hs.
  unfold encode_cp.
  destruct (N.ltb_spec c 0x80).
  { cbn [app utf8_decode]. rewrite to_N_byte_of_N by lia.
    destruct (N.ltb_spec c 0x80); [done | exfalso; lia]. }
  destruct (N.ltb_spec c 0x800).
  { cbn [app utf8_decode].
    rewrite !to_N_byte_of_N by div_lia.
    do 3 ltb_case.
    rewrite is_cont_intro by div_lia.
    assert ((0xC0 + c / 64 - 0xC0) * 64 + (0x80 + c mod 64 - 0x80) = c) as -> by div_lia.
    destruct (N.leb_spec 0x80 c); [done | exfalso; lia]. }
  destruct (N.ltb_spec c 0x10000).
  { cbn [app utf8_decode].
    rewrite !to_N_byte_of_N by div_lia.
    do 4 ltb_case.
    rewrite !is_cont_intro by div_lia.
    assert ((0xE0 + c / 4096 - 0xE0) * 4096 + (0x80 + (c / 64) mod 64 - 0x80) * 64
            + (0x80 + c mod 64 - 0x80) = c) as -> by div_lia.
    unfold is_surrogate.
    destruct (N.leb_spec 0x800 c); [|exfalso; lia].
    destruct (N.leb_spec 0xD800 c), (N.leb_spec c 0xDFFF); try done; exfalso; lia. }
  cbn [app utf8_decode].
  rewrite !to_N_byte_of_N by div_lia.
  do 5 ltb_case.
  rewrite !is_cont_intro by div_lia.
  assert ((0xF0 + c / 262144 - 0xF0) * 262144 + (0x80 + (c / 4096) mod 64 - 0x80) * 4096
          + (0x80 + (c / 64) mod 64 - 0x80) * 64 + (0x80 + c mod 64 - 0x80) = c)
    as -> by div_lia.
  destruct (N.leb_spec 0x10000 c); [|exfalso; lia].
  destruct (N.leb_spec c 0x10FFFF); [done | exfalso; lia].
Qed.

(** Encoding then decoding gives the text back. *)
Lemma utf8_decode_encode (s : pystr) (bs : bytes) :
  utf8_encode s = Some bs -> utf8_decode bs = Some s.
Proof.
  revert bs. induction s as [|c r IH]; intros bs; cbn [utf8_encode].
  { by intros [= <-]. }
  destruct (is_surrogate c) eqn:Hs; [done|].
  destruct (N.ltb_spec 0x10FFFF c); [done|]. cbn [orb].
  intros (bs' & Hr & ->)%fmap_Some.
  rewrite utf8_decode_encode_cp by (split; [done | lia]).
  by rewrite (IH bs' Hr).
Qed.

End Utf8Facts.

Section JsonFacts.

Local Ltac ascii_literal :=
  apply (bool_decide_unpack _); vm_compute; exact I.

Lemma ascii_text_app (a b : pystr) :
  ascii_text a -> ascii_text b -> ascii_text (a ++ b).
Proof. apply Forall_app_2. Qed.

Lemma hex_digit_ascii (n : N) : n < 16 -> hex_digit n < 0x80.
Proof. intros H. unfold hex_digit. destruct (N.ltb_spec n 10); lia. Qed.

Lemma u_escape_ascii (c : N) : ascii_text (u_escape c).
Proof.
  unfold u_escape.
  repeat constructor; apply hex_digit_ascii; by apply N.mod_lt.
Qed.

Lemma escape_char_ascii (c : codepoint) : ascii_text (escape_char c).
Proof.
  unfold escape_char.
  do 7 (match goal with
        | |- ascii_text (if ?b then _ else _) => destruct b
        end; [ascii_literal|]).
  destruct (_ && _) eqn:E.
  { apply andb_true_iff in E as [_ E%N.leb_le]. repeat constructor. lia. }
  destruct (c <? 0x10000); [apply u_escape_ascii|].
  apply ascii_text_app; apply u_escape_ascii.
Qed.

Lemma json_quote_ascii (s : pystr) : ascii_text (json_quote s).
Proof.
  unfold json_quote. constructor; [done|].
  apply ascii_text_app; [|ascii_literal].
  induction s as [|c r IH]; [constructor|].
  cbn. apply ascii_text_app; [apply escape_char_ascii | apply IH].
Qed.

Lemma dec_digits_ascii (fuel : nat) :
  forall (n : N) (acc : pystr), ascii_text acc -> ascii_text (dec_digits fuel n acc).
Proof.
  induction fuel as [|f IH]; intros n acc Hacc; [done|].
  cbn [dec_digits].
  assert (ascii_text ((0x30 + n mod 10) :: acc)).
  { constructor; [|done]. pose proof (N.mod_lt n 10). lia. }
  destruct (n <? 10); [done | by apply IH].
Qed.

Lemma str_of_Z_ascii (z : Z) : ascii_text (str_of_Z z).
Proof.
  destruct z; cbn [str_of_Z]; try constructor; try done;
    apply dec_digits_ascii; constructor.
Qed.

Lemma join_ascii (sep : pystr) (parts : list pystr) :
  ascii_text sep -> Forall ascii_text parts -> ascii_text (join sep parts).
Proof.
  intros Hsep. induction 1 as [|p r Hp Hr IH]; [constructor|].
  cbn [join]. destruct r; [done|].
  apply ascii_text_app; [done|]. by apply ascii_text_app.
Qed.

Lemma json_dumps_flat (R : renderer) (v : pyobj) :
  flat v -> ascii_text (json_dumps R v).
Proof.
  destruct v as [| [] | z | | s | |]; cbn [json_dumps flat]; try done; intros _.
  - ascii_literal.
  - ascii_literal.
  - ascii_literal.
  - apply str_of_Z_ascii.
  - apply json_quote_ascii.
Qed.

(** A dict of flat values is rendered in ASCII. *)
Lemma json_dumps_flat_dict (R : renderer) (kvs : list (pystr * pyobj)) :
  Forall (fun kv => flat kv.2) kvs -> ascii_text (json_dumps R (PDict kvs)).
Proof.
  intros H. cbn [json_dumps].
  apply ascii_text_app; [ascii_literal|].
  apply ascii_text_app; [|ascii_literal].
  apply join_ascii; [ascii_literal|].
  induction H as [|[k v] r Hv _ IH]; [constructor|].
  cbn [List.map]. constructor; [|done].
  apply ascii_text_app; [apply json_quote_ascii|].
  apply ascii_text_app; [ascii_literal | by apply json_dumps_flat].
Qed.

End JsonFacts.

(** *** The codecs at work *)

Example utf8_decode_two_and_four_bytes :
  utf8_decode [xc3; xa9; xf0; x9f; x98; x80] = Some [0xE9; 0x1F600].
Proof. reflexivity. Qed.

Example utf8_decode_rejects_overlong : utf8_decode [xc0; x80] = None.
Proof. reflexivity. Qed.

Example utf8_decode_rejects_surrogate : utf8_decode [xed; xa0; x80] = None.
Proof. reflexivity. Qed.

Example utf8_encode_rejects_surrogate : utf8_encode [0x61; 0xD800] = None.
Proof. reflexivity. Qed.

Example py_int_forms :
  py_int sample_decimal (lit " 12_3 ") = Some 123%Z
  /\ py_int sample_decimal (lit "-5") = Some (-5)%Z
  /\ py_int sample_decimal (lit "1__2") = None
  /\ py_int sample_decimal (lit "abc") = None
  /\ py_int sample_decimal (lit "") = None.
Proof. by vm_compute. Qed.

(** U+001F is whitespace for [str.strip] but not for [int()]; a no-break
    space and fullwidth digits are accepted. *)
Example py_int_unicode :
  py_int sample_decimal (0x1F :: lit "22") = None
  /\ strip (0x1F :: lit "22") = lit "22"
  /\ py_int sample_decimal [0xA0; 0xFF18; 0xFF10; 0xFF18; 0xFF10] = Some 8080%Z
  /\ py_int sample_decimal [0x38; 0xE9] = None.
Proof. by vm_compute. Qed.

Example py_int_digit_limit :
  is_Some (py_int sample_decimal (List.repeat 0x31 4300))
  /\ py_int sample_decimal (List.repeat 0x31 4301) = None.
Proof. split; [by vm_compute; eexists | by vm_compute]. Qed.

Example json_loads_object :
  json_loads 2 (json_text "{'a': [1, -2.5e3, null], 'b': true, 'a': 'x\u00e9'}")
  = inr (PDict [(lit "a", PStr [0x78; 0xE9]); (lit "b", PBool true)]).
Proof. by vm_compute. Qed.

Example json_loads_rejects :
  json_loads 2 (json_text "[1,]") = inl Malformed
  /\ json_loads 2 (json_text "01") = inl Malformed
  /\ json_loads 2 (json_text "{'a' 1}") = inl Malformed
  /\ json_loads 2 [] = inl Malformed
  /\ json_loads 2 (json_text "'a' x") = inl Malformed.
Proof. by vm_compute. Qed.

(** Nesting beyond the depth available is a [RecursionError], also where
    the text would turn out malformed further on; an integer of too many
    digits is a [ValueError], a float of as many digits is not. *)
Example json_loads_limits :
  json_loads 2 (json_text "[[[]]]") = inl TooDeep
  /\ json_loads 3 (json_text "[[[]]]") = inr (PList [PList [PList []]])
  /\ json_loads 2 (json_text "[[[") = inl TooDeep
  /\ json_loads 3 (json_text "[[[") = inl Malformed
  /\ json_loads 2 (List.repeat 0x31 4301) = inl TooLong
  /\ json_loads 2 (0x5B :: List.repeat 0x31 4301) = inl TooLong
  /\ (exists f, json_loads 2 (List.repeat 0x31 4301 ++ lit ".5") = inr (PFloat f)).
Proof. split_and!; try by vm_compute. vm_compute. by eexists. Qed.

Example json_dumps_then_loads :
  json_loads 1 (json_dumps sample_renderer (tool_response tool_ok))
  = inr (tool_response tool_ok).
Proof. by vm_compute. Qed.

(* ===================================================================== *)
(** ** The handler's exit paths, spelled out *)
(* ===================================================================== *)

Section ExitPaths.

Variable rt : runtime.

Lemma advance_id (st : state) : advance st (fs st) [] [] = st.
Proof. destruct st. unfold advance. cbn. by rewrite !app_nil_r. Qed.

Lemma advance_advance (st : state) f1 rs1 evs1 f2 rs2 evs2 :
  advance (advance st f1 rs1 evs1) f2 rs2 evs2
  = advance st f2 (rs1 ++ rs2) (evs1 ++ evs2).
Proof. unfold advance. cbn. by rewrite !app_assoc. Qed.

Lemma events_of_trace {A} (m : M A) (st : state) (evs : list event) :
  trace (m st).2 = trace st ++ evs -> events_of m st = evs.
Proof. intros H. unfold events_of. rewrite H. apply drop_app_length. Qed.

Lemma replies_of_wfile {A} (m : M A) (st : state) (rs : list response) :
  wfile (m st).2 = wfile st ++ rs -> replies_of m st = rs.
Proof. intros H. unfold replies_of. rewrite H. apply drop_app_length. Qed.

Lemma send_json_flat (kvs : list (pystr * pyobj)) (status : Z) (st : state) :
  Forall (fun kv => flat kv.2) kvs ->
  _send_json rt (PDict kvs) status st
  = (Ok tt, advance st (fs st) [json_response rt (PDict kvs) status] []).
Proof.
  intros H. unfold _send_json, bind.
  rewrite (utf8_encode_ascii _ (json_dumps_flat_dict _ _ H)).
  unfold advance, json_response. cbn. by rewrite app_nil_r.
Qed.

Lemma tool_response_flat (cp : CompletedProcess) :
  Forall (fun kv : pystr * pyobj => flat kv.2)
    [(lit "ok", PBool (returncode cp =? 0)%Z); (lit "returncode", PInt (returncode cp));
     (lit "output", PStr (stdout cp)); (lit "stderr", PStr (stderr cp))].
Proof. by repeat constructor. Qed.

(** [_read_request_json], path by path. *)
Lemma read_request_json_eq (req : request) (st : state) :
  _read_request_json rt req st =
    match declared_length rt req with
    | None => (Raise ValueError, st)
    | Some n =>
        if (n <=? 0)%Z then (Ok (PDict []), st)
        else if (sys_maxsize <? n)%Z then (Raise OverflowError, st)
        else
          match read_fault rt n with
          | Some e => (Raise e, st)
          | None =>
              match utf8_decode (take (Z.to_nat n) (rfile st)) with
              | None => (Raise UnicodeDecodeError, after_read n st)
              | Some text =>
                  match json_loads (json_depth rt) text with
                  | inr v => (Ok v, after_read n st)
                  | inl Malformed => (Ok (PDict []), after_read n st)
                  | inl TooDeep => (Raise RecursionError, after_read n st)
                  | inl TooLong => (Raise ValueError, after_read n st)
                  end
              end
          end
    end.
Proof.
  unfold _read_request_json, declared_length, bind.
  destruct (py_int _ _) as [n|]; [|done]. cbn.
  destruct (n <=? 0)%Z; [done|].
  unfold try_except, bind, rfile_read.
  destruct (sys_maxsize <? n)%Z; [done|].
  destruct (read_fault rt n); [done|]. cbn.
  destruct (utf8_decode _) as [text|]; [|done]. cbn.
  by destruct (json_loads _ text) as [[| |]|v].
Qed.

Lemma deobfuscate_not_dict (payload : pyobj) (st : state) :
  (forall kvs, payload <> PDict kvs) ->
  deobfuscate rt payload st = (Raise AttributeError, st).
Proof. intros H. destruct payload; try done. by destruct (H kvs). Qed.

(** [do_POST] after decoding, path by path, for a dict payload. *)
Lemma deobfuscate_dict (kvs : list (pystr * pyobj)) (st : state) :
  deobfuscate rt (PDict kvs) st =
    let source := source_of rt kvs in
    if nonempty (strip source) then
      match mkdtemp rt (fs st) with
      | Raise e => (Raise e, st)
      | Ok d =>
          let staged := d ++ [lit "input.lua"] in
          let fs1 := <[d := Dir]> (fs st) in
          match utf8_encode source with
          | None =>
              (Raise UnicodeEncodeError,
               advance st (rmtree d (<[staged := File true []]> fs1)) []
                 [EvMkdtemp d; EvWrite staged []; EvRmtree d])
          | Some bs =>
              let argv := cmd rt staged (script_key_of rt kvs) in
              let cwd := path_str (REPO_ROOT rt) in
              let out := run_child rt argv cwd (<[staged := File true bs]> fs1) in
              let evs := [EvMkdtemp d; EvWrite staged bs; EvRun argv cwd out.1;
                          EvRmtree d] in
              match out.1 with
              | Raise e => (Raise e, advance st (rmtree d out.2) [] evs)
              | Ok cp =>
                  (Ok tt, advance st (rmtree d out.2)
                            [json_response rt (tool_response cp) OK] evs)
              end
          end
      end
    else
      (Ok tt, advance st (fs st) [json_response rt no_source_response BAD_REQUEST] []).
Proof.
  unfold deobfuscate, py_get, source_of, script_key_of. cbn zeta.
  unfold bind at 1. cbn [ret]. unfold bind at 1. cbn [ret].
  destruct (nonempty (strip _)); cbn [negb].
  2: { unfold no_source_response. rewrite send_json_flat; [done|].
       by repeat constructor. }
  unfold bind, with_TemporaryDirectory.
  destruct (mkdtemp rt (fs st)) as [d|e]; [|done].
  unfold write_text. destruct (utf8_encode _) as [bs|].
  2: { unfold advance, log, set_fs. cbn [fs rfile wfile trace].
       by rewrite <- !app_assoc, app_nil_r. }
  unfold subprocess_run. cbn [fs rfile wfile trace log set_fs].
  destruct (run_child _ _ _ _) as [[cp|e] f2]; cbn [fst snd].
  - unfold tool_response. rewrite send_json_flat by apply tool_response_flat.
    unfold advance, log, set_fs. cbn [fs rfile wfile trace].
    by rewrite <- !app_assoc, app_nil_r.
  - unfold advance, log, set_fs. cbn [fs rfile wfile trace].
    by rewrite <- !app_assoc, app_nil_r.
Qed.

End ExitPaths.

Section ExitRelation.

Variable rt : runtime.

Lemma events_of_advance {A} (m : M A) (st st1 : state) r f rs evs pre :
  m st = (r, advance st1 f rs evs) -> trace st1 = trace st ++ pre ->
  events_of m st = pre ++ evs.
Proof.
  intros Hm Hpre. apply events_of_trace. rewrite Hm. cbn.
  by rewrite Hpre, app_assoc.
Qed.

Lemma replies_of_advance {A} (m : M A) (st st1 : state) r f rs evs :
  m st = (r, advance st1 f rs evs) -> wfile st1 = wfile st ->
  replies_of m st = rs.
Proof.
  intros Hm Hw. apply replies_of_wfile. rewrite Hm. cbn. by rewrite Hw.
Qed.

Local Ltac read_cases req st n :=
  rewrite read_request_json_eq;
  destruct (declared_length rt req) as [n|] eqn:Hn;
  [destruct (Z.leb_spec n 0);
   [|destruct (Z.ltb_spec sys_maxsize n);
     [|destruct (read_fault rt n) eqn:Hfault;
       [|assert (reads_body rt req n) by (split_and!; (done || lia));
         destruct (utf8_decode (take (Z.to_nat n) (rfile st))) as [text|] eqn:Hdec;
         [destruct (json_loads (json_depth rt) text) as [[| |]|v] eqn:Hj|]]]]|].

(** What [_read_request_json] does when it returns. *)
Lemma read_request_json_ok (req : request) (st st1 : state) (payload : pyobj) :
  _read_request_json rt req st = (Ok payload, st1) ->
  exists pre, decodes rt req st payload pre
              /\ fs st1 = fs st /\ wfile st1 = wfile st
              /\ trace st1 = trace st ++ pre.
Proof.
  read_cases req st n; intros [= <- <-];
    first [ exists []; rewrite app_nil_r; split_and!; try done;
            by eapply decodes_no_body
          | exists [EvRead n]; split_and!; try done;
            first [by eapply decodes_json | by eapply decodes_not_json] ].
Qed.

(** What [_read_request_json] does when it raises. *)
Lemma read_request_json_raise (req : request) (st st1 : state) (e : exn) :
  _read_request_json rt req st = (Raise e, st1) ->
  exists pre, decoder_raises rt req st e pre
              /\ fs st1 = fs st /\ wfile st1 = wfile st
              /\ trace st1 = trace st ++ pre.
Proof.
  read_cases req st n; intros [= <- <-];
    first [ exists []; rewrite app_nil_r; split_and!; try done;
            first [ by apply raises_bad_length
                  | by eapply raises_too_large
                  | eapply raises_no_buffer; (done || lia) ]
          | exists [EvRead n]; split_and!; try done;
            eauto using raises_bad_utf8, raises_too_deep, raises_too_long ].
Qed.

Lemma exit_intro (m : M unit) (req : request) (st st1 : state) r f rs evs pre :
  m st = (r, advance st1 f rs evs) ->
  wfile st1 = wfile st -> trace st1 = trace st ++ pre ->
  exit_path rt req st r (pre ++ evs) rs f ->
  exit_path rt req st (m st).1 (events_of m st) (replies_of m st) (fs (m st).2).
Proof.
  intros Hm Hw Ht Hexit.
  rewrite (events_of_advance m st st1 r f rs evs pre Hm Ht).
  rewrite (replies_of_advance m st st1 r f rs evs Hm Hw).
  by rewrite Hm.
Qed.

(** The part of [do_POST] that follows decoding. *)
Lemma exit_after_decoding (req : request) (st st1 : state) payload pre :
  req_path req = lit "/deobfuscate" ->
  decodes rt req st payload pre -> fs st1 = fs st ->
  exists r f rs evs,
    deobfuscate rt payload st1 = (r, advance st1 f rs evs)
    /\ exit_path rt req st r (pre ++ evs) rs f.
Proof.
  intros Hp Hd Hfs.
  assert (Hcase : (exists kvs, payload = PDict kvs)
                  \/ (forall kvs, payload <> PDict kvs))
    by (destruct payload; eauto).
  destruct Hcase as [[kvs ->]|Hnd].
  2: { exists (Raise AttributeError), (fs st1), [], [].
       rewrite deobfuscate_not_dict, advance_id, app_nil_r, Hfs by done.
       eauto using exit_not_dict. }
  rewrite deobfuscate_dict. cbn zeta. rewrite Hfs.
  destruct (nonempty (strip (source_of rt kvs))) eqn:Hsrc.
  2: { eexists _, _, _, _. split; [done|]. rewrite app_nil_r.
       eauto using exit_rejected. }
  destruct (mkdtemp rt (fs st)) as [d|e] eqn:Htmp.
  2: { exists (Raise e), (fs st1), [], [].
       rewrite advance_id, app_nil_r, Hfs. eauto using exit_temp_fault. }
  destruct (utf8_encode (source_of rt kvs)) as [bs|] eqn:Henc.
  2: { eexists _, _, _, _. split; [done|]. by eapply exit_write_fault. }
  destruct (run_child _ _ _ _) as [[cp|e] f2] eqn:Hrun; cbn [fst snd];
    eexists _, _, _, _; (split; [done|]).
  - by eapply exit_completed.
  - by eapply exit_tool_fault.
Qed.

(** Every call of [do_POST] leaves by one of the exit paths. *)
Lemma do_POST_exit (req : request) (st : state) :
  exit_path rt req st (do_POST rt req st).1
    (events_of (do_POST rt req) st) (replies_of (do_POST rt req) st)
    (fs (do_POST rt req st).2).
Proof.
  destruct (decide (req_path req = lit "/deobfuscate")) as [Hp|Hp].
  2: { apply (exit_intro _ req st st (Ok tt) (fs st)
                [ErrorResponse NOT_FOUND (lit "Not Found")] [] []);
         [|done|by rewrite app_nil_r|by apply exit_not_found].
       unfold do_POST, pystr_eqb. rewrite bool_decide_eq_false_2 by done.
       unfold advance. cbn. by rewrite app_nil_r. }
  assert (Hpost : do_POST rt req st
                  = bind (_read_request_json rt req) (deobfuscate rt) st).
  { unfold do_POST, pystr_eqb. by rewrite bool_decide_eq_true_2. }
  unfold bind in Hpost.
  destruct (_read_request_json rt req st) as [[payload|e] st1] eqn:Hread.
  - destruct (read_request_json_ok req st st1 payload Hread)
      as (pre & Hd & Hfs & Hw & Ht).
    destruct (exit_after_decoding req st st1 payload pre Hp Hd Hfs)
      as (r & f & rs & evs & Hrun & Hexit).
    apply (exit_intro _ req st st1 r f rs evs pre); [congruence|done..].
  - destruct (read_request_json_raise req st st1 e Hread)
      as (pre & Hd & Hfs & Hw & Ht).
    apply (exit_intro _ req st st1 (Raise e) (fs st) [] [] pre); [|done|done|].
    + rewrite Hpost, <- Hfs. f_equal. symmetry. apply advance_id.
    + rewrite app_nil_r. by apply exit_decoder_fault.
Qed.

End ExitRelation.

Section Inversions.

Variable rt : runtime.

Lemma decodes_reads (req : request) (st : state) payload pre :
  decodes rt req st payload pre -> forall ev, ev ∈ pre -> exists n, ev = EvRead n.
Proof.
  destruct 1; intros ev Hev;
    first [by apply elem_of_nil in Hev
          | apply list_elem_of_singleton in Hev; eauto].
Qed.

Lemma decoder_raises_reads (req : request) (st : state) e pre :
  decoder_raises rt req st e pre -> forall ev, ev ∈ pre -> exists n, ev = EvRead n.
Proof.
  destruct 1; intros ev Hev;
    first [by apply elem_of_nil in Hev
          | apply list_elem_of_singleton in Hev; eauto].
Qed.

(** [do_POST_exit] with the four observations named. *)
Lemma do_POST_exit_named (req : request) (st : state) :
  exists r evs rs f,
    (do_POST rt req st).1 = r /\ events_of (do_POST rt req) st = evs
    /\ replies_of (do_POST rt req) st = rs /\ fs (do_POST rt req st).2 = f
    /\ exit_path rt req st r evs rs f.
Proof. eexists _, _, _, _. split_and!; try done. apply do_POST_exit. Qed.

Local Ltac not_in_pre Hd H :=
  let E := fresh in
  first [ destruct (decodes_reads _ _ _ _ Hd _ H) as [? E]
        | destruct (decoder_raises_reads _ _ _ _ Hd _ H) as [? E] ];
  discriminate E.

Local Ltac pick_event H :=
  repeat match type of H with
         | _ ∈ [] => apply elem_of_nil in H; destruct H
         | _ ∈ [_] => apply list_elem_of_singleton in H
         | _ ∈ _ :: _ => apply elem_of_cons in H as [H|H]
         end;
  try discriminate H.

Local Ltac exit_paths req st Hin :=
  let Hexit := fresh "Hexit" in
  let Hr := fresh in let Hevs := fresh in let Hrs := fresh in let Hf := fresh in
  destruct (do_POST_exit_named req st)
    as (? & ? & ? & ? & Hr & Hevs & Hrs & Hf & Hexit);
  rewrite Hevs in Hin; rewrite ?Hr, ?Hevs, ?Hrs, ?Hf; clear Hr Hevs Hrs Hf;
  destruct Hexit as
    [ ? | e pre ? Hd | payload pre ? Hd ? | kvs pre ? Hd ?
    | kvs pre e ? Hd ? ? | kvs pre d ? Hd ? ? ?
    | kvs pre d bs e f2 ? Hd ? ? ? ? ? ? Hrun
    | kvs pre d bs cp f2 ? Hd ? ? ? ? ? ? Hrun ];
  try (pick_event Hin; fail);
  try (not_in_pre Hd Hin; fail);
  (apply elem_of_app in Hin as [Hin|Hin]; [not_in_pre Hd Hin|]);
  pick_event Hin.

(** A subprocess call in the trace pins down the exit path. *)
Lemma run_inv (req : request) (st : state) argv cwd outcome :
  EvRun argv cwd outcome ∈ events_of (do_POST rt req) st ->
  exists kvs pre d bs f2,
    let staged := d ++ [lit "input.lua"] in
    decodes rt req st (PDict kvs) pre
    /\ nonempty (strip (source_of rt kvs)) = true
    /\ mkdtemp rt (fs st) = Ok d
    /\ utf8_encode (source_of rt kvs) = Some bs
    /\ argv = cmd rt staged (script_key_of rt kvs)
    /\ cwd = path_str (REPO_ROOT rt)
    /\ run_child rt argv cwd (<[staged := File true bs]> (<[d := Dir]> (fs st)))
       = (outcome, f2)
    /\ events_of (do_POST rt req) st
       = pre ++ [EvMkdtemp d; EvWrite staged bs; EvRun argv cwd outcome; EvRmtree d]
    /\ fs (do_POST rt req st).2 = rmtree d f2
    /\ (do_POST rt req st).1
       = match outcome with Ok _ => Ok tt | Raise e => Raise e end
    /\ replies_of (do_POST rt req) st
       = match outcome with
         | Ok cp => [json_response rt (tool_response cp) OK]
         | Raise _ => []
         end.
Proof.
  intros Hin. exit_paths req st Hin.
  - injection Hin as -> -> ->. exists kvs, pre, d, bs, f2. by split_and!.
  - injection Hin as -> -> ->. exists kvs, pre, d, bs, f2. by split_and!.
Qed.

(** A created directory in the trace: it is removed before [do_POST] ends. *)
Lemma mkdtemp_inv (req : request) (st : state) (tmpdir : path) :
  EvMkdtemp tmpdir ∈ events_of (do_POST rt req) st ->
  exists f', fs (do_POST rt req st).2 = rmtree tmpdir f'.
Proof.
  intros Hin. exit_paths req st Hin; injection Hin as ->; eauto.
Qed.

Lemma rmtree_lookup (d p : path) (f : filesystem) :
  d `prefix_of` p -> rmtree d f !! p = None.
Proof.
  intros Hpre. unfold rmtree. apply map_lookup_filter_None. right.
  intros x _ Hnot. by apply Hnot.
Qed.

End Inversions.

Section Forward.

Variable rt : runtime.

Lemma do_POST_decoded (req : request) (st st1 : state) (payload : pyobj) :
  req_path req = lit "/deobfuscate" ->
  _read_request_json rt req st = (Ok payload, st1) ->
  do_POST rt req st = deobfuscate rt payload st1.
Proof.
  intros Hp Hdec. unfold do_POST, pystr_eqb.
  rewrite bool_decide_eq_true_2 by done. cbn [negb].
  unfold bind. by rewrite Hdec.
Qed.

Lemma lstrip_all_space (s : pystr) : forallb py_isspace s = true -> lstrip s = [].
Proof.
  induction s as [|c r IH]; [done|].
  cbn [forallb lstrip]. intros [-> Hr]%andb_true_iff. by apply IH.
Qed.

Lemma strip_all_space (s : pystr) : forallb py_isspace s = true -> strip s = [].
Proof. intros H. unfold strip, rstrip. by rewrite (lstrip_all_space s H). Qed.

Lemma blank_source_strip (kvs : list (pystr * pyobj)) :
  blank_source kvs -> nonempty (strip (source_of rt kvs)) = false.
Proof.
  unfold blank_source, source_of.
  destruct (dict_get (lit "source") kvs) as [[| | | |s| |]|]; try done.
  intros Hs. cbn [default from_option id]. unfold py_or.
  destruct (py_truthy (PStr s)); cbn [py_str]; [|reflexivity].
  by rewrite (strip_all_space s Hs).
Qed.

(** The accepted path of [do_POST], once a directory has been obtained and
    the source encoded. *)
Lemma do_POST_staged (req : request) (st st1 : state)
    (kvs : list (pystr * pyobj)) (d : path) (bs : bytes) :
  req_path req = lit "/deobfuscate" ->
  _read_request_json rt req st = (Ok (PDict kvs), st1) ->
  nonempty (strip (source_of rt kvs)) = true ->
  mkdtemp rt (fs st) = Ok d ->
  utf8_encode (source_of rt kvs) = Some bs ->
  let staged := d ++ [lit "input.lua"] in
  let argv := cmd rt staged (script_key_of rt kvs) in
  let cwd := path_str (REPO_ROOT rt) in
  let out := run_child rt argv cwd (<[staged := File true bs]> (<[d := Dir]> (fs st))) in
  exists pre,
    decodes rt req st (PDict kvs) pre
    /\ events_of (do_POST rt req) st
       = pre ++ [EvMkdtemp d; EvWrite staged bs; EvRun argv cwd out.1; EvRmtree d]
    /\ replies_of (do_POST rt req) st
       = match out.1 with
         | Ok cp => [json_response rt (tool_response cp) OK]
         | Raise _ => []
         end
    /\ (do_POST rt req st).1
       = match out.1 with Ok _ => Ok tt | Raise e => Raise e end
    /\ fs (do_POST rt req st).2 = rmtree d out.2.
Proof.
  intros Hp Hdec Hsrc Htmp Henc staged argv cwd out.
  pose proof (do_POST_decoded req st st1 _ Hp Hdec) as Hpost.
  apply read_request_json_ok in Hdec as (pre & Hd & Hfs & Hw & Ht).
  rewrite deobfuscate_dict in Hpost. cbn zeta in Hpost.
  rewrite Hsrc, Hfs, Htmp, Henc in Hpost.
  fold staged argv cwd out in Hpost.
  exists pre. split; [done|].
  destruct out.1 as [cp|e].
  - rewrite (events_of_advance _ _ _ _ _ _ _ pre Hpost Ht).
    rewrite (replies_of_advance _ _ _ _ _ _ _ Hpost Hw).
    by rewrite Hpost.
  - rewrite (events_of_advance _ _ _ _ _ _ _ pre Hpost Ht).
    rewrite (replies_of_advance _ _ _ _ _ _ _ Hpost Hw).
    by rewrite Hpost.
Qed.

(** The rejected path of [do_POST]. *)
Lemma do_POST_rejected (req : request) (st st1 : state)
    (kvs : list (pystr * pyobj)) :
  req_path req = lit "/deobfuscate" ->
  _read_request_json rt req st = (Ok (PDict kvs), st1) ->
  nonempty (strip (source_of rt kvs)) = false ->
  exists pre,
    decodes rt req st (PDict kvs) pre
    /\ events_of (do_POST rt req) st = pre
    /\ replies_of (do_POST rt req) st
       = [json_response rt no_source_response BAD_REQUEST]
    /\ (do_POST rt req st).1 = Ok tt
    /\ fs (do_POST rt req st).2 = fs st.
Proof.
  intros Hp Hdec Hsrc.
  pose proof (do_POST_decoded req st st1 _ Hp Hdec) as Hpost.
  apply read_request_json_ok in Hdec as (pre & Hd & Hfs & Hw & Ht).
  rewrite deobfuscate_dict in Hpost. cbn zeta in Hpost.
  rewrite Hsrc, Hfs in Hpost.
  exists pre. split; [done|].
  rewrite (events_of_advance _ _ _ _ _ _ _ pre Hpost Ht), app_nil_r.
  rewrite (replies_of_advance _ _ _ _ _ _ _ Hpost Hw).
  by rewrite Hpost.
Qed.

End Forward.

Section Staging.

Variable rt : runtime.




Lemma cmd_fixed_args (staged : path) (key : pystr) :
  cmd rt staged key
  = if nonempty key then fixed_args rt staged ++ [lit "--script-key"; key]
    else fixed_args rt staged.
Proof. unfold cmd, fixed_args. destruct (nonempty key); [done|]. by rewrite app_nil_r. Qed.

Lemma run_in_staged_trace (req : request) (st : state) payload pre d staged bs
    argv cwd outcome argv' cwd' outcome' :
  decodes rt req st payload pre ->
  EvRun argv' cwd' outcome'
    ∈ pre ++ [EvMkdtemp d; EvWrite staged bs; EvRun argv cwd outcome; EvRmtree d] ->
  argv' = argv /\ cwd' = cwd /\ outcome' = outcome.
Proof.
  intros Hd [Hin|Hin]%elem_of_app.
  - destruct (decodes_reads _ _ _ _ _ Hd _ Hin) as [n E]. discriminate E.
  - repeat match type of Hin with
           | _ ∈ [] => apply elem_of_nil in Hin; destruct Hin
           | _ ∈ _ :: _ => apply elem_of_cons in Hin as [Hin|Hin]
           end; try discriminate Hin.
    by injection Hin as -> -> ->.
Qed.

End Staging.

Section Coercion.

Variable rt : runtime.





Lemma headers_get_absent (hs : list (pystr * pystr)) (name default : pystr) :
  (forall k v, (k, v) ∈ hs -> lower k <> lower name) ->
  headers_get hs name default = default.
Proof.
  induction hs as [|[k v] r IH]; [done|]. intros Hno. cbn [headers_get].
  unfold pystr_eqb. rewrite bool_decide_eq_false_2.
  - apply IH. intros k' v' Hin. apply (Hno k' v'). by apply list_elem_of_further.
  - apply (Hno k v). apply list_elem_of_here.
Qed.

End Coercion.

Section StaticPage.

Variable rt : runtime.

(** [do_GET], path by path. *)
Lemma do_GET_eq (req : request) (st : state) :
  do_GET rt req st =
    if pystr_eqb (req_path req) (lit "/") || pystr_eqb (req_path req) (lit "/index.html")
    then
      match fs st !! INDEX_PATH rt with
      | Some (File true bs) =>
          match utf8_decode bs with
          | Some text =>
              match utf8_encode (universal_newlines text) with
              | Some body => (Ok tt, advance st (fs st) [html_response body] [])
              | None => (Raise UnicodeEncodeError, st)
              end
          | None => (Raise UnicodeDecodeError, st)
          end
      | _ =>
          (Ok tt, advance st (fs st)
                    [ErrorResponse INTERNAL_SERVER_ERROR (lit "index.html missing")] [])
      end
    else (Ok tt, advance st (fs st) [ErrorResponse NOT_FOUND (lit "Not Found")] []).
Proof.
  unfold do_GET. destruct (_ || _); cbn [negb].
  2: { unfold send_error, send, advance. cbn. by rewrite app_nil_r. }
  unfold bind, try_except, read_text.
  destruct (fs st !! INDEX_PATH rt) as [[|[] bs]|]; cbn;
    try (unfold advance; cbn; by rewrite app_nil_r).
  destruct (utf8_decode bs) as [text|]; cbn; [|done].
  unfold _send_html, bind. destruct (utf8_encode _) as [body|]; cbn; [|done].
  unfold advance, html_response. cbn. by rewrite app_nil_r.
Qed.

End StaticPage.

(* ===================================================================== *)
(** ** The claims *)
(* ===================================================================== *)

Local Ltac event_in_trace :=
  vm_compute; repeat first [apply list_elem_of_here | apply list_elem_of_further].

(** C1. For every completed tool invocation of POST /deobfuscate, the [ok]
    field of the JSON response is true if and only if the exit code of the
    tool is 0 (and [returncode] carries that exit code). *)
Theorem ok_iff_returncode_zero (rt : runtime) (req : request) (st : state)
    (argv : list pystr) (cwd : pystr) (cp : CompletedProcess) :
  EvRun argv cwd (Ok cp) ∈ events_of (do_POST rt req) st ->
  exists payload b,
    replies_of (do_POST rt req) st = [json_response rt payload OK]
    /\ field (lit "returncode") payload = Some (PInt (returncode cp))
    /\ field (lit "ok") payload = Some (PBool b)
    /\ (b = true <-> returncode cp = 0%Z).
Proof.
  intros Hin.
  apply run_inv in Hin as (kvs & pre & d & bs & f2 & H); cbn zeta in H.
  destruct H as (_ & _ & _ & _ & _ & _ & _ & _ & _ & _ & Hreplies).
  exists (tool_response cp), (returncode cp =? 0)%Z.
  split_and!; [done | done | done |]. apply Z.eqb_eq.
Qed.

Lemma ok_iff_returncode_zero_witness :
  EvRun argv_print (lit "/srv/luraph") (Ok tool_ok)
    ∈ events_of (do_POST (sample_runtime (Ok tool_ok)) (post body_print))
        (sample_state [] body_print)
  /\ exists payload b,
       replies_of (do_POST (sample_runtime (Ok tool_ok)) (post body_print))
         (sample_state [] body_print)
       = [json_response (sample_runtime (Ok tool_ok)) payload OK]
       /\ field (lit "returncode") payload = Some (PInt (returncode tool_ok))
       /\ field (lit "ok") payload = Some (PBool b)
       /\ (b = true <-> returncode tool_ok = 0%Z).
Proof.
  assert (Hin : EvRun argv_print (lit "/srv/luraph") (Ok tool_ok)
                  ∈ events_of (do_POST (sample_runtime (Ok tool_ok)) (post body_print))
                      (sample_state [] body_print)) by event_in_trace.
  split; [exact Hin|].
  exact (ok_iff_returncode_zero _ _ _ _ _ _ Hin).
Defined.

(** C2. Whenever POST /deobfuscate has created its staging directory,
    neither the directory nor anything below it exists once the handler
    has finished, whatever the exit path: a response sent, a tool that
    failed, or an exception from staging or from running the tool. *)
Theorem staging_directory_removed (rt : runtime) (req : request) (st : state)
    (tmpdir : path) :
  EvMkdtemp tmpdir ∈ events_of (do_POST rt req) st ->
  forall p : path, tmpdir `prefix_of` p -> fs (do_POST rt req st).2 !! p = None.
Proof.
  intros Hin p Hp.
  apply mkdtemp_inv in Hin as [f' ->]. by apply rmtree_lookup.
Qed.

Lemma staging_directory_removed_witness :
  EvMkdtemp sample_tmpdir
    ∈ events_of (do_POST (sample_runtime (Raise (OSError PermissionError)))
                   (post body_print))
        (sample_state [] body_print)
  /\ fs (do_POST (sample_runtime (Raise (OSError PermissionError)))
          (post body_print) (sample_state [] body_print)).2
       !! (sample_tmpdir ++ [lit "input.lua"]) = None.
Proof.
  assert (Hin : EvMkdtemp sample_tmpdir
                  ∈ events_of (do_POST (sample_runtime (Raise (OSError PermissionError)))
                                 (post body_print))
                      (sample_state [] body_print)) by event_in_trace.
  split; [exact Hin|].
  apply (staging_directory_removed _ _ _ _ Hin).
  by apply prefix_app_r.
Defined.

(** C3, as stated, fails: a request whose [source] is the empty text, sent
    with a [Content-Length] that is no integer, is answered with nothing
    ([ValueError] leaves [do_POST]), so not with a 400. *)
Lemma blank_source_unanswered :
  utf8_decode body_empty_source = Some (json_text "{'source': ''}")
  /\ json_loads 990 (json_text "{'source': ''}") = inr (PDict [(lit "source", PStr [])])
  /\ blank_source [(lit "source", PStr [])]
  /\ (do_POST (sample_runtime (Ok tool_ok)) (post_with_length "abc")
        (sample_state [] body_empty_source)).1 = Raise ValueError
  /\ replies_of (do_POST (sample_runtime (Ok tool_ok)) (post_with_length "abc"))
       (sample_state [] body_empty_source) = [].
Proof. split_and!; by vm_compute. Qed.

(** C3, amended. A POST /deobfuscate from whose body the decoder obtains a
    payload object, with [source] absent, empty or made of whitespace only,
    is answered with status 400, [ok] false and a non-empty [error]; the
    file system is untouched and the only operation performed is the read of
    the body: no directory or file is created, no subprocess is run. *)
Theorem blank_source_rejected (rt : runtime) (req : request) (st st1 : state)
    (kvs : list (pystr * pyobj)) :
  req_path req = lit "/deobfuscate" ->
  _read_request_json rt req st = (Ok (PDict kvs), st1) ->
  blank_source kvs ->
  (do_POST rt req st).1 = Ok tt
  /\ (exists r, replies_of (do_POST rt req) st = [r]
                /\ r = json_response rt no_source_response BAD_REQUEST
                /\ status_of r = 400%Z)
  /\ field (lit "ok") no_source_response = Some (PBool false)
  /\ (exists msg, field (lit "error") no_source_response = Some (PStr msg)
                  /\ msg <> [])
  /\ fs (do_POST rt req st).2 = fs st
  /\ (forall ev, ev ∈ events_of (do_POST rt req) st -> exists n, ev = EvRead n).
Proof.
  intros Hp Hdec Hblank.
  destruct (do_POST_rejected rt req st st1 kvs Hp Hdec (blank_source_strip rt kvs Hblank))
    as (pre & Hd & Hevs & Hrs & Hres & Hfs).
  split_and!; try done.
  - by eexists.
  - by eexists.
  - rewrite Hevs. by apply (decodes_reads rt req st (PDict kvs)).
Qed.

Lemma blank_source_rejected_witness :
  replies_of (do_POST (sample_runtime (Ok tool_ok)) (post body_blank))
    (sample_state [] body_blank)
  = [json_response (sample_runtime (Ok tool_ok)) no_source_response BAD_REQUEST]
  /\ fs (do_POST (sample_runtime (Ok tool_ok)) (post body_blank)
           (sample_state [] body_blank)).2
     = fs (sample_state [] body_blank).
Proof.
  destruct (blank_source_rejected (sample_runtime (Ok tool_ok)) (post body_blank)
              (sample_state [] body_blank)
              (after_read 20 (sample_state [] body_blank))
              [(lit "source", PStr [0x20; 0x09; 0x0A; 0x20])])
    as (_ & (r & Hr & -> & _) & _ & _ & Hfs & _).
  - reflexivity.
  - vm_compute. reflexivity.
  - vm_compute. reflexivity.
  - split; [exact Hr | exact Hfs].
Defined.

(** C4. For a valid POST /deobfuscate that gets its staging directory, the
    one subprocess call has exactly the argument vector
    [interpreter, main.py, --format, lua, --no-report, --no-execute-output,
    --force, staged path], followed by [--script-key, key] exactly when the
    trimmed [script_key] is non-empty, and runs in the repository root. *)
Theorem tool_argument_vector (rt : runtime) (req : request) (st st1 : state)
    (kvs : list (pystr * pyobj)) (tmpdir : path) (bs : bytes) :
  req_path req = lit "/deobfuscate" ->
  _read_request_json rt req st = (Ok (PDict kvs), st1) ->
  nonempty (strip (source_of rt kvs)) = true ->
  mkdtemp rt (fs st) = Ok tmpdir ->
  utf8_encode (source_of rt kvs) = Some bs ->
  let key := script_key_of rt kvs in
  let fixed := fixed_args rt (tmpdir ++ [lit "input.lua"]) in
  let argv := if nonempty key then fixed ++ [lit "--script-key"; key] else fixed in
  (exists outcome,
      EvRun argv (path_str (REPO_ROOT rt)) outcome ∈ events_of (do_POST rt req) st)
  /\ (forall argv' cwd' outcome',
         EvRun argv' cwd' outcome' ∈ events_of (do_POST rt req) st ->
         argv' = argv /\ cwd' = path_str (REPO_ROOT rt)).
Proof.
  intros Hp Hdec Hsrc Htmp Henc key fixed argv.
  destruct (do_POST_staged rt req st st1 kvs tmpdir bs Hp Hdec Hsrc Htmp Henc)
    as (pre & Hd & Hevs & _).
  rewrite cmd_fixed_args in Hevs. fold key fixed argv in Hevs.
  rewrite Hevs. split.
  - eexists. apply elem_of_app. right.
    do 2 apply list_elem_of_further. apply list_elem_of_here.
  - intros argv' cwd' outcome' Hin.
    by destruct (run_in_staged_trace _ _ _ _ _ _ _ _ _ _ _ _ _ _ Hd Hin) as (-> & -> & _).
Qed.

Lemma tool_argument_vector_witness :
  exists outcome,
    EvRun (argv_print ++ [lit "--script-key"; lit "abc"]) (lit "/srv/luraph") outcome
      ∈ events_of (do_POST (sample_runtime (Ok tool_ok)) (post body_key))
          (sample_state [] body_key).
Proof.
  refine (proj1 (tool_argument_vector (sample_runtime (Ok tool_ok)) (post body_key)
                   (sample_state [] body_key) (after_read 38 (sample_state [] body_key))
                   [(lit "source", PStr (lit "x")); (lit "script_key", PStr (lit " abc "))]
                   sample_tmpdir [x78] _ _ _ _ _)).
  - reflexivity.
  - vm_compute. reflexivity.
  - vm_compute. reflexivity.
  - reflexivity.
  - vm_compute. reflexivity.
Defined.

(** C5 does not hold of the code: the decoder lets [UnicodeDecodeError]
    through for a body that is not UTF-8, and returns a parsed value that
    is no dict as it is, on which [do_POST] raises [AttributeError]; in both
    cases no response is written.  Only text that fails to parse as JSON is
    turned into the empty payload and the 400 rejection. *)
Theorem malformed_body_faults :
  (_read_request_json (sample_runtime (Ok tool_ok)) (post [xff])
     (sample_state [] [xff])).1
  = Raise UnicodeDecodeError
  /\ (do_POST (sample_runtime (Ok tool_ok)) (post [xff]) (sample_state [] [xff])).1
     = Raise UnicodeDecodeError
  /\ replies_of (do_POST (sample_runtime (Ok tool_ok)) (post [xff]))
       (sample_state [] [xff]) = []
  /\ (_read_request_json (sample_runtime (Ok tool_ok)) (post body_list)
        (sample_state [] body_list)).1
     = Ok (PList [])
  /\ (do_POST (sample_runtime (Ok tool_ok)) (post body_list)
        (sample_state [] body_list)).1
     = Raise AttributeError
  /\ replies_of (do_POST (sample_runtime (Ok tool_ok)) (post body_list))
       (sample_state [] body_list) = []
  /\ (_read_request_json (sample_runtime (Ok tool_ok)) (post body_brace)
        (sample_state [] body_brace)).1
     = Ok (PDict [])
  /\ replies_of (do_POST (sample_runtime (Ok tool_ok)) (post body_brace))
       (sample_state [] body_brace)
     = [json_response (sample_runtime (Ok tool_ok)) no_source_response BAD_REQUEST].
Proof. split_and!; by vm_compute. Qed.

(** C6, as stated, fails: with an interpreter that cannot be started the
    handler answers nothing at all, so in particular no 5xx response. *)
Lemma spawn_failure_sends_no_500 :
  EvRun argv_print (lit "/srv/luraph") (Raise (OSError FileNotFoundError))
    ∈ events_of (do_POST (sample_runtime (Raise (OSError FileNotFoundError)))
                   (post body_print))
        (sample_state [] body_print)
  /\ ~ exists r,
         r ∈ replies_of (do_POST (sample_runtime (Raise (OSError FileNotFoundError)))
                           (post body_print))
               (sample_state [] body_print)
         /\ server_error r.
Proof.
  split; [event_in_trace|].
  intros (r & Hr & _). vm_compute in Hr. by apply elem_of_nil in Hr.
Qed.

(** C6, amended. When [subprocess.run] raises (an [OSError] for a missing
    interpreter or a refused permission, or anything else), the exception
    leaves [do_POST] unhandled: it is not swallowed, the handler writes no
    response of any kind, and the staging directory is removed. *)
Theorem spawn_failure_propagates (rt : runtime) (req : request) (st : state)
    (argv : list pystr) (cwd : pystr) (e : exn) :
  EvRun argv cwd (Raise e) ∈ events_of (do_POST rt req) st ->
  (do_POST rt req st).1 = Raise e
  /\ replies_of (do_POST rt req) st = []
  /\ exists tmpdir,
       EvMkdtemp tmpdir ∈ events_of (do_POST rt req) st
       /\ forall p : path, tmpdir `prefix_of` p -> fs (do_POST rt req st).2 !! p = None.
Proof.
  intros Hin.
  apply run_inv in Hin as (kvs & pre & d & bs & f2 & H); cbn zeta in H.
  destruct H as (_ & _ & _ & _ & _ & _ & _ & Hevs & Hfs & Hres & Hreplies).
  split_and!; [done | done |]. exists d. split.
  - rewrite Hevs. apply elem_of_app. right. apply list_elem_of_here.
  - intros p Hp. rewrite Hfs. by apply rmtree_lookup.
Qed.

Lemma spawn_failure_propagates_witness :
  EvRun argv_print (lit "/srv/luraph") (Raise (OSError FileNotFoundError))
    ∈ events_of (do_POST (sample_runtime (Raise (OSError FileNotFoundError)))
                   (post body_print))
        (sample_state [] body_print)
  /\ (do_POST (sample_runtime (Raise (OSError FileNotFoundError)))
        (post body_print) (sample_state [] body_print)).1
     = Raise (OSError FileNotFoundError).
Proof.
  assert (Hin : EvRun argv_print (lit "/srv/luraph") (Raise (OSError FileNotFoundError))
                  ∈ events_of (do_POST (sample_runtime (Raise (OSError FileNotFoundError)))
                                 (post body_print))
                      (sample_state [] body_print)) by event_in_trace.
  split; [exact Hin|].
  exact (proj1 (spawn_failure_propagates _ _ _ _ _ _ Hin)).
Defined.

(** C7, as stated, fails: a page stored with CRLF line ends is served with
    LF line ends, so neither the body nor [Content-Length] is that of the
    asset's bytes. *)
Lemma crlf_asset_not_served_verbatim :
  fs (sample_state asset_crlf []) !! INDEX_PATH (sample_runtime (Ok tool_ok))
  = Some (File true asset_crlf)
  /\ replies_of (do_GET (sample_runtime (Ok tool_ok)) (get "/"))
       (sample_state asset_crlf [])
     = [Response 200
          [(lit "Content-Type", lit "text/html; charset=utf-8");
           (lit "Content-Length", lit "4")]
          asset_lf]
  /\ asset_lf <> asset_crlf
  /\ length asset_crlf = 5%nat.
Proof. split_and!; [by vm_compute | by vm_compute | by vm_compute | done]. Qed.

(** C7, amended. For every GET request: if the path is [/] or
    [/index.html] and the asset can be opened and is valid UTF-8, the
    response has status 200, its body is the UTF-8 encoding of the asset's
    text with line ends normalised to LF (the exact bytes of the asset when
    it holds no carriage return), and [Content-Length] is the byte length
    of that body; any other GET path yields 404; an asset that cannot be
    opened yields 500. *)
Theorem static_page (rt : runtime) (req : request) (st : state) :
  (req_path req <> lit "/" -> req_path req <> lit "/index.html" ->
     (do_GET rt req st).1 = Ok tt
     /\ replies_of (do_GET rt req) st = [ErrorResponse 404 (lit "Not Found")])
  /\ (req_path req = lit "/" \/ req_path req = lit "/index.html" ->
        (forall bs text,
            fs st !! INDEX_PATH rt = Some (File true bs) ->
            utf8_decode bs = Some text ->
            exists body,
              utf8_encode (universal_newlines text) = Some body
              /\ (do_GET rt req st).1 = Ok tt
              /\ replies_of (do_GET rt req) st
                 = [Response 200
                      [(lit "Content-Type", lit "text/html; charset=utf-8");
                       (lit "Content-Length", str_of_N (N.of_nat (length body)))]
                      body]
              /\ (x0d ∉ bs -> body = bs))
        /\ (unopenable (fs st !! INDEX_PATH rt) ->
              (do_GET rt req st).1 = Ok tt
              /\ replies_of (do_GET rt req) st
                 = [ErrorResponse 500 (lit "index.html missing")])).
Proof.
  split.
  - intros H1 H2. rewrite <- (replies_of_wfile (do_GET rt req) st [ErrorResponse 404 (lit "Not Found")]);
      rewrite do_GET_eq; unfold pystr_eqb;
      rewrite !bool_decide_eq_false_2 by done; done.
  - intros Hroot.
    assert (Hb : pystr_eqb (req_path req) (lit "/")
                 || pystr_eqb (req_path req) (lit "/index.html") = true).
    { unfold pystr_eqb. apply orb_true_iff.
      destruct Hroot as [->| ->]; [left | right]; by apply bool_decide_eq_true_2. }
    split.
    + intros bs text Hfile Hdec.
      destruct (utf8_encode_scalar (universal_newlines text)) as [body Hbody].
      { apply universal_newlines_scalar. by apply (utf8_decode_scalar bs). }
      assert (Hget : do_GET rt req st = (Ok tt, advance st (fs st) [html_response body] []))
        by (by rewrite do_GET_eq, Hb, Hfile, Hdec, Hbody).
      exists body. split_and!; [done | by rewrite Hget | |].
      * apply replies_of_wfile. by rewrite Hget.
      * intros Hcr.
        rewrite (universal_newlines_no_cr text) in Hbody
          by (by apply (utf8_decode_no_cr bs)).
        rewrite (utf8_encode_decode bs text Hdec) in Hbody. by injection Hbody.
    + intros Hun.
      assert (Hget : do_GET rt req st
                     = (Ok tt, advance st (fs st)
                                 [ErrorResponse 500 (lit "index.html missing")] [])).
      { rewrite do_GET_eq, Hb.
        destruct Hun as [-> | [-> | [bs ->]]]; done. }
      split; [by rewrite Hget|]. apply replies_of_wfile. by rewrite Hget.
Qed.

Lemma static_page_witness :
  exists body,
    replies_of (do_GET (sample_runtime (Ok tool_ok)) (get "/index.html"))
      (sample_state asset_lf [])
    = [Response 200
         [(lit "Content-Type", lit "text/html; charset=utf-8");
          (lit "Content-Length", str_of_N (N.of_nat (length body)))]
         body]
    /\ body = asset_lf.
Proof.
  destruct (proj1 (proj2 (static_page (sample_runtime (Ok tool_ok)) (get "/index.html")
                            (sample_state asset_lf [])) (or_intror eq_refl))
              asset_lf (lit "<p>" ++ [0x0A]))
    as (body & _ & _ & Hrs & Hsame).
  - reflexivity.
  - vm_compute. reflexivity.
  - exists body. split; [exact Hrs|]. apply Hsame.
    intros Hin%list_elem_of_In. vm_compute in Hin. intuition discriminate.
Defined.

(** C8, as stated, fails: with a declared length of 2^63 the decoder reads
    nothing at all of the body that is waiting ([OverflowError] leaves it
    with the stream untouched), where a declared length of 100 makes it take
    the 22 bytes there are. *)
Lemma huge_length_not_read :
  declared_length (sample_runtime (Ok tool_ok)) (post_with_length "9223372036854775808")
  = Some (2 ^ 63)%Z
  /\ _read_request_json (sample_runtime (Ok tool_ok))
       (post_with_length "9223372036854775808") (sample_state [] body_print)
     = (Raise OverflowError, sample_state [] body_print)
  /\ length (rfile (sample_state [] body_print)) = 22%nat
  /\ rfile (_read_request_json (sample_runtime (Ok tool_ok))
              (post_with_length "100") (sample_state [] body_print)).2 = [].
Proof. split_and!; by vm_compute. Qed.

(** C8, amended. For a request whose declared length is [n]: with no
    [Content-Length] header [n] is 0; for [n] of 0 or less nothing is read
    and the state is untouched; for [n] above [sys.maxsize], or when no
    buffer of [n] bytes can be had, the read raises and nothing is read
    either; otherwise there is exactly one read, of [n], which takes the
    next [n] bytes of the stream (that many whenever the stream holds
    them). *)
Theorem declared_length_read (rt : runtime) (req : request) (st : state) (n : Z) :
  declared_length rt req = Some n ->
  ((forall k v, (k, v) ∈ req_headers req -> lower k <> lower (lit "Content-Length")) ->
     n = 0%Z)
  /\ ((n <= 0)%Z -> _read_request_json rt req st = (Ok (PDict []), st))
  /\ ((sys_maxsize < n)%Z ->
        _read_request_json rt req st = (Raise OverflowError, st))
  /\ (forall e, (0 < n <= sys_maxsize)%Z -> read_fault rt n = Some e ->
        _read_request_json rt req st = (Raise e, st))
  /\ ((0 < n <= sys_maxsize)%Z -> read_fault rt n = None ->
        rfile (_read_request_json rt req st).2 = drop (Z.to_nat n) (rfile st)
        /\ events_of (_read_request_json rt req) st = [EvRead n]
        /\ ((Z.to_nat n <= length (rfile st))%nat ->
              length (take (Z.to_nat n) (rfile st)) = Z.to_nat n
              /\ length (rfile st)
                 = (Z.to_nat n + length (rfile (_read_request_json rt req st).2))%nat)).
Proof.
  intros Hn. split_and!.
  - intros Habsent. unfold declared_length in Hn.
    rewrite headers_get_absent in Hn by done. by injection Hn as <-.
  - intros Hle. rewrite read_request_json_eq, Hn.
    by destruct (Z.leb_spec n 0); [|lia].
  - intros Hbig. rewrite read_request_json_eq, Hn.
    assert (0 < sys_maxsize)%Z by done.
    destruct (Z.leb_spec n 0); [lia|].
    by destruct (Z.ltb_spec sys_maxsize n); [|lia].
  - intros e Hpos Hfault. rewrite read_request_json_eq, Hn.
    destruct (Z.leb_spec n 0); [lia|].
    destruct (Z.ltb_spec sys_maxsize n); [lia|]. by rewrite Hfault.
  - intros Hpos Hfault.
    assert (Hst : (_read_request_json rt req st).2 = after_read n st).
    { rewrite read_request_json_eq, Hn.
      destruct (Z.leb_spec n 0); [lia|].
      destruct (Z.ltb_spec sys_maxsize n); [lia|]. rewrite Hfault.
      destruct (utf8_decode _) as [text|]; [|done].
      by destruct (json_loads _ text) as [[| |]|v]. }
    split_and!.
    + by rewrite Hst.
    + by apply events_of_trace; rewrite Hst.
    + intros Hlen. rewrite Hst. cbn [after_read rfile].
      rewrite length_take, length_drop. lia.
Qed.

Lemma declared_length_read_witness :
  rfile (_read_request_json (sample_runtime (Ok tool_ok)) (post body_print)
           (sample_state [] (body_print ++ [x0a]))).2
  = [x0a].
Proof.
  refine (proj1 (proj2 (proj2 (proj2 (proj2
    (declared_length_read (sample_runtime (Ok tool_ok)) (post body_print)
       (sample_state [] (body_print ++ [x0a])) 22 _)))) _ _)).
  - vm_compute. reflexivity.
  - by vm_compute.
  - vm_compute. reflexivity.
Defined.





(* ===================================================================== *)
(** ** Further properties of the handler *)
(* ===================================================================== *)

Section ExitFacts.

Variable rt : runtime.

Lemma decodes_read_shape (req : request) (st : state) payload pre :
  decodes rt req st payload pre -> read_shape pre.
Proof.
  destruct 1 as [| ? ? ? (_ & ? & _) | ? ? (_ & ? & _)]; constructor; lia.
Qed.

Lemma decoder_raises_read_shape (req : request) (st : state) e pre :
  decoder_raises rt req st e pre -> read_shape pre.
Proof.
  destruct 1 as [| | | ? (_ & ? & _) | ? ? (_ & ? & _) | ? ? (_ & ? & _)];
    constructor; lia.
Qed.

Lemma rmtree_lookup_other (d p : path) (f : filesystem) :
  ~ d `prefix_of` p -> rmtree d f !! p = f !! p.
Proof.
  intros Hnp. unfold rmtree. rewrite map_lookup_filter.
  destruct (f !! p) as [x|]; [|done]. cbn.
  by rewrite option_guard_True.
Qed.

(** Removing a fresh staging directory gives the file system back. *)
Lemma rmtree_fresh (d : path) (name : pystr) (n : node) (f : filesystem) :
  (forall p : path, d `prefix_of` p -> f !! p = None) ->
  rmtree d (<[d ++ [name] := n]> (<[d := Dir]> f)) = f.
Proof.
  intros Hfresh. apply map_eq. intros p.
  destruct (decide (d `prefix_of` p)) as [Hp|Hp].
  - by rewrite rmtree_lookup, Hfresh.
  - rewrite rmtree_lookup_other by done.
    rewrite !lookup_insert_ne; [done| |].
    + intros <-. by apply Hp.
    + intros <-. apply Hp. by apply prefix_app_r.
Qed.

End ExitFacts.

Section PostFacts.

Variable rt : runtime.

Lemma do_POST_decoder_raise (req : request) (st st1 : state) (e : exn) :
  req_path req = lit "/deobfuscate" ->
  _read_request_json rt req st = (Raise e, st1) ->
  do_POST rt req st = (Raise e, st1).
Proof.
  intros Hp Hdec. unfold do_POST, pystr_eqb.
  rewrite bool_decide_eq_true_2 by done. cbn [negb].
  unfold bind. by rewrite Hdec.
Qed.

Lemma do_POST_elsewhere (req : request) (st : state) :
  req_path req <> lit "/deobfuscate" ->
  do_POST rt req st
  = (Ok tt, advance st (fs st) [ErrorResponse NOT_FOUND (lit "Not Found")] []).
Proof.
  intros Hp. unfold do_POST, pystr_eqb. rewrite bool_decide_eq_false_2 by done.
  unfold advance. cbn. by rewrite app_nil_r.
Qed.

End PostFacts.

(** X1. A [Content-Length] that is no integer is only looked at on
    [/deobfuscate]: there [int()] raises [ValueError] out of [do_POST]
    before a byte is read or anything is answered; on any other path the
    request gets its 404 and the header and the body stay unread. *)
Theorem bad_content_length (rt : runtime) (req : request) (st : state) :
  declared_length rt req = None ->
  (req_path req = lit "/deobfuscate" ->
     do_POST rt req st = (Raise ValueError, st))
  /\ (req_path req <> lit "/deobfuscate" ->
        (do_POST rt req st).1 = Ok tt
        /\ replies_of (do_POST rt req) st = [ErrorResponse 404 (lit "Not Found")]
        /\ rfile (do_POST rt req st).2 = rfile st
        /\ events_of (do_POST rt req) st = []).
Proof.
  intros Hn. split; intros Hp.
  - apply do_POST_decoder_raise; [done|].
    by rewrite read_request_json_eq, Hn.
  - rewrite (do_POST_elsewhere rt req st Hp). split_and!; try done.
    + apply replies_of_wfile. by rewrite do_POST_elsewhere.
    + apply events_of_trace. rewrite do_POST_elsewhere by done. cbn.
      by rewrite app_nil_r.
Qed.

Lemma bad_content_length_witness :
  do_POST (sample_runtime (Ok tool_ok)) (post_with_length "12abc")
    (sample_state [] body_print)
  = (Raise ValueError, sample_state [] body_print).
Proof.
  refine (proj1 (bad_content_length (sample_runtime (Ok tool_ok))
                   (post_with_length "12abc") (sample_state [] body_print) _) _).
  - vm_compute. reflexivity.
  - reflexivity.
Defined.

(** X2. [do_POST] answers at most once: it either raises, having written
    nothing, or returns after exactly one response, whose status is 200,
    400 or 404 (never a 5xx). *)
Theorem do_POST_reply_discipline (rt : runtime) (req : request) (st : state) :
  (exists e, (do_POST rt req st).1 = Raise e
             /\ replies_of (do_POST rt req) st = [])
  \/ (exists r, (do_POST rt req st).1 = Ok tt
                /\ replies_of (do_POST rt req) st = [r]
                /\ (status_of r = 200 \/ status_of r = 400 \/ status_of r = 404)%Z).
Proof.
  destruct (do_POST_exit_named rt req st)
    as (r & evs & rs & f & -> & _ & -> & _ & Hexit).
  destruct Hexit; eauto 10.
Qed.

(** X3. [do_POST] retries nothing and cleans up last: what it adds to the
    trace is at most one read of the body followed by nothing, or by
    [mkdtemp; write input.lua; rmtree], or by
    [mkdtemp; write input.lua; run; rmtree] on one and the same directory. *)
Theorem do_POST_trace_shape (rt : runtime) (req : request) (st : state) :
  exists reads staging,
    events_of (do_POST rt req) st = reads ++ staging
    /\ read_shape reads /\ staging_shape staging.
Proof.
  destruct (do_POST_exit_named rt req st)
    as (r & evs & rs & f & _ & -> & _ & _ & Hexit).
  destruct Hexit;
    repeat match goal with
           | H : decodes _ _ _ _ _ |- _ => apply decodes_read_shape in H
           | H : decoder_raises _ _ _ _ _ |- _ => apply decoder_raises_read_shape in H
           end.
  - exists [], []. split_and!; constructor.
  - exists pre, []. rewrite app_nil_r. split_and!; [done..|constructor].
  - exists pre, []. rewrite app_nil_r. split_and!; [done..|constructor].
  - exists pre, []. rewrite app_nil_r. split_and!; [done..|constructor].
  - exists pre, []. rewrite app_nil_r. split_and!; [done..|constructor].
  - eexists pre, _. split_and!; [done..|constructor].
  - eexists pre, _. split_and!; [done..|constructor].
  - eexists pre, _. split_and!; [done..|constructor].
Qed.

(** X4. The tool's streams are relayed as they are and a failing tool is
    still a 200: after a run that ended with [cp], the one response is the
    200 JSON reply whose [output] is [cp.stdout] and [stderr] is
    [cp.stderr], with [ok] false whenever the exit code is not 0. *)
Theorem tool_output_relayed (rt : runtime) (req : request) (st : state)
    (argv : list pystr) (cwd : pystr) (cp : CompletedProcess) :
  EvRun argv cwd (Ok cp) ∈ events_of (do_POST rt req) st ->
  exists payload,
    (do_POST rt req st).1 = Ok tt
    /\ replies_of (do_POST rt req) st = [json_response rt payload 200]
    /\ field (lit "output") payload = Some (PStr (stdout cp))
    /\ field (lit "stderr") payload = Some (PStr (stderr cp))
    /\ (returncode cp <> 0%Z -> field (lit "ok") payload = Some (PBool false)).
Proof.
  intros Hin.
  apply run_inv in Hin as (kvs & pre & d & bs & f2 & H); cbn zeta in H.
  destruct H as (_ & _ & _ & _ & _ & _ & _ & _ & _ & Hres & Hreplies).
  exists (tool_response cp). split_and!; try done.
  intros Hrc. unfold tool_response, field. cbn.
  by destruct (Z.eqb_spec (returncode cp) 0).
Qed.

Lemma tool_output_relayed_witness :
  exists payload,
    replies_of (do_POST (sample_runtime (Ok tool_failed)) (post body_print))
      (sample_state [] body_print)
    = [json_response (sample_runtime (Ok tool_failed)) payload 200]
    /\ field (lit "stderr") payload = Some (PStr (lit "error: bad input"))
    /\ field (lit "ok") payload = Some (PBool false).
Proof.
  destruct (tool_output_relayed (sample_runtime (Ok tool_failed)) (post body_print)
              (sample_state [] body_print) argv_print (lit "/srv/luraph") tool_failed)
    as (payload & _ & Hrs & _ & Herr & Hok).
  - vm_compute. repeat first [apply list_elem_of_here | apply list_elem_of_further].
  - exists payload. split_and!; [exact Hrs | exact Herr |]. apply Hok. discriminate.
Defined.

(** X5. A request leaves no mark on the file system: when the name
    [mkdtemp] picks is fresh and the child process changes no file, the
    file system after [do_POST] is the one before it, on every exit path. *)
Theorem file_system_restored (rt : runtime) (req : request) (st : state) :
  quiet_child rt -> fresh_tmp rt (fs st) ->
  fs (do_POST rt req st).2 = fs st.
Proof.
  intros Hquiet Hfresh.
  destruct (do_POST_exit_named rt req st)
    as (r & evs & rs & f & _ & _ & _ & -> & Hexit).
  destruct Hexit as
    [ | | | | | kvs pre d ? ? ? Htmp ? staged
    | kvs pre d bs e f2 ? ? ? Htmp ? staged argv cwd Hrun
    | kvs pre d bs cp f2 ? ? ? Htmp ? staged argv cwd Hrun ]; try done.
  - apply rmtree_fresh. by apply Hfresh.
  - pose proof (Hquiet argv cwd (<[staged := File true bs]> (<[d := Dir]> (fs st)))) as Hq.
    rewrite Hrun in Hq. cbn in Hq. subst f2. apply rmtree_fresh. by apply Hfresh.
  - pose proof (Hquiet argv cwd (<[staged := File true bs]> (<[d := Dir]> (fs st)))) as Hq.
    rewrite Hrun in Hq. cbn in Hq. subst f2. apply rmtree_fresh. by apply Hfresh.
Qed.

Lemma file_system_restored_witness :
  fs (do_POST (sample_runtime (Ok tool_ok)) (post body_print)
        (sample_state [] body_print)).2
  = fs (sample_state [] body_print).
Proof.
  apply file_system_restored.
  - intros argv cwd f. reflexivity.
  - intros d [= <-] p Hp. apply lookup_singleton_ne.
    intros <-. destruct Hp as [k Hk]. discriminate Hk.
Defined.

Section BodyFacts.

Variable rt : runtime.

(** [_read_request_json] once the body has been read. *)
Lemma read_request_json_body (req : request) (st : state) (n : Z) :
  reads_body rt req n ->
  _read_request_json rt req st =
    match utf8_decode (take (Z.to_nat n) (rfile st)) with
    | None => (Raise UnicodeDecodeError, after_read n st)
    | Some text =>
        match json_loads (json_depth rt) text with
        | inr v => (Ok v, after_read n st)
        | inl Malformed => (Ok (PDict []), after_read n st)
        | inl TooDeep => (Raise RecursionError, after_read n st)
        | inl TooLong => (Raise ValueError, after_read n st)
        end
    end.
Proof.
  intros (Hn & Hpos & Hfault). rewrite read_request_json_eq, Hn, Hfault.
  destruct (Z.leb_spec n 0); [lia|].
  by destruct (Z.ltb_spec sys_maxsize n); [lia|].
Qed.

(** What a fault of the decoder after the read leaves behind. *)
Lemma do_POST_fault_after_read (req : request) (st : state) (n : Z) (e : exn) :
  req_path req = lit "/deobfuscate" ->
  _read_request_json rt req st = (Raise e, after_read n st) ->
  (do_POST rt req st).1 = Raise e
  /\ replies_of (do_POST rt req) st = []
  /\ events_of (do_POST rt req) st = [EvRead n]
  /\ fs (do_POST rt req st).2 = fs st.
Proof.
  intros Hp Hread.
  pose proof (do_POST_decoder_raise rt req st _ e Hp Hread) as Hpost.
  split_and!.
  - by rewrite Hpost.
  - apply replies_of_wfile. rewrite Hpost. cbn. by rewrite app_nil_r.
  - apply events_of_trace. by rewrite Hpost.
  - by rewrite Hpost.
Qed.

Lemma replies_events_of_state {A} (m : M A) (st st1 : state) (r : result A) rs evs :
  m st = (r, st1) -> wfile st1 = wfile st ++ rs -> trace st1 = trace st ++ evs ->
  replies_of m st = rs /\ events_of m st = evs.
Proof.
  intros Hm Hw Ht. split.
  - apply replies_of_wfile. by rewrite Hm.
  - apply events_of_trace. by rewrite Hm.
Qed.

End BodyFacts.

Local Ltac sample_reads := split_and!; by vm_compute.

(** X6. A body that is not UTF-8 is a fault, not a rejection: on
    [/deobfuscate], when the declared bytes are read and do not decode,
    [UnicodeDecodeError] leaves [do_POST] after the read; nothing is
    answered, nothing is staged and no tool is run. *)
Theorem undecodable_body_faults (rt : runtime) (req : request) (st : state) (n : Z) :
  req_path req = lit "/deobfuscate" ->
  reads_body rt req n ->
  utf8_decode (take (Z.to_nat n) (rfile st)) = None ->
  (do_POST rt req st).1 = Raise UnicodeDecodeError
  /\ replies_of (do_POST rt req) st = []
  /\ events_of (do_POST rt req) st = [EvRead n]
  /\ fs (do_POST rt req st).2 = fs st.
Proof.
  intros Hp Hn Hdec. apply do_POST_fault_after_read; [done|].
  by rewrite (read_request_json_body rt req st n Hn), Hdec.
Qed.

Lemma undecodable_body_faults_witness :
  (do_POST (sample_runtime (Ok tool_ok)) (post [xc3; x28]) (sample_state [] [xc3; x28])).1
  = Raise UnicodeDecodeError.
Proof.
  refine (proj1 (undecodable_body_faults (sample_runtime (Ok tool_ok)) (post [xc3; x28])
                   (sample_state [] [xc3; x28]) 2 _ _ _)).
  - reflexivity.
  - sample_reads.
  - vm_compute. reflexivity.
Defined.

(** X7. A body that is JSON but no object is a fault as well: the decoder
    hands the value on, [payload.get] raises [AttributeError], and
    [do_POST] ends after the read with nothing answered, nothing staged and
    no tool run. *)
Theorem non_object_body_faults (rt : runtime) (req : request) (st : state)
    (n : Z) (text : pystr) (v : pyobj) :
  req_path req = lit "/deobfuscate" ->
  reads_body rt req n ->
  utf8_decode (take (Z.to_nat n) (rfile st)) = Some text ->
  json_loads (json_depth rt) text = inr v ->
  (forall kvs, v <> PDict kvs) ->
  (do_POST rt req st).1 = Raise AttributeError
  /\ replies_of (do_POST rt req) st = []
  /\ events_of (do_POST rt req) st = [EvRead n]
  /\ fs (do_POST rt req st).2 = fs st.
Proof.
  intros Hp Hn Hdec Hjson Hv.
  assert (Hpost : do_POST rt req st = (Raise AttributeError, after_read n st)).
  { rewrite (do_POST_decoded rt req st (after_read n st) v Hp).
    - by apply deobfuscate_not_dict.
    - by rewrite (read_request_json_body rt req st n Hn), Hdec, Hjson. }
  destruct (replies_events_of_state (do_POST rt req) st _ _ [] [EvRead n] Hpost)
    as [Hrs Hevs]; [by rewrite app_nil_r | done |].
  by rewrite Hpost.
Qed.

Lemma non_object_body_faults_witness :
  (do_POST (sample_runtime (Ok tool_ok)) (post body_string)
     (sample_state [] body_string)).1
  = Raise AttributeError.
Proof.
  refine (proj1 (non_object_body_faults (sample_runtime (Ok tool_ok)) (post body_string)
                   (sample_state [] body_string) 10 (json_text "'print(1)'")
                   (PStr (lit "print(1)")) _ _ _ _ _)).
  - reflexivity.
  - sample_reads.
  - vm_compute. reflexivity.
  - vm_compute. reflexivity.
  - discriminate.
Defined.

(** X8. Text that is not JSON is forgiven: when the declared bytes are read
    and decode as UTF-8 but [json.loads] raises [JSONDecodeError] on them,
    the payload is the empty dict and the request gets the 400 rejection,
    with no staging and no tool run. *)
Theorem unparsable_text_rejected (rt : runtime) (req : request) (st : state)
    (n : Z) (text : pystr) :
  req_path req = lit "/deobfuscate" ->
  reads_body rt req n ->
  utf8_decode (take (Z.to_nat n) (rfile st)) = Some text ->
  json_loads (json_depth rt) text = inl Malformed ->
  (do_POST rt req st).1 = Ok tt
  /\ replies_of (do_POST rt req) st
     = [json_response rt no_source_response 400]
  /\ events_of (do_POST rt req) st = [EvRead n]
  /\ fs (do_POST rt req st).2 = fs st.
Proof.
  intros Hp Hn Hdec Hjson.
  assert (Hread : _read_request_json rt req st = (Ok (PDict []), after_read n st)).
  { by rewrite (read_request_json_body rt req st n Hn), Hdec, Hjson. }
  assert (Hpost : do_POST rt req st
                  = (Ok tt, advance (after_read n st) (fs st)
                              [json_response rt no_source_response 400] [])).
  { rewrite (do_POST_decoded rt req st _ _ Hp Hread), deobfuscate_dict. reflexivity. }
  split_and!.
  - by rewrite Hpost.
  - apply replies_of_wfile. by rewrite Hpost.
  - apply events_of_trace. rewrite Hpost. cbn. by rewrite app_nil_r.
  - by rewrite Hpost.
Qed.

Lemma unparsable_text_rejected_witness :
  replies_of (do_POST (sample_runtime (Ok tool_ok)) (post body_form))
    (sample_state [] body_form)
  = [json_response (sample_runtime (Ok tool_ok)) no_source_response 400].
Proof.
  refine (proj1 (proj2 (unparsable_text_rejected (sample_runtime (Ok tool_ok))
                          (post body_form) (sample_state [] body_form) 15
                          (lit "source=print(1)") _ _ _ _))).
  - reflexivity.
  - sample_reads.
  - vm_compute. reflexivity.
  - vm_compute. reflexivity.
Defined.

(** X9. A source that passes validation but cannot be written as UTF-8 (a
    lone surrogate from a [\ud800] escape) is a fault after staging has
    begun: [UnicodeEncodeError] leaves [do_POST], nothing is answered, the
    tool is never run, and the directory with its empty file is removed. *)
Theorem unencodable_source_faults (rt : runtime) (req : request) (st st1 : state)
    (kvs : list (pystr * pyobj)) (tmpdir : path) :
  req_path req = lit "/deobfuscate" ->
  _read_request_json rt req st = (Ok (PDict kvs), st1) ->
  nonempty (strip (source_of rt kvs)) = true ->
  mkdtemp rt (fs st) = Ok tmpdir ->
  utf8_encode (source_of rt kvs) = None ->
  (do_POST rt req st).1 = Raise UnicodeEncodeError
  /\ replies_of (do_POST rt req) st = []
  /\ (forall argv cwd outcome,
         EvRun argv cwd outcome ∉ events_of (do_POST rt req) st)
  /\ (forall p : path, tmpdir `prefix_of` p -> fs (do_POST rt req st).2 !! p = None).
Proof.
  intros Hp Hdec Hsrc Htmp Henc.
  pose proof (do_POST_decoded rt req st st1 _ Hp Hdec) as Hpost.
  apply read_request_json_ok in Hdec as (pre & Hd & Hfs & Hw & Ht).
  rewrite deobfuscate_dict in Hpost. cbn zeta in Hpost.
  rewrite Hsrc, Hfs, Htmp, Henc in Hpost.
  rewrite (events_of_advance _ _ _ _ _ _ _ pre Hpost Ht).
  rewrite (replies_of_advance _ _ _ _ _ _ _ Hpost Hw).
  rewrite Hpost. split_and!; try done.
  - intros argv cwd outcome [Hin|Hin]%elem_of_app.
    + destruct (decodes_reads _ _ _ _ _ Hd _ Hin) as [n E]. discriminate E.
    + repeat match type of Hin with
             | _ ∈ [] => by apply elem_of_nil in Hin
             | _ ∈ _ :: _ => apply elem_of_cons in Hin as [Hin|Hin]; [discriminate Hin|]
             end.
  - intros p Hpre. by apply rmtree_lookup.
Qed.

Lemma unencodable_source_faults_witness :
  (do_POST (sample_runtime (Ok tool_ok)) (post body_surrogate)
     (sample_state [] body_surrogate)).1
  = Raise UnicodeEncodeError.
Proof.
  refine (proj1 (unencodable_source_faults (sample_runtime (Ok tool_ok))
                   (post body_surrogate) (sample_state [] body_surrogate)
                   (after_read 21 (sample_state [] body_surrogate))
                   [(lit "source", PStr [0x78; 0xD800])] sample_tmpdir _ _ _ _ _)).
  - reflexivity.
  - vm_compute. reflexivity.
  - vm_compute. reflexivity.
  - reflexivity.
  - vm_compute. reflexivity.
Defined.

Section PageFacts.

Lemma universal_newlines_drops_cr_upto (n : nat) :
  forall s : pystr, (length s <= n)%nat -> 0x0D ∉ universal_newlines s.
Proof.
  induction n as [|n IH]; intros [|c r] Hlen; try apply not_elem_of_nil;
    try (cbn in Hlen; lia).
  cbn [universal_newlines]. cbn in Hlen.
  destruct (N.eqb_spec c 0x0D) as [->|Hc].
  - destruct r as [|c' r'].
    + apply not_elem_of_cons. split; [done | apply not_elem_of_nil].
    + cbn in Hlen. destruct (c' =? 0x0A); apply not_elem_of_cons;
        (split; [done | apply IH; cbn; lia]).
  - apply not_elem_of_cons. split; [congruence | apply IH; lia].
Qed.

(** Text read in text mode holds no carriage return. *)
Lemma universal_newlines_drops_cr (s : pystr) : 0x0D ∉ universal_newlines s.
Proof. by apply (universal_newlines_drops_cr_upto (length s)). Qed.

Lemma byte_of_N_cr (n : N) : n < 256 -> byte_of_N n = x0d -> n = 0x0D.
Proof. intros Hn Hb. by rewrite <- (to_N_byte_of_N n Hn), Hb. Qed.

Lemma encode_cp_cr (c : codepoint) :
  c <= 0x10FFFF -> x0d ∈ encode_cp c -> c = 0x0D.
Proof.
  intros Hmax. unfold encode_cp.
  repeat match goal with
         | |- context [N.ltb ?a ?b] => destruct (N.ltb_spec a b)
         end;
    intros Hin;
    repeat match type of Hin with
           | _ ∈ [] => by apply elem_of_nil in Hin
           | _ ∈ _ :: _ =>
               apply elem_of_cons in Hin as [Hin|Hin];
               [symmetry in Hin; apply byte_of_N_cr in Hin;
                [|zify; Z.to_euclidean_division_equations; lia];
                first [exact Hin | exfalso; zify; Z.to_euclidean_division_equations; lia]|]
           end.
Qed.

(** Encoded text holds a CR byte only for a carriage return. *)
Lemma utf8_encode_no_cr (s : pystr) (bs : bytes) :
  utf8_encode s = Some bs -> 0x0D ∉ s -> x0d ∉ bs.
Proof.
  revert bs. induction s as [|c r IH]; intros bs; cbn [utf8_encode].
  { intros [= <-] _. apply not_elem_of_nil. }
  destruct (is_surrogate c); [done|].
  destruct (N.ltb_spec 0x10FFFF c); [done|]. cbn [orb].
  intros (bs' & Hr & ->)%fmap_Some [Hc Hnr]%not_elem_of_cons.
  intros [Hin|Hin]%elem_of_app.
  - apply Hc. symmetry. by apply encode_cp_cr.
  - by apply (IH bs').
Qed.

Lemma root_path_true (req : request) :
  req_path req = lit "/" \/ req_path req = lit "/index.html" ->
  pystr_eqb (req_path req) (lit "/") || pystr_eqb (req_path req) (lit "/index.html")
  = true.
Proof.
  intros Hroot. unfold pystr_eqb. apply orb_true_iff.
  destruct Hroot as [->| ->]; [left | right]; by apply bool_decide_eq_true_2.
Qed.

Lemma utf8_encode_surrogate (s : pystr) (c : codepoint) :
  c ∈ s -> is_surrogate c = true -> utf8_encode s = None.
Proof.
  intros Hin Hc. induction s as [|c' r IH]; [by apply elem_of_nil in Hin|].
  cbn [utf8_encode]. apply elem_of_cons in Hin as [<-|Hin].
  - by rewrite Hc.
  - destruct (is_surrogate c' || _); [done|]. by rewrite IH.
Qed.

End PageFacts.

Local Ltac status_case :=
  first [left; reflexivity | right; left; reflexivity | right; right; reflexivity].

(** X10. [do_GET] only answers: it never reads from the connection and
    never touches the file system or starts anything; it either returns
    after exactly one response, of status 200, 404 or 500, or raises
    [UnicodeDecodeError] having written nothing. *)
Theorem do_GET_discipline (rt : runtime) (req : request) (st : state) :
  fs (do_GET rt req st).2 = fs st
  /\ rfile (do_GET rt req st).2 = rfile st
  /\ events_of (do_GET rt req) st = []
  /\ (((do_GET rt req st).1 = Raise UnicodeDecodeError
       /\ replies_of (do_GET rt req) st = [])
      \/ (exists r, (do_GET rt req st).1 = Ok tt
                    /\ replies_of (do_GET rt req) st = [r]
                    /\ (status_of r = 200 \/ status_of r = 404 \/ status_of r = 500)%Z)).
Proof.
  assert (Hcases :
    (do_GET rt req st = (Raise UnicodeDecodeError, st))
    \/ exists r, do_GET rt req st = (Ok tt, advance st (fs st) [r] [])
                 /\ (status_of r = 200 \/ status_of r = 404 \/ status_of r = 500)%Z).
  { rewrite do_GET_eq. destruct (_ || _); [|right; eexists; split; [done|]; status_case].
    destruct (fs st !! INDEX_PATH rt) as [[|[] bs]|];
      try (right; eexists; split; [done|]; status_case).
    destruct (utf8_decode bs) as [text|] eqn:Hdec; [|by left].
    destruct (utf8_encode_scalar (universal_newlines text)) as [body ->].
    { apply universal_newlines_scalar. by apply (utf8_decode_scalar bs). }
    right; eexists; split; [done|]; status_case. }
  destruct Hcases as [Hget | (r & Hget & Hstatus)].
  - destruct (replies_events_of_state (do_GET rt req) st _ _ [] [] Hget)
      as [Hrs Hevs]; [by rewrite app_nil_r..|].
    rewrite Hget. split_and!; try done. by left.
  - destruct (replies_events_of_state (do_GET rt req) st _ _ [r] [] Hget)
      as [Hrs Hevs]; [done..|].
    rewrite Hget. split_and!; try done. right. by exists r.
Qed.

(** X11. A page that is not valid UTF-8 is not reported as a 500: on [/]
    or [/index.html], when the asset opens but does not decode,
    [UnicodeDecodeError] leaves [do_GET] and nothing is answered. *)
Theorem undecodable_asset_faults (rt : runtime) (req : request) (st : state)
    (bs : bytes) :
  req_path req = lit "/" \/ req_path req = lit "/index.html" ->
  fs st !! INDEX_PATH rt = Some (File true bs) ->
  utf8_decode bs = None ->
  (do_GET rt req st).1 = Raise UnicodeDecodeError
  /\ replies_of (do_GET rt req) st = [].
Proof.
  intros Hroot Hfile Hdec.
  assert (Hget : do_GET rt req st = (Raise UnicodeDecodeError, st)).
  { by rewrite do_GET_eq, (root_path_true req Hroot), Hfile, Hdec. }
  split; [by rewrite Hget|].
  apply replies_of_wfile. rewrite Hget. by rewrite app_nil_r.
Qed.

Lemma undecodable_asset_faults_witness :
  replies_of (do_GET (sample_runtime (Ok tool_ok)) (get "/"))
    (sample_state [x3c; xe9; x3e] [])
  = [].
Proof.
  refine (proj2 (undecodable_asset_faults (sample_runtime (Ok tool_ok)) (get "/")
                   (sample_state [x3c; xe9; x3e] []) [x3c; xe9; x3e] _ _ _)).
  - by left.
  - reflexivity.
  - reflexivity.
Defined.

(** X12. What [do_GET] serves is what its headers announce: the body of the
    200 response is valid UTF-8, decodes to the text of the asset with line
    ends normalised, holds no carriage return byte at all, and
    [Content-Length] is its length in decimal. *)
Theorem served_page_is_normalised (rt : runtime) (req : request) (st : state)
    (bs : bytes) (text : pystr) :
  req_path req = lit "/" \/ req_path req = lit "/index.html" ->
  fs st !! INDEX_PATH rt = Some (File true bs) ->
  utf8_decode bs = Some text ->
  exists r,
    replies_of (do_GET rt req) st = [r] /\ status_of r = 200%Z
    /\ utf8_decode (body_of r) = Some (universal_newlines text)
    /\ (x0d ∉ body_of r)
    /\ header_of (lit "Content-Type") r = Some (lit "text/html; charset=utf-8")
    /\ header_of (lit "Content-Length") r
       = Some (str_of_N (N.of_nat (length (body_of r)))).
Proof.
  intros Hroot Hfile Hdec.
  destruct (utf8_encode_scalar (universal_newlines text)) as [body Hbody].
  { apply universal_newlines_scalar. by apply (utf8_decode_scalar bs). }
  assert (Hget : do_GET rt req st = (Ok tt, advance st (fs st) [html_response body] [])).
  { by rewrite do_GET_eq, (root_path_true req Hroot), Hfile, Hdec, Hbody. }
  exists (html_response body). split.
  { apply replies_of_wfile. by rewrite Hget. }
  cbn [status_of body_of html_response]. split_and!; try done.
  - by apply utf8_decode_encode.
  - apply (utf8_encode_no_cr _ _ Hbody), universal_newlines_drops_cr.
Qed.

Lemma served_page_is_normalised_witness :
  exists r,
    replies_of (do_GET (sample_runtime (Ok tool_ok)) (get "/")) (sample_state asset_crlf [])
    = [r]
    /\ x0d ∉ body_of r.
Proof.
  destruct (served_page_is_normalised (sample_runtime (Ok tool_ok)) (get "/")
              (sample_state asset_crlf []) asset_crlf (lit "<p>" ++ [0x0D; 0x0A]))
    as (r & Hrs & _ & _ & Hcr & _).
  - by left.
  - reflexivity.
  - vm_compute. reflexivity.
  - exists r. split; [exact Hrs | exact Hcr].
Defined.

Section ReplyFacts.

Lemma ascii_bytes_body (s : pystr) : ascii_text s -> ascii_body (ascii_bytes s).
Proof.
  induction 1 as [|c r Hc _ IH]; [constructor|].
  cbn. constructor; [|done]. rewrite to_N_byte_of_N; lia.
Qed.

Lemma printable_not_space (c : codepoint) :
  0x21 <= c <= 0x7E -> py_isspace c = false.
Proof.
  intros Hc. unfold py_isspace.
  repeat (apply orb_false_intro);
    first [apply andb_false_iff; rewrite !N.leb_gt; lia | apply N.eqb_neq; lia].
Qed.

Lemma lstrip_no_space (s : pystr) : no_space s -> lstrip s = s.
Proof. destruct 1 as [|c r Hc _]; [done|]. cbn. by rewrite Hc. Qed.

(** Text without whitespace is its own [strip]. *)
Lemma strip_no_space (s : pystr) : no_space s -> strip s = s.
Proof.
  intros Hs. unfold strip, rstrip. rewrite (lstrip_no_space s Hs).
  rewrite lstrip_no_space; [apply rev_involutive|].
  by apply Forall_rev.
Qed.

Lemma dec_digits_no_space (fuel : nat) :
  forall (n : N) (acc : pystr), no_space acc -> no_space (dec_digits fuel n acc).
Proof.
  induction fuel as [|f IH]; intros n acc Hacc; [done|].
  cbn [dec_digits].
  assert (no_space ((0x30 + n mod 10) :: acc)).
  { constructor; [|done]. apply printable_not_space.
    zify; Z.to_euclidean_division_equations; lia. }
  destruct (n <? 10); [done | by apply IH].
Qed.

Lemma dec_digits_nonempty (fuel : nat) :
  forall (n : N) (acc : pystr), acc <> [] -> dec_digits fuel n acc <> [].
Proof.
  induction fuel as [|f IH]; intros n acc Hacc; [done|].
  cbn [dec_digits]. destruct (n <? 10); [done | by apply IH].
Qed.

Lemma str_of_Z_no_space (z : Z) : no_space (str_of_Z z).
Proof.
  destruct z; cbn [str_of_Z]; try constructor; try done;
    apply dec_digits_no_space; constructor.
Qed.

Lemma str_of_Z_nonempty (z : Z) : nonempty (str_of_Z z) = true.
Proof.
  destruct z as [|p|p]; [done| |done].
  unfold str_of_Z, str_of_N. cbn [dec_digits].
  destruct (_ <? 10); [done|].
  destruct (dec_digits _ _ _) eqn:E; [|done].
  by apply dec_digits_nonempty in E.
Qed.

End ReplyFacts.

(** X13. The JSON replies of [do_POST] cannot fail to encode: whatever the
    tool printed (text outside ASCII, lone surrogates), the body of every
    response holds bytes below 0x80 only, and a JSON response announces
    [application/json; charset=utf-8] and the decimal length of its body. *)
Theorem json_replies_are_ascii (rt : runtime) (req : request) (st : state)
    (r : response) :
  r ∈ replies_of (do_POST rt req) st ->
  ascii_body (body_of r)
  /\ (status_of r <> 404%Z ->
        header_of (lit "Content-Type") r = Some (lit "application/json; charset=utf-8")
        /\ header_of (lit "Content-Length") r
           = Some (str_of_N (N.of_nat (length (body_of r))))).
Proof.
  intros Hin.
  destruct (do_POST_exit_named rt req st)
    as (res & evs & rs & f & _ & _ & Hrs & _ & Hexit).
  rewrite Hrs in Hin. clear Hrs.
  assert (Hflat : forall payload status,
            (exists kvs, payload = PDict kvs /\ Forall (fun kv => flat kv.2) kvs) ->
            r = json_response rt payload status ->
            ascii_body (body_of r)
            /\ (status_of r <> 404%Z ->
                  header_of (lit "Content-Type") r
                  = Some (lit "application/json; charset=utf-8")
                  /\ header_of (lit "Content-Length") r
                     = Some (str_of_N (N.of_nat (length (body_of r)))))).
  { intros payload status (kvs & -> & Hkvs) ->. split; [|done].
    by apply ascii_bytes_body, json_dumps_flat_dict. }
  destruct Hexit; try (by apply elem_of_nil in Hin);
    apply list_elem_of_singleton in Hin.
  - subst r. split; [constructor | done].
  - apply (Hflat no_source_response BAD_REQUEST); [|done].
    eexists. split; [done|]. by repeat constructor.
  - apply (Hflat (tool_response cp) OK); [|done].
    eexists. split; [done|]. apply tool_response_flat.
Qed.

Lemma json_replies_are_ascii_witness :
  ascii_body (body_of (json_response (sample_runtime (Ok tool_unicode))
                         (tool_response tool_unicode) 200)).
Proof.
  refine (proj1 (json_replies_are_ascii (sample_runtime (Ok tool_unicode))
                   (post body_print) (sample_state [] body_print) _ _)).
  vm_compute. apply list_elem_of_here.
Defined.

(** X14. [_send_html] round trip: for text without lone surrogates it
    writes one 200 response whose body decodes back to exactly that text,
    with [Content-Length] the length of the body; for text holding a lone
    surrogate it raises [UnicodeEncodeError] before writing anything. *)
Theorem send_html_round_trip (payload : pystr) (st : state) :
  (Forall scalar payload ->
     exists r,
       (_send_html payload st).1 = Ok tt
       /\ replies_of (_send_html payload) st = [r] /\ status_of r = 200%Z
       /\ utf8_decode (body_of r) = Some payload
       /\ header_of (lit "Content-Length") r
          = Some (str_of_N (N.of_nat (length (body_of r)))))
  /\ (forall c, c ∈ payload -> is_surrogate c = true ->
        _send_html payload st = (Raise UnicodeEncodeError, st)).
Proof.
  split.
  - intros Hsc. destruct (utf8_encode_scalar payload Hsc) as [body Hbody].
    assert (Hsend : _send_html payload st
                    = (Ok tt, advance st (fs st) [html_response body] [])).
    { unfold _send_html, bind. rewrite Hbody. unfold advance, html_response.
      cbn. by rewrite app_nil_r. }
    exists (html_response body). split_and!; try done.
    + by rewrite Hsend.
    + apply replies_of_wfile. by rewrite Hsend.
    + by apply utf8_decode_encode.
  - intros c Hin Hc. unfold _send_html, bind.
    by rewrite (utf8_encode_surrogate payload c Hin Hc).
Qed.

Lemma send_html_round_trip_witness :
  exists r,
    replies_of (_send_html [0x3C; 0xE9; 0x1F600; 0x3E]) (sample_state [] []) = [r]
    /\ utf8_decode (body_of r) = Some [0x3C; 0xE9; 0x1F600; 0x3E].
Proof.
  destruct (proj1 (send_html_round_trip [0x3C; 0xE9; 0x1F600; 0x3E] (sample_state [] [])))
    as (r & _ & Hrs & _ & Hdec & _).
  - repeat constructor; cbn; lia.
  - exists r. split; [exact Hrs | exact Hdec].
Defined.

(* ===================================================================== *)
(** ** The scanner never runs out of fuel *)
(* ===================================================================== *)

Section ParserFuel.

Lemma skip_ws_length (s : pystr) : (length (skip_ws s) <= length s)%nat.
Proof.
  induction s as [|c r IH]; [done|]. cbn [skip_ws].
  destruct (json_ws c); cbn [length]; lia.
Qed.

Lemma strip_prefix_length (p s r : pystr) :
  strip_prefix p s = Some r -> (length r <= length s)%nat.
Proof.
  revert s. induction p as [|a p IH]; intros [|b s]; cbn [strip_prefix]; try done.
  - by intros [= <-].
  - by intros [= <-].
  - destruct (a =? b); [|done]. intros H%IH. cbn [length]. lia.
Qed.

Lemma take_digits_length (s : pystr) :
  forall a len v len' rest,
    take_digits a len s = (v, len', rest) -> (length rest <= length s)%nat.
Proof.
  induction s as [|c r IH]; intros a len v len' rest; cbn [take_digits].
  { by intros [= <- <- <-]. }
  destruct (is_digit c).
  - intros H%IH. cbn [length]. lia.
  - by intros [= <- <- <-].
Qed.

Lemma scan_frac_length (s : pystr) v len rest :
  scan_frac s = Some (v, len, rest) -> (length rest <= length s)%nat.
Proof.
  destruct s as [|d [|c r]].
  - done.
  - intros H. exfalso. destruct d as [|p]; [discriminate H|].
    repeat (destruct p as [p|p|]; try discriminate H).
  - intros H. destruct d as [|p]; [discriminate H|].
    repeat (destruct p as [p|p|]; try discriminate H).
    change (scan_frac (0x2E :: c :: r))
      with (if is_digit c then Some (take_digits 0 0 (c :: r)) else None) in H.
    destruct (is_digit c); [|discriminate H]. injection H as H.
    apply (take_digits_length (c :: r) 0 0%nat v len rest) in H.
    cbn [length] in *. lia.
Qed.

Lemma scan_exp_length (s : pystr) v rest :
  scan_exp s = Some (v, rest) -> (length rest <= length s)%nat.
Proof.
  destruct s as [|e r]; [done|]. cbn [scan_exp].
  destruct (_ || _); [|done].
  destruct r as [|sg [|c r']]; [done|..].
  - destruct (is_digit sg); [|done]. intros [= <- <-]. cbn [length]. lia.
  - destruct (_ && _).
    + destruct (take_digits 0 0 (c :: r')) as [[v0 l0] r0] eqn:Ht.
      apply take_digits_length in Ht. intros [= <- <-]. cbn [length] in *. lia.
    + destruct (is_digit sg); [|done].
      destruct (take_digits 0 0 (sg :: c :: r')) as [[v0 l0] r0] eqn:Ht.
      apply take_digits_length in Ht. intros [= <- <-]. cbn [length] in *. lia.
Qed.

Lemma scan_number_length (neg : bool) (s : pystr) v rest :
  scan_number neg s = Parsed (v, rest) -> (length rest < length s)%nat.
Proof.
  destruct s as [|c r]; [done|]. unfold scan_number.
  destruct (is_digit c) eqn:Hc; [|done].
  assert (Hint : exists ipart ilen r0,
             (if c =? 0x30 then (0, 1%nat, r) else take_digits 0 0 (c :: r))
             = (ipart, ilen, r0) /\ (length r0 <= length r)%nat).
  { destruct (c =? 0x30); [by eexists _, _, _|].
    cbn [take_digits]. rewrite Hc.
    destruct (take_digits _ _ r) as [[v0 l0] r0] eqn:Ht.
    apply take_digits_length in Ht. by eexists _, _, _. }
  destruct Hint as (ipart & ilen & r0 & -> & Hr0).
  assert (Hfrac : exists fd fl hf r1,
             match scan_frac r0 with
             | Some (v, len, rest1) => (v, len, true, rest1)
             | None => (0, 0%nat, false, r0)
             end = (fd, fl, hf, r1) /\ (length r1 <= length r0)%nat).
  { destruct (scan_frac r0) as [[[fv fl] fr]|] eqn:Hf.
    - apply scan_frac_length in Hf. by eexists _, _, _, _.
    - by eexists _, _, _, _. }
  destruct Hfrac as (fd & fl & hf & r1 & -> & Hr1).
  assert (Hexp : exists ex he r2,
             match scan_exp r1 with
             | Some (x, rest2) => (x, true, rest2)
             | None => (0%Z, false, r1)
             end = (ex, he, r2) /\ (length r2 <= length r1)%nat).
  { destruct (scan_exp r1) as [[x fr]|] eqn:Hf.
    - apply scan_exp_length in Hf. by eexists _, _, _.
    - by eexists _, _, _. }
  destruct Hexp as (ex & he & r2 & -> & Hr2).
  destruct (hf || he).
  - intros [= <- <-]. cbn [length]. lia.
  - destruct (int_max_str_digits <? N.of_nat ilen); [done|].
    intros [= <- <-]. cbn [length]. lia.
Qed.

Lemma scan_string_u (a b c d : codepoint) (r acc : pystr) :
  scan_string (0x5C :: 0x75 :: a :: b :: c :: d :: r) acc =
    match hex4 a b c d with
    | None => None
    | Some hi =>
        if (0xD800 <=? hi) && (hi <=? 0xDBFF) then
          match low_surrogate r, r with
          | Some lo, _ :: _ :: _ :: _ :: _ :: _ :: r'' =>
              scan_string r'' ((0x10000 + (hi - 0xD800) * 1024 + (lo - 0xDC00)) :: acc)
          | _, _ => scan_string r (hi :: acc)
          end
        else scan_string r (hi :: acc)
    end.
Proof. reflexivity. Qed.

Lemma scan_string_short_u (r acc : pystr) :
  (length r < 4)%nat -> scan_string (0x5C :: 0x75 :: r) acc = None.
Proof.
  destruct r as [|a [|b [|c [|d r]]]]; try reflexivity. cbn [length]. lia.
Qed.

Lemma scan_string_escape (e : codepoint) (r acc : pystr) :
  e <> 0x75 ->
  scan_string (0x5C :: e :: r) acc
  = match simple_escape e with
    | Some x => scan_string r (x :: acc)
    | None => None
    end.
Proof.
  intros He. destruct e as [|p]; [reflexivity|].
  repeat (destruct p as [p|p|]; try reflexivity). done.
Qed.

Lemma scan_string_length (n : nat) :
  forall s acc t rest,
    (length s <= n)%nat -> scan_string s acc = Some (t, rest) ->
    (length rest < length s)%nat.
Proof.
  induction n as [|n IH]; intros [|c r] acc t rest Hlen; try done.
  { cbn [length] in Hlen. lia. }
  cbn [length] in Hlen.
  destruct (N.eqb_spec c 0x5C) as [->|Hc].
  - destruct r as [|e r1]; [done|].
    destruct (N.eqb_spec e 0x75) as [->|He].
    + destruct (decide (length r1 < 4)%nat) as [Hshort|Hlong].
      { by rewrite scan_string_short_u. }
      destruct r1 as [|a [|b [|c [|d r5]]]]; try (cbn [length] in Hlong; lia).
      rewrite scan_string_u. destruct (hex4 a b c d) as [hi|]; [|done].
      cbn [length] in *.
      destruct (_ && _).
      * destruct (low_surrogate r5) as [lo|].
        -- destruct r5 as [|x1 [|x2 [|x3 [|x4 [|x5 [|x6 r11]]]]]];
             intros H%IH; cbn [length] in *; lia.
        -- intros H%IH; cbn [length] in *; lia.
      * intros H%IH; cbn [length] in *; lia.
    + rewrite scan_string_escape by done.
      destruct (simple_escape e); [|done].
      intros H%IH; cbn [length] in *; lia.
  - cbn [scan_string].
    destruct (c =? 0x22); [by intros [= <- <-]; cbn [length]; lia|].
    destruct (c <? 0x20); [done|].
    destruct (N.eqb_spec c 0x5C); [done|].
    intros H%IH; cbn [length] in *; lia.
Qed.

Local Ltac literal_case H :=
  match type of H with
  | syntax (_ <$> strip_prefix ?p ?r) = _ =>
      let E := fresh in
      destruct (strip_prefix p r) eqn:E; cbn in H; [|discriminate H];
      apply strip_prefix_length in E; injection H as <- <-
  end.

(** Every scanning function consumes at least one character. *)
Lemma parse_shorter (fuel : nat) :
  (forall d s v rest,
      parse_value fuel d s = Parsed (v, rest) -> (length rest < length s)%nat)
  /\ (forall d s acc v rest,
        parse_elements fuel d s acc = Parsed (v, rest) -> (length rest < length s)%nat)
  /\ (forall d s acc v rest,
        parse_members fuel d s acc = Parsed (v, rest) -> (length rest < length s)%nat).
Proof.
  induction fuel as [|n (IHv & IHe & IHm)]; [by split_and!|].
  split_and!.
  - intros d [|c r] v rest; cbn [parse_value]; [done|].
    destruct (c =? 0x22).
    { destruct (scan_string r []) as [[t0 r0]|] eqn:Hs; [|done].
      apply (scan_string_length _ _ _ _ _ (le_n _)) in Hs.
      intros [= <- <-]. cbn [length]. lia. }
    destruct (c =? 0x7B).
    { destruct d as [|d]; [done|].
      pose proof (skip_ws_length r) as Hws.
      destruct (skip_ws r) as [|c' r']; [done|]. cbn [length] in *.
      destruct (c' =? 0x7D); [intros [= <- <-]; lia|].
      intros H%IHm. cbn [length] in *. lia. }
    destruct (c =? 0x5B).
    { destruct d as [|d]; [done|].
      pose proof (skip_ws_length r) as Hws.
      destruct (skip_ws r) as [|c' r']; [done|]. cbn [length] in *.
      destruct (c' =? 0x5D); [intros [= <- <-]; lia|].
      intros H%IHe. cbn [length] in *. lia. }
    destruct (c =? 0x6E); [intros H; literal_case H; cbn [length]; lia|].
    destruct (c =? 0x74); [intros H; literal_case H; cbn [length]; lia|].
    destruct (c =? 0x66); [intros H; literal_case H; cbn [length]; lia|].
    destruct (c =? 0x4E); [intros H; literal_case H; cbn [length]; lia|].
    destruct (c =? 0x49); [intros H; literal_case H; cbn [length]; lia|].
    destruct (c =? 0x2D).
    { destruct (strip_prefix (lit "Infinity") r) eqn:E.
      - apply strip_prefix_length in E. intros [= <- <-]. cbn [length]. lia.
      - intros H%scan_number_length. cbn [length]. lia. }
    apply scan_number_length.
  - intros d s acc v rest. cbn [parse_elements].
    destruct (parse_value n d s) as [[v0 r0]| |] eqn:Hv; [|done..].
    apply IHv in Hv. pose proof (skip_ws_length r0) as Hws.
    destruct (skip_ws r0) as [|c r1]; [done|]. cbn [length] in *.
    destruct (c =? 0x5D); [intros [= <- <-]; lia|].
    destruct (c =? 0x2C); [|done].
    pose proof (skip_ws_length r1). intros H'%IHe. lia.
  - intros d [|q r] acc v rest; cbn [parse_members]; [done|].
    destruct (q =? 0x22); cbn [negb]; [|done].
    destruct (scan_string r []) as [[k r0]|] eqn:Hs; [|done].
    apply (scan_string_length _ _ _ _ _ (le_n _)) in Hs.
    pose proof (skip_ws_length r0) as Hws.
    destruct (skip_ws r0) as [|colon r1]; [done|]. cbn [length] in *.
    destruct (colon =? 0x3A); cbn [negb]; [|done].
    destruct (parse_value n d (skip_ws r1)) as [[v0 r2]| |] eqn:Hv; [|done..].
    apply IHv in Hv. pose proof (skip_ws_length r1).
    pose proof (skip_ws_length r2) as Hws2.
    destruct (skip_ws r2) as [|c r3]; [done|]. cbn [length] in *.
    destruct (c =? 0x7D); [intros [= <- <-]; lia|].
    destruct (c =? 0x2C); [|done].
    pose proof (skip_ws_length r3). intros H'%IHm. lia.
Qed.

Lemma scan_number_returns (neg : bool) (s : pystr) : scan_number neg s <> Exhausted.
Proof.
  destruct s as [|c r]; [done|]. unfold scan_number.
  destruct (is_digit c); [|done].
  destruct (if c =? 0x30 then _ else _) as [[ipart ilen] r0].
  destruct (match scan_frac r0 with Some _ => _ | None => _ end) as [[[fd fl] hf] r1].
  destruct (match scan_exp r1 with Some _ => _ | None => _ end) as [[ex he] r2].
  destruct (hf || he); [done|]. by destruct (_ <? _).
Qed.

(** With fuel for twice the length of the text the scanner ends by itself. *)
Lemma parse_fuel (fuel : nat) :
  (forall d s, (2 * length s + 1 <= fuel)%nat -> parse_value fuel d s <> Exhausted)
  /\ (forall d s acc,
        (2 * length s + 2 <= fuel)%nat -> parse_elements fuel d s acc <> Exhausted)
  /\ (forall d s acc,
        (2 * length s + 2 <= fuel)%nat -> parse_members fuel d s acc <> Exhausted).
Proof.
  induction fuel as [|n (IHv & IHe & IHm)]; [split_and!; intros; lia|].
  split_and!.
  - intros d [|c r] Hf; cbn [parse_value]; [done|]. cbn [length] in Hf.
    destruct (c =? 0x22); [by destruct (scan_string r []) as [[t0 r0]|]|].
    destruct (c =? 0x7B).
    { destruct d as [|d]; [done|].
      pose proof (skip_ws_length r) as Hws.
      destruct (skip_ws r) as [|c' r']; [done|]. cbn [length] in *.
      destruct (c' =? 0x7D); [done|]. apply IHm. cbn [length]. lia. }
    destruct (c =? 0x5B).
    { destruct d as [|d]; [done|].
      pose proof (skip_ws_length r) as Hws.
      destruct (skip_ws r) as [|c' r']; [done|]. cbn [length] in *.
      destruct (c' =? 0x5D); [done|]. apply IHe. cbn [length]. lia. }
    destruct (c =? 0x6E); [by destruct (strip_prefix _ r)|].
    destruct (c =? 0x74); [by destruct (strip_prefix _ r)|].
    destruct (c =? 0x66); [by destruct (strip_prefix _ r)|].
    destruct (c =? 0x4E); [by destruct (strip_prefix _ r)|].
    destruct (c =? 0x49); [by destruct (strip_prefix _ r)|].
    destruct (c =? 0x2D).
    { destruct (strip_prefix _ r); [done|]. apply scan_number_returns. }
    apply scan_number_returns.
  - intros d s acc Hf. cbn [parse_elements].
    pose proof (IHv d s ltac:(lia)) as Hv.
    destruct (parse_value n d s) as [[v0 r0]| |] eqn:Hp; [|done..].
    apply (proj1 (parse_shorter n)) in Hp.
    pose proof (skip_ws_length r0) as Hws.
    destruct (skip_ws r0) as [|c r1]; [done|]. cbn [length] in *.
    destruct (c =? 0x5D); [done|]. destruct (c =? 0x2C); [|done].
    pose proof (skip_ws_length r1). apply IHe. lia.
  - intros d [|q r] acc Hf; cbn [parse_members]; [done|]. cbn [length] in Hf.
    destruct (q =? 0x22); cbn [negb]; [|done].
    destruct (scan_string r []) as [[k r0]|] eqn:Hs; [|done].
    apply (scan_string_length _ _ _ _ _ (le_n _)) in Hs.
    pose proof (skip_ws_length r0) as Hws.
    destruct (skip_ws r0) as [|colon r1]; [done|]. cbn [length] in *.
    destruct (colon =? 0x3A); cbn [negb]; [|done].
    pose proof (skip_ws_length r1).
    pose proof (IHv d (skip_ws r1) ltac:(lia)) as Hv.
    destruct (parse_value n d (skip_ws r1)) as [[v0 r2]| |] eqn:Hp; [|done..].
    apply (proj1 (parse_shorter n)) in Hp.
    pose proof (skip_ws_length r2) as Hws2.
    destruct (skip_ws r2) as [|c r3]; [done|]. cbn [length] in *.
    destruct (c =? 0x7D); [done|]. destruct (c =? 0x2C); [|done].
    pose proof (skip_ws_length r3). apply IHm. lia.
Qed.

(** [json_loads] never falls back on its answer for spent fuel. *)
Lemma json_loads_fuel (depth : nat) (s : pystr) :
  parse_value (2 * length s + 1) depth (skip_ws s) <> Exhausted.
Proof.
  apply (proj1 (parse_fuel _)). pose proof (skip_ws_length s). lia.
Qed.

End ParserFuel.

(* ===================================================================== *)
(** ** The integers [json.loads] returns *)
(* ===================================================================== *)

Section DecodedIntegers.

Local Ltac div_lia := zify; Z.to_euclidean_division_equations; lia.

Lemma is_digit_range (c : codepoint) : is_digit c = true -> 0x30 <= c <= 0x39.
Proof. unfold is_digit. intros [?%N.leb_le ?%N.leb_le]%andb_true_iff. lia. Qed.

(** The value of [j] digits is below [10^j]. *)
Lemma take_digits_bound (s : pystr) :
  forall a len v len' rest k,
    take_digits a len s = (v, len', rest) -> a < 10 ^ N.of_nat k ->
    exists j, len' = (len + j)%nat /\ v < 10 ^ N.of_nat (k + j).
Proof.
  induction s as [|c r IH]; intros a len v len' rest k; cbn [take_digits].
  { intros [= <- <- <-] Ha. exists 0%nat. by rewrite !Nat.add_0_r. }
  destruct (is_digit c) eqn:Hc.
  - intros Ht Ha. apply is_digit_range in Hc.
    destruct (IH _ _ _ _ _ (S k) Ht) as (j & -> & Hv).
    { rewrite Nat2N.inj_succ, N.pow_succ_r'. lia. }
    exists (S j). split; [lia|]. by replace (k + S j)%nat with (S k + j)%nat by lia.
  - intros [= <- <- <-] Ha. exists 0%nat. by rewrite !Nat.add_0_r.
Qed.

(** A number below [10^k] has at most [k] digits. *)
Lemma dec_digits_length (fuel : nat) :
  forall (n : N) (acc : pystr) (k : nat),
    n < 10 ^ N.of_nat k -> (1 <= k)%nat ->
    (length (dec_digits fuel n acc) <= k + length acc)%nat.
Proof.
  induction fuel as [|f IH]; intros n acc k Hn Hk; cbn [dec_digits]; [lia|].
  destruct (N.ltb_spec n 10) as [Hsmall|Hbig]; [cbn [length]; lia|].
  destruct k as [|[|k]]; [lia | cbn in Hn; lia |].
  assert (Hdiv : n / 10 < 10 ^ N.of_nat (S k)).
  { rewrite (Nat2N.inj_succ (S k)), N.pow_succ_r' in Hn. div_lia. }
  pose proof (IH (n / 10) ((0x30 + n mod 10) :: acc) (S k) Hdiv ltac:(lia)) as H.
  cbn [length] in H. lia.
Qed.

Lemma int_digits_bound (neg : bool) (n : N) (k : nat) :
  n < 10 ^ N.of_nat k -> (1 <= k)%nat ->
  int_digits (if neg then (- Z.of_N n)%Z else Z.of_N n) <= N.of_nat k.
Proof.
  intros Hn Hk. unfold int_digits.
  replace (Z.abs_N (if neg then (- Z.of_N n)%Z else Z.of_N n)) with n
    by (destruct neg; lia).
  pose proof (dec_digits_length (S (N.to_nat (N.log2 n))) n [] k Hn Hk) as H.
  unfold str_of_N. cbn [length] in H. lia.
Qed.

Lemma scan_number_within_limit (neg : bool) (s : pystr) v rest :
  scan_number neg s = Parsed (v, rest) ->
  within_limit v /\ (forall kvs, v <> PDict kvs).
Proof.
  destruct s as [|c r]; [done|]. unfold scan_number.
  destruct (is_digit c) eqn:Hc; [|done].
  assert (Hint : exists ipart ilen r0,
             (if c =? 0x30 then (0, 1%nat, r) else take_digits 0 0 (c :: r))
             = (ipart, ilen, r0)
             /\ ipart < 10 ^ N.of_nat ilen /\ (1 <= ilen)%nat).
  { destruct (c =? 0x30); [by eexists _, _, _|].
    destruct (take_digits 0 0 (c :: r)) as [[v0 l0] r0] eqn:Ht.
    pose proof Ht as Ht'. cbn [take_digits] in Ht'. rewrite Hc in Ht'.
    destruct (take_digits_bound _ _ _ _ _ _ 0%nat Ht) as (j & -> & Hv); [done|].
    destruct (take_digits_bound _ _ _ _ _ _ 1%nat Ht') as (j' & Hj' & _).
    { apply is_digit_range in Hc. cbn. lia. }
    exists v0, (0 + j)%nat, r0. split_and!; [done | done | lia]. }
  destruct Hint as (ipart & ilen & r0 & -> & Hipart & Hilen).
  destruct (match scan_frac r0 with Some _ => _ | None => _ end) as [[[fd fl] hf] r1].
  destruct (match scan_exp r1 with Some _ => _ | None => _ end) as [[ex he] r2].
  destruct (hf || he); [by intros [= <- <-]|].
  destruct (N.ltb_spec int_max_str_digits (N.of_nat ilen)); [done|].
  intros [= <- <-]. split; [|done]. cbn [within_limit].
  pose proof (int_digits_bound neg ipart ilen Hipart Hilen). lia.
Qed.

Lemma dict_set_within_limit (k : pystr) (v : pyobj) (acc : list (pystr * pyobj)) :
  within_limit v -> Forall (fun kv => within_limit kv.2) acc ->
  Forall (fun kv => within_limit kv.2) (dict_set k v acc).
Proof.
  intros Hv. induction 1 as [|[k' v'] r Hkv Hr IH]; cbn [dict_set].
  { by repeat constructor. }
  destruct (pystr_eqb k k'); constructor; done.
Qed.

Lemma parse_elements_list (fuel : nat) :
  forall d s acc v rest,
    parse_elements fuel d s acc = Parsed (v, rest) -> exists l, v = PList l.
Proof.
  induction fuel as [|n IH]; intros d s acc v rest; cbn [parse_elements]; [done|].
  destruct (parse_value n d s) as [[v0 r0]| |]; [|done..].
  destruct (skip_ws r0) as [|c r1]; [done|].
  destruct (c =? 0x5D); [intros [= <- <-]; by eexists|].
  destruct (c =? 0x2C); [|done]. apply IH.
Qed.

Local Ltac literal_value H :=
  match type of H with
  | syntax (_ <$> strip_prefix ?p ?r) = _ =>
      destruct (strip_prefix p r); cbn in H; [|discriminate H];
      injection H as <- <-; by split
  end.

Lemma parse_within_limit (fuel : nat) :
  (forall d s v rest,
      parse_value fuel d s = Parsed (v, rest) -> shallow_ints_within_limit v)
  /\ (forall d s acc v rest,
        parse_members fuel d s acc = Parsed (v, rest) ->
        Forall (fun kv => within_limit kv.2) acc ->
        shallow_ints_within_limit v).
Proof.
  induction fuel as [|n (IHv & IHm)]; [by split|].
  split.
  - intros d [|c r] v rest; cbn [parse_value]; [done|].
    destruct (c =? 0x22).
    { destruct (scan_string r []) as [[t0 r0]|]; [|done]. intros [= <- <-]. by split. }
    destruct (c =? 0x7B).
    { destruct d as [|d]; [done|]. destruct (skip_ws r) as [|c' r']; [done|].
      destruct (c' =? 0x7D).
      - intros [= <- <-]. split; [done|]. by intros kvs [= <-].
      - intros H. by apply IHm in H. }
    destruct (c =? 0x5B).
    { destruct d as [|d]; [done|]. destruct (skip_ws r) as [|c' r']; [done|].
      destruct (c' =? 0x5D); [intros [= <- <-]; by split|].
      intros [l ->]%parse_elements_list. by split. }
    destruct (c =? 0x6E); [intros H; literal_value H|].
    destruct (c =? 0x74); [intros H; literal_value H|].
    destruct (c =? 0x66); [intros H; literal_value H|].
    destruct (c =? 0x4E); [intros H; literal_value H|].
    destruct (c =? 0x49); [intros H; literal_value H|].
    destruct (c =? 0x2D).
    { destruct (strip_prefix (lit "Infinity") r); [intros [= <- <-]; by split|].
      intros [Hv Hnd]%scan_number_within_limit. split; [done|].
      intros kvs ->. by destruct (Hnd kvs). }
    intros [Hv Hnd]%scan_number_within_limit. split; [done|].
    intros kvs ->. by destruct (Hnd kvs).
  - intros d [|q r] acc v rest; cbn [parse_members]; [done|].
    destruct (q =? 0x22); cbn [negb]; [|done].
    destruct (scan_string r []) as [[k r0]|]; [|done].
    destruct (skip_ws r0) as [|colon r1]; [done|].
    destruct (colon =? 0x3A); cbn [negb]; [|done].
    destruct (parse_value n d (skip_ws r1)) as [[v0 r2]| |] eqn:Hv; [|done..].
    apply IHv in Hv as [Hv0 _].
    destruct (skip_ws r2) as [|c r3]; [done|].
    destruct (c =? 0x7D).
    { intros [= <- <-] Hacc. split; [done|]. intros kvs [= <-].
      by apply dict_set_within_limit. }
    destruct (c =? 0x2C); [|done].
    intros H Hacc. apply IHm in H; [done|]. by apply dict_set_within_limit.
Qed.

Lemma json_loads_within_limit (depth : nat) (s : pystr) (kvs : list (pystr * pyobj)) :
  json_loads depth s = inr (PDict kvs) -> Forall (fun kv => within_limit kv.2) kvs.
Proof.
  unfold json_loads.
  destruct (parse_value _ depth (skip_ws s)) as [[v rest]| |] eqn:Hp; [|done..].
  destruct (skip_ws rest); [|done]. intros [= ->].
  apply (proj1 (parse_within_limit _)) in Hp as [_ Hp]. by apply Hp.
Qed.

Variable rt : runtime.

(** An integer in the object the decoder returns has no more digits than
    [int()] and [str()] take. *)
Lemma decoded_int_within_limit (req : request) (st st1 : state)
    (kvs : list (pystr * pyobj)) (k : pystr) (z : Z) :
  _read_request_json rt req st = (Ok (PDict kvs), st1) ->
  dict_get k kvs = Some (PInt z) ->
  int_digits z <= int_max_str_digits.
Proof.
  intros Hread Hget.
  assert (Hall : Forall (fun kv : pystr * pyobj => within_limit kv.2) kvs).
  { apply read_request_json_ok in Hread as (pre & Hd & _).
    inversion Hd as [n Hn Hle Heq | n text v Hr Hdec Hj | n text Hr Hdec Hj]; subst.
    - constructor.
    - by apply json_loads_within_limit in Hj.
    - constructor. }
  clear Hread. induction Hall as [|[k' v'] r Hkv Hr IH]; [done|].
  cbn [dict_get] in Hget. destruct (pystr_eqb k k'); [|by apply IH].
  by injection Hget as ->.
Qed.

End DecodedIntegers.

(** X15. A [source] that is a non-zero JSON integer is not rejected: it
    has no more digits than [str()] takes, [str()] turns it into its
    decimal text, which passes validation and is what the staged file
    receives before the tool runs. *)
Theorem numeric_source_staged (rt : runtime) (req : request) (st st1 : state)
    (kvs : list (pystr * pyobj)) (z : Z) (tmpdir : path) :
  req_path req = lit "/deobfuscate" ->
  _read_request_json rt req st = (Ok (PDict kvs), st1) ->
  dict_get (lit "source") kvs = Some (PInt z) ->
  z <> 0%Z ->
  mkdtemp rt (fs st) = Ok tmpdir ->
  int_digits z <= int_max_str_digits
  /\ exists pre argv cwd outcome,
       events_of (do_POST rt req) st
       = pre ++ [EvMkdtemp tmpdir;
                 EvWrite (tmpdir ++ [lit "input.lua"]) (ascii_bytes (str_of_Z z));
                 EvRun argv cwd outcome; EvRmtree tmpdir].
Proof.
  intros Hp Hdec Hget Hz Htmp.
  split; [by eapply decoded_int_within_limit|].
  assert (Hsrc : source_of rt kvs = str_of_Z z).
  { unfold source_of, py_or. rewrite Hget. cbn [default from_option id py_truthy].
    by destruct (Z.eqb_spec z 0). }
  destruct (do_POST_staged rt req st st1 kvs tmpdir (ascii_bytes (str_of_Z z)) Hp Hdec)
    as (pre & _ & Hevs & _); rewrite ?Hsrc; try done.
  - rewrite strip_no_space by apply str_of_Z_no_space. apply str_of_Z_nonempty.
  - apply utf8_encode_ascii, str_of_Z_ascii.
  - eauto.
Qed.

Lemma numeric_source_staged_witness :
  exists pre argv cwd outcome,
    events_of (do_POST (sample_runtime (Ok tool_ok)) (post body_number))
      (sample_state [] body_number)
    = pre ++ [EvMkdtemp sample_tmpdir;
              EvWrite (sample_tmpdir ++ [lit "input.lua"]) (ascii_bytes (lit "-42"));
              EvRun argv cwd outcome; EvRmtree sample_tmpdir].
Proof.
  refine (proj2 (numeric_source_staged (sample_runtime (Ok tool_ok)) (post body_number)
            (sample_state [] body_number) (after_read 15 (sample_state [] body_number))
            [(lit "source", PInt (-42))] (-42) sample_tmpdir _ _ _ _ _)).
  - reflexivity.
  - vm_compute. reflexivity.
  - reflexivity.
  - discriminate.
  - reflexivity.
Defined.

(* ===================================================================== *)
(** ** [json.dumps] and [json.loads], there and back *)
(* ===================================================================== *)

Section JsonRoundTrip.

Local Ltac div_lia := zify; Z.to_euclidean_division_equations; lia.

Lemma hex_val_hex_digit (n : N) : n < 16 -> hex_val (hex_digit n) = Some n.
Proof.
  intros Hn. unfold hex_val, hex_digit, is_digit.
  destruct (N.ltb_spec n 10).
  - destruct (N.leb_spec 0x30 (0x30 + n)); [|exfalso; lia].
    destruct (N.leb_spec (0x30 + n) 0x39); [|exfalso; lia].
    cbn [andb]. f_equal. lia.
  - destruct (N.leb_spec 0x30 (0x61 + (n - 10))); [|exfalso; lia].
    destruct (N.leb_spec (0x61 + (n - 10)) 0x39); [exfalso; lia|].
    cbn [andb].
    destruct (N.leb_spec 0x61 (0x61 + (n - 10))); [|exfalso; lia].
    destruct (N.leb_spec (0x61 + (n - 10)) 0x66); [|exfalso; lia].
    cbn [andb]. f_equal. lia.
Qed.

Lemma hex4_digits (c : N) :
  c < 65536 ->
  hex4 (hex_digit (c / 4096 mod 16)) (hex_digit (c / 256 mod 16))
       (hex_digit (c / 16 mod 16)) (hex_digit (c mod 16)) = Some c.
Proof.
  intros Hc. unfold hex4.
  rewrite !hex_val_hex_digit by (by apply N.mod_lt).
  f_equal. div_lia.
Qed.

Lemma scan_string_plain (c : codepoint) (r acc : pystr) :
  c <> 0x22 -> c <> 0x5C -> 0x20 <= c ->
  scan_string (c :: r) acc = scan_string r (c :: acc).
Proof.
  intros H1 H2 H3. cbn [scan_string].
  destruct (N.eqb_spec c 0x22); [done|].
  destruct (N.ltb_spec c 0x20); [exfalso; lia|].
  by destruct (N.eqb_spec c 0x5C).
Qed.

(** Reading back what [json.dumps] wrote for one character. *)
Lemma scan_string_escape_char (c : codepoint) (rest acc : pystr) :
  scalar c ->
  scan_string (escape_char c ++ rest) acc = scan_string rest (c :: acc).
Proof.
  intros [Hs Hmax]. unfold is_surrogate in Hs.
  apply andb_false_iff in Hs. rewrite !N.leb_gt in Hs.
  unfold escape_char.
  destruct (N.eqb_spec c 0x22) as [->|?]; [reflexivity|].
  destruct (N.eqb_spec c 0x5C) as [->|?]; [reflexivity|].
  destruct (N.eqb_spec c 0x0A) as [->|?]; [reflexivity|].
  destruct (N.eqb_spec c 0x0D) as [->|?]; [reflexivity|].
  destruct (N.eqb_spec c 0x09) as [->|?]; [reflexivity|].
  destruct (N.eqb_spec c 0x08) as [->|?]; [reflexivity|].
  destruct (N.eqb_spec c 0x0C) as [->|?]; [reflexivity|].
  destruct (N.leb_spec 0x20 c); cbn [andb].
  - destruct (N.leb_spec c 0x7E).
    { cbn [app]. by apply scan_string_plain. }
    destruct (N.ltb_spec c 0x10000).
    + unfold u_escape. cbn [app]. rewrite scan_string_u, hex4_digits by done.
      destruct (N.leb_spec 0xD800 c), (N.leb_spec c 0xDBFF); try done; exfalso; lia.
    + set (hi := 0xD800 + (c - 0x10000) / 1024 mod 1024).
      set (lo := 0xDC00 + (c - 0x10000) mod 1024).
      assert (Hhi : 0xD800 <= hi <= 0xDBFF) by (subst hi; div_lia).
      assert (Hlo : 0xDC00 <= lo <= 0xDFFF) by (subst lo; div_lia).
      unfold u_escape. cbn [app]. rewrite scan_string_u, hex4_digits by lia.
      destruct (N.leb_spec 0xD800 hi); [|exfalso; lia].
      destruct (N.leb_spec hi 0xDBFF); [|exfalso; lia]. cbn [andb].
      unfold low_surrogate. rewrite hex4_digits by lia.
      destruct (N.leb_spec 0xDC00 lo); [|exfalso; lia].
      destruct (N.leb_spec lo 0xDFFF); [|exfalso; lia]. cbn [andb].
      f_equal. f_equal. subst hi lo. div_lia.
  - destruct (N.ltb_spec c 0x10000); [|exfalso; lia].
    unfold u_escape. cbn [app]. rewrite scan_string_u, hex4_digits by lia.
    destruct (N.leb_spec 0xD800 c), (N.leb_spec c 0xDBFF); try done; exfalso; lia.
Qed.

Lemma scan_string_escaped (s rest acc : pystr) :
  Forall scalar s ->
  scan_string (List.concat (List.map escape_char s) ++ 0x22 :: rest) acc
  = Some (rev acc ++ s, rest).
Proof.
  intros Hs. revert acc. induction Hs as [|c r Hc _ IH]; intros acc.
  { cbn. by rewrite app_nil_r. }
  cbn [List.map List.concat]. rewrite <- app_assoc.
  rewrite scan_string_escape_char by done. rewrite IH. cbn [rev].
  by rewrite <- app_assoc.
Qed.

(** A quoted string is read back as it was. *)
Lemma scan_string_quote (s rest : pystr) :
  Forall scalar s ->
  exists body, json_quote s ++ rest = 0x22 :: body
               /\ scan_string body [] = Some (s, rest).
Proof.
  intros Hs. exists (List.concat (List.map escape_char s) ++ 0x22 :: rest).
  split; [|by rewrite scan_string_escaped].
  unfold json_quote. cbn [app]. by rewrite <- app_assoc.
Qed.

Lemma is_digit_digit (d : N) : d < 10 -> is_digit (0x30 + d) = true.
Proof.
  intros Hd. unfold is_digit. apply andb_true_iff. rewrite !N.leb_le. lia.
Qed.

Lemma take_digits_digit (a : N) (len : nat) (d : N) (r : pystr) :
  d < 10 ->
  take_digits a len ((0x30 + d) :: r) = take_digits (10 * a + d) (S len) r.
Proof.
  intros Hd. cbn [take_digits]. rewrite is_digit_digit by done.
  by replace (0x30 + d - 0x30) with d by lia.
Qed.

Lemma take_digits_delimiter (a : N) (len : nat) (d : codepoint) (r : pystr) :
  delimiter d -> take_digits a len (d :: r) = (a, len, d :: r).
Proof. by intros [-> | ->]. Qed.

Lemma pow10_step (f : nat) (n : N) :
  10 <= n -> n < 10 ^ N.of_nat (S f) ->
  exists f', f = S f' /\ n / 10 < 10 ^ N.of_nat (S f') /\ 1 <= n / 10.
Proof.
  intros Hn Hlt. destruct f as [|f']; [cbn in Hlt; lia|].
  exists f'. split; [done|].
  rewrite (Nat2N.inj_succ (S f')), N.pow_succ_r' in Hlt.
  split; div_lia.
Qed.

(** The decimal digits of [n], read back by the scanner. *)
Lemma take_digits_dec (f : nat) :
  forall (n : N) (acc rest : pystr),
    n < 10 ^ N.of_nat (S f) ->
    exists k,
      length (dec_digits (S f) n acc) = (k + length acc)%nat
      /\ forall a len,
           take_digits a len (dec_digits (S f) n acc ++ rest)
           = take_digits (a * 10 ^ N.of_nat k + n) (len + k) (acc ++ rest).
Proof.
  induction f as [f IH] using lt_wf_ind. intros n acc rest Hn.
  cbn [dec_digits]. destruct (N.ltb_spec n 10) as [Hsmall|Hbig].
  - exists 1%nat. split; [done|]. intros a len. cbn [app].
    rewrite N.mod_small by done. rewrite take_digits_digit by done.
    f_equal; [cbn; lia | lia].
  - destruct (pow10_step f n Hbig Hn) as (f' & -> & Hdiv & _).
    destruct (IH f' ltac:(lia) (n / 10) ((0x30 + n mod 10) :: acc) rest Hdiv)
      as (k & Hlen & Hk).
    exists (S k). split; [rewrite Hlen; cbn [length]; lia|].
    intros a len. rewrite Hk. cbn [app].
    rewrite take_digits_digit by (by apply N.mod_lt).
    f_equal; [|lia].
    rewrite Nat2N.inj_succ, N.pow_succ_r'. div_lia.
Qed.

(** The first digit is a zero for the number zero alone. *)
Lemma dec_digits_head (f : nat) :
  forall (n : N) (acc : pystr),
    n < 10 ^ N.of_nat (S f) ->
    exists d r, d < 10 /\ dec_digits (S f) n acc = (0x30 + d) :: r
                /\ (d = 0 -> n = 0 /\ r = acc).
Proof.
  induction f as [f IH] using lt_wf_ind. intros n acc Hn.
  cbn [dec_digits]. destruct (N.ltb_spec n 10) as [Hsmall|Hbig].
  - exists n, acc. rewrite N.mod_small by done. by split_and!.
  - destruct (pow10_step f n Hbig Hn) as (f' & -> & Hdiv & Hpos).
    destruct (IH f' ltac:(lia) (n / 10) ((0x30 + n mod 10) :: acc) Hdiv)
      as (d & r & Hd & Heq & Hzero).
    exists d, r. split_and!; [done..|].
    intros ->. destruct (Hzero eq_refl) as [Hz _]. exfalso; lia.
Qed.

Lemma str_of_N_fuel (n : N) : n < 10 ^ N.of_nat (S (N.to_nat (N.log2 n))).
Proof.
  rewrite Nat2N.inj_succ, N2Nat.id.
  destruct (N.eq_dec n 0) as [->|Hn]; [done|].
  destruct (N.log2_spec n ltac:(lia)) as [_ Hlt].
  eapply N.lt_le_trans; [exact Hlt|].
  apply N.pow_le_mono_l. lia.
Qed.

(** [scan_number] reads back the decimal text of [n]. *)
Lemma scan_number_str_of_N (neg : bool) (n : N) (d : codepoint) (rest : pystr) :
  delimiter d ->
  N.of_nat (length (str_of_N n)) <= int_max_str_digits ->
  scan_number neg (str_of_N n ++ d :: rest)
  = Parsed (PInt (if neg then (- Z.of_N n)%Z else Z.of_N n), d :: rest).
Proof.
  intros Hd. unfold str_of_N. intros Hlimit.
  destruct (dec_digits_head _ n [] (str_of_N_fuel n)) as (d0 & r & Hd0 & Heq & Hzero).
  destruct (take_digits_dec _ n [] (d :: rest) (str_of_N_fuel n)) as (k & Hlen & Hk).
  specialize (Hk 0 0%nat). rewrite Hlen in Hlimit.
  rewrite Heq in Hk |- *. cbn [app] in Hk |- *.
  unfold scan_number. rewrite is_digit_digit by done.
  assert (Htail : scan_frac (d :: rest) = None /\ scan_exp (d :: rest) = None)
    by (by destruct Hd as [-> | ->]).
  destruct Htail as [Hfrac Hexp].
  destruct (N.eqb_spec (0x30 + d0) 0x30) as [E|E].
  - destruct (Hzero ltac:(lia)) as [-> ->]. cbn [app].
    rewrite Hfrac. cbn beta iota zeta. by rewrite Hexp.
  - rewrite Hk, take_digits_delimiter by done. cbn beta iota zeta.
    rewrite Hfrac. cbn beta iota zeta. rewrite Hexp. cbn [orb].
    destruct (N.ltb_spec int_max_str_digits (N.of_nat (0 + k))); [|done].
    cbn [length] in Hlimit. exfalso. lia.
Qed.

Lemma parse_value_digit (n depth : nat) (c : codepoint) (r : pystr) :
  is_digit c = true -> parse_value (S n) depth (c :: r) = scan_number false (c :: r).
Proof.
  intros Hc. cbn [parse_value].
  repeat match goal with
         | |- context [N.eqb c ?k] =>
             destruct (N.eqb_spec c k) as [->|?]; [discriminate Hc|]
         end.
  done.
Qed.

Lemma strip_prefix_Infinity_digit (d : N) (r : pystr) :
  d < 10 -> strip_prefix (lit "Infinity") ((0x30 + d) :: r) = None.
Proof.
  intros Hd. change (lit "Infinity") with (0x49 :: lit "nfinity").
  cbn [strip_prefix]. by destruct (N.eqb_spec 0x49 (0x30 + d)); [exfalso; lia|].
Qed.

(** An [int] is read back as it was written. *)
Lemma parse_value_int (n depth : nat) (z : Z) (d : codepoint) (rest : pystr) :
  delimiter d -> int_digits z <= int_max_str_digits ->
  parse_value (S n) depth (str_of_Z z ++ d :: rest) = Parsed (PInt z, d :: rest).
Proof.
  intros Hd Hz. unfold int_digits in Hz.
  assert (Hhead : forall m, exists d0 r, d0 < 10 /\ str_of_N m = (0x30 + d0) :: r).
  { intros m. unfold str_of_N.
    destruct (dec_digits_head _ m [] (str_of_N_fuel m)) as (d0 & r & ? & ? & _).
    by exists d0, r. }
  destruct z as [|p|p]; cbn [str_of_Z].
  - destruct (Hhead (Z.to_N 0)) as (d0 & r & Hd0 & Heq).
    rewrite Heq. cbn [app]. rewrite parse_value_digit by (by apply is_digit_digit).
    change ((0x30 + d0) :: r ++ d :: rest) with (((0x30 + d0) :: r) ++ d :: rest).
    rewrite <- Heq. by rewrite scan_number_str_of_N.
  - destruct (Hhead (Z.to_N (Z.pos p))) as (d0 & r & Hd0 & Heq).
    rewrite Heq. cbn [app]. rewrite parse_value_digit by (by apply is_digit_digit).
    change ((0x30 + d0) :: r ++ d :: rest) with (((0x30 + d0) :: r) ++ d :: rest).
    rewrite <- Heq. by rewrite scan_number_str_of_N.
  - destruct (Hhead (N.pos p)) as (d0 & r & Hd0 & Heq).
    cbn [app parse_value]. cbn [N.eqb Pos.eqb].
    rewrite Heq. cbn [app]. rewrite strip_prefix_Infinity_digit by done.
    change ((0x30 + d0) :: r ++ d :: rest) with (((0x30 + d0) :: r) ++ d :: rest).
    rewrite <- Heq. by rewrite scan_number_str_of_N.
Qed.

Variable R : renderer.

Lemma str_of_Z_head (z : Z) :
  exists c r, str_of_Z z = c :: r /\ json_ws c = false.
Proof.
  assert (Hhead : forall m, exists c r, str_of_N m = c :: r /\ json_ws c = false).
  { intros m. unfold str_of_N.
    destruct (dec_digits_head _ m [] (str_of_N_fuel m)) as (d0 & r & Hd0 & -> & _).
    eexists _, _. split; [done|]. unfold json_ws.
    repeat (apply orb_false_intro); apply N.eqb_neq; lia. }
  destruct z as [|p|p]; cbn [str_of_Z]; [apply Hhead..|].
  by eexists _, _.
Qed.

Lemma skip_ws_value (v : pyobj) (x : pystr) :
  sendable v -> skip_ws (json_dumps R v ++ x) = json_dumps R v ++ x.
Proof.
  destruct v as [| [] | z | | s | |]; try done; intros _.
  cbn [json_dumps]. destruct (str_of_Z_head z) as (c & r & -> & Hc).
  cbn [app skip_ws]. by rewrite Hc.
Qed.

(** A value is read back as it was written. *)
Lemma parse_value_sendable (n depth : nat) (v : pyobj) (d : codepoint) (rest : pystr) :
  sendable v -> delimiter d ->
  parse_value (S n) depth (json_dumps R v ++ d :: rest) = Parsed (v, d :: rest).
Proof.
  destruct v as [| [] | z | | s | |]; try done; intros Hv Hd.
  - by apply parse_value_int.
  - cbn [json_dumps].
    destruct (scan_string_quote s (d :: rest) Hv) as (body & -> & Hscan).
    cbn [parse_value]. cbn [N.eqb Pos.eqb]. by rewrite Hscan.
Qed.

Lemma parse_members_eq (n depth : nat) (r : pystr) (acc : list (pystr * pyobj)) :
  parse_members (S n) depth (0x22 :: r) acc =
    match scan_string r [] with
    | None => Failed Malformed
    | Some (k, rest) =>
        match skip_ws rest with
        | colon :: rest1 =>
            if negb (colon =? 0x3A) then Failed Malformed
            else
              match parse_value n depth (skip_ws rest1) with
              | Parsed (v, rest2) =>
                  match skip_ws rest2 with
                  | c :: rest3 =>
                      if c =? 0x7D then Parsed (PDict (dict_set k v acc), rest3)
                      else if c =? 0x2C then
                        parse_members n depth (skip_ws rest3) (dict_set k v acc)
                      else Failed Malformed
                  | [] => Failed Malformed
                  end
              | Failed e => Failed e
              | Exhausted => Exhausted
              end
        | [] => Failed Malformed
        end
    end.
Proof. reflexivity. Qed.

(** One member, up to the delimiter that follows it. *)
Lemma parse_member (n depth : nat) (k : pystr) (v : pyobj) (d : codepoint)
    (rest : pystr) (acc : list (pystr * pyobj)) :
  Forall scalar k -> sendable v -> delimiter d ->
  parse_members (S (S n)) depth (item R (k, v) ++ d :: rest) acc =
    if d =? 0x7D then Parsed (PDict (dict_set k v acc), rest)
    else parse_members (S n) depth (skip_ws rest) (dict_set k v acc).
Proof.
  intros Hk Hv Hd. unfold item. cbn [fst snd].
  rewrite <- !app_assoc.
  destruct (scan_string_quote k (lit ": " ++ json_dumps R v ++ d :: rest) Hk)
    as (body & -> & Hscan).
  rewrite parse_members_eq, Hscan.
  change (lit ": ") with [0x3A; 0x20]. cbn [app skip_ws json_ws N.eqb Pos.eqb orb].
  rewrite skip_ws_value by done.
  rewrite parse_value_sendable by done.
  by destruct Hd as [-> | ->].
Qed.

Lemma item_head (kv : pystr * pyobj) (x : pystr) :
  exists r, item R kv ++ x = 0x22 :: r.
Proof. unfold item, json_quote. by eexists. Qed.

Lemma join_items_head (kv : pystr * pyobj) (kvs : list (pystr * pyobj)) (x : pystr) :
  exists r, join (lit ", ") (List.map (item R) (kv :: kvs)) ++ x = 0x22 :: r.
Proof.
  cbn [List.map join]. destruct (List.map (item R) kvs).
  - apply item_head.
  - rewrite <- app_assoc. apply item_head.
Qed.

(** The members of an object, read back one after the other. *)
Lemma parse_members_items (kvs : list (pystr * pyobj)) :
  forall (kv : pystr * pyobj) (n depth : nat) (acc : list (pystr * pyobj))
         (rest : pystr),
    Forall (fun kv => Forall scalar kv.1 /\ sendable kv.2) (kv :: kvs) ->
    (length kvs <= n)%nat ->
    parse_members (S (S n)) depth
      (join (lit ", ") (List.map (item R) (kv :: kvs)) ++ 0x7D :: rest) acc
    = Parsed (PDict (set_all (kv :: kvs) acc), rest).
Proof.
  induction kvs as [|kv' kvs IH]; intros [k v] n depth acc rest Hall Hlen.
  - apply Forall_cons in Hall as [[Hk Hv] _]. cbn [List.map join].
    by rewrite parse_member by (done || by right).
  - apply Forall_cons in Hall as [[Hk Hv] Hall].
    destruct n as [|n]; [cbn in Hlen; lia|].
    change (join (lit ", ") (List.map (item R) ((k, v) :: kv' :: kvs)))
      with (item R (k, v) ++ lit ", " ++ join (lit ", ") (List.map (item R) (kv' :: kvs))).
    rewrite <- !app_assoc.
    change (lit ", " ++ ?x) with (0x2C :: 0x20 :: x).
    rewrite parse_member by (done || by left).
    cbn [skip_ws json_ws N.eqb Pos.eqb orb].
    destruct (join_items_head kv' kvs (0x7D :: rest)) as [r Hr].
    rewrite Hr. cbn [skip_ws json_ws N.eqb Pos.eqb orb]. rewrite <- Hr.
    rewrite IH by (done || cbn in Hlen; lia). done.
Qed.

Lemma dict_set_fresh (k : pystr) (v : pyobj) (acc : list (pystr * pyobj)) :
  k ∉ acc.*1 -> dict_set k v acc = acc ++ [(k, v)].
Proof.
  induction acc as [|[k' v'] r IH]; [done|]. cbn [fmap list_fmap dict_set].
  intros [Hne Hr]%not_elem_of_cons. unfold pystr_eqb in *.
  rewrite bool_decide_eq_false_2 by done. by rewrite IH.
Qed.

Lemma set_all_distinct (kvs acc : list (pystr * pyobj)) :
  NoDup (acc ++ kvs).*1 -> set_all kvs acc = acc ++ kvs.
Proof.
  revert acc. induction kvs as [|[k v] r IH]; intros acc Hnd.
  { cbn. by rewrite app_nil_r. }
  cbn [set_all fold_left]. cbn [fst snd].
  rewrite fmap_app in Hnd. rewrite dict_set_fresh.
  - change (fold_left _ r (acc ++ [(k, v)])) with (set_all r (acc ++ [(k, v)])).
    rewrite IH; [by rewrite <- app_assoc|].
    by rewrite <- app_assoc, fmap_app.
  - apply NoDup_app in Hnd as (_ & Hdisj & _).
    intros Hin. apply (Hdisj k Hin). cbn. apply list_elem_of_here.
Qed.

Lemma length_join_items (kvs : list (pystr * pyobj)) :
  (length kvs <= length (join (lit ", ") (List.map (item R) kvs)))%nat.
Proof.
  induction kvs as [|kv r IH]; [done|].
  cbn [List.map join]. destruct (item_head kv []) as [body Hb].
  rewrite app_nil_r in Hb.
  destruct (List.map (item R) r) eqn:E.
  - destruct r; [|done]. rewrite Hb. cbn. lia.
  - rewrite !length_app, Hb. cbn in *. lia.
Qed.

(** [json.loads(json.dumps(d)) == d] for a dict [d] with distinct keys whose
    keys and values are sendable, when one level of nesting is available. *)
Lemma json_loads_dumps_dict (depth : nat) (kvs : list (pystr * pyobj)) :
  (1 <= depth)%nat ->
  Forall (fun kv => Forall scalar kv.1 /\ sendable kv.2) kvs ->
  NoDup kvs.*1 ->
  json_loads depth (json_dumps R (PDict kvs)) = inr (PDict kvs).
Proof.
  intros Hdepth Hall Hnd.
  destruct depth as [|depth]; [lia|].
  destruct kvs as [|kv kvs]; [reflexivity|].
  unfold json_loads.
  change (json_dumps R (PDict (kv :: kvs)))
    with (lit "{" ++ join (lit ", ") (List.map (item R) (kv :: kvs)) ++ lit "}").
  change (lit "{") with [0x7B]. change (lit "}") with [0x7D].
  set (body := join (lit ", ") (List.map (item R) (kv :: kvs))).
  cbn [app skip_ws json_ws N.eqb Pos.eqb orb length].
  assert (Hlen : (length kvs <= length (body ++ [0x7D%N]))%nat).
  { pose proof (length_join_items (kv :: kvs)) as H. fold body in H.
    rewrite length_app. cbn in *. lia. }
  destruct (join_items_head kv kvs [0x7D]) as [r Hr]. fold body in Hr.
  replace (2 * S (length (body ++ [0x7D%N])) + 1)%nat
    with (S (S (S (2 * length (body ++ [0x7D%N])))))%nat by lia.
  cbn [parse_value]. cbn [N.eqb Pos.eqb].
  rewrite Hr. cbn [skip_ws json_ws N.eqb Pos.eqb orb]. rewrite <- Hr.
  subst body. rewrite parse_members_items by (done || lia).
  cbn [skip_ws]. by rewrite set_all_distinct.
Qed.

(** One array more than the depth available is a [RecursionError], whatever
    follows. *)
Lemma parse_value_too_deep (depth : nat) :
  forall (fuel : nat) (rest : pystr),
    (2 * depth + 1 <= fuel)%nat ->
    parse_value fuel depth (List.repeat 0x5B (S depth) ++ rest) = Failed TooDeep.
Proof.
  induction depth as [|depth IH]; intros fuel rest Hfuel.
  - destruct fuel as [|n]; [lia|]. reflexivity.
  - destruct fuel as [|[|n]]; [lia..|].
    change (List.repeat 0x5B (S (S depth)) ++ rest)
      with (0x5B :: (List.repeat 0x5B (S depth) ++ rest)).
    cbn [parse_value]. cbn [N.eqb Pos.eqb].
    change (List.repeat 0x5B (S depth) ++ rest)
      with (0x5B :: (List.repeat 0x5B depth ++ rest)).
    cbn [skip_ws json_ws N.eqb Pos.eqb orb].
    cbn [parse_elements].
    change (0x5B :: (List.repeat 0x5B depth ++ rest))
      with (List.repeat 0x5B (S depth) ++ rest).
    by rewrite IH by lia.
Qed.

Lemma json_loads_too_deep (depth : nat) (rest : pystr) :
  json_loads depth (List.repeat 0x5B (S depth) ++ rest) = inl TooDeep.
Proof.
  unfold json_loads.
  change (List.repeat 0x5B (S depth) ++ rest)
    with (0x5B :: (List.repeat 0x5B depth ++ rest)) at 2.
  cbn [skip_ws json_ws N.eqb Pos.eqb orb].
  change (0x5B :: (List.repeat 0x5B depth ++ rest))
    with (List.repeat 0x5B (S depth) ++ rest).
  rewrite parse_value_too_deep; [done|].
  rewrite length_app, repeat_length. lia.
Qed.

End JsonRoundTrip.

Section RoundTripFacts.

Lemma sendable_flat (kvs : list (pystr * pyobj)) :
  Forall (fun kv => Forall scalar kv.1 /\ sendable kv.2) kvs ->
  Forall (fun kv : pystr * pyobj => flat kv.2) kvs.
Proof.
  intros H. eapply Forall_impl; [exact H|]. intros [k v] [_ Hv]. by destruct v.
Qed.

Lemma utf8_decode_ascii_bytes (s : pystr) :
  ascii_text s -> utf8_decode (ascii_bytes s) = Some s.
Proof. intros H. by apply utf8_decode_encode, utf8_encode_ascii. Qed.

Lemma scalar_ascii (s : pystr) : ascii_text s -> Forall scalar s.
Proof.
  intros H. eapply Forall_impl; [exact H|]. cbn beta. intros c Hc. split; [|lia].
  unfold is_surrogate. destruct (N.leb_spec 0xD800 c); [exfalso; lia | done].
Qed.

Lemma Forall_scalar_check (s : pystr) :
  forallb (fun c => negb (is_surrogate c) && (c <=? 0x10FFFF)) s = true ->
  Forall scalar s.
Proof.
  induction s as [|c r IH]; [constructor|].
  cbn [forallb]. intros [[Hs Hmax]%andb_true_iff Hr]%andb_true_iff.
  constructor; [|by apply IH].
  split; [by apply negb_true_iff | by apply N.leb_le].
Qed.

Lemma ascii_text_lit_keys :
  Forall ascii_text [lit "ok"; lit "returncode"; lit "output"; lit "stderr"].
Proof. repeat (constructor; [by repeat (constructor; [done|])|]). constructor. Qed.

Lemma tool_response_sendable (cp : CompletedProcess) :
  int_digits (returncode cp) <= int_max_str_digits ->
  Forall scalar (stdout cp) -> Forall scalar (stderr cp) ->
  Forall (fun kv : pystr * pyobj => Forall scalar kv.1 /\ sendable kv.2)
    [(lit "ok", PBool (returncode cp =? 0)%Z); (lit "returncode", PInt (returncode cp));
     (lit "output", PStr (stdout cp)); (lit "stderr", PStr (stderr cp))].
Proof.
  intros Hrc Hout Herr.
  pose proof ascii_text_lit_keys as Hk.
  apply Forall_cons in Hk as [H1 Hk]. apply Forall_cons in Hk as [H2 Hk].
  apply Forall_cons in Hk as [H3 Hk]. apply Forall_cons in Hk as [H4 _].
  repeat (constructor; [split; [by apply scalar_ascii | done]|]). constructor.
Qed.

Lemma tool_response_keys (cp : CompletedProcess) :
  NoDup [(lit "ok", PBool (returncode cp =? 0)%Z); (lit "returncode", PInt (returncode cp));
         (lit "output", PStr (stdout cp)); (lit "stderr", PStr (stderr cp))].*1.
Proof.
  cbn [fmap list_fmap fst].
  apply (bool_decide_unpack _). vm_compute. exact I.
Qed.

End RoundTripFacts.

(** X16. The reply to a completed run reads back as what the tool gave:
    when the captured output holds no lone surrogate and the return code
    has no more digits than [int()] takes, the body of the one 200 response
    is valid UTF-8 and [json.loads] of it, with one level of nesting
    available, is the object [{ok, returncode, output, stderr}] with the
    tool's own return code and texts, escapes undone. *)
Theorem tool_reply_parses_back (rt : runtime) (req : request) (st : state)
    (argv : list pystr) (cwd : pystr) (cp : CompletedProcess) (depth : nat) :
  EvRun argv cwd (Ok cp) ∈ events_of (do_POST rt req) st ->
  Forall scalar (stdout cp) -> Forall scalar (stderr cp) ->
  int_digits (returncode cp) <= int_max_str_digits -> (1 <= depth)%nat ->
  exists r text,
    replies_of (do_POST rt req) st = [r]
    /\ status_of r = 200%Z
    /\ utf8_decode (body_of r) = Some text
    /\ json_loads depth text
       = inr (PDict [(lit "ok", PBool (returncode cp =? 0)%Z);
                     (lit "returncode", PInt (returncode cp));
                     (lit "output", PStr (stdout cp));
                     (lit "stderr", PStr (stderr cp))]).
Proof.
  intros Hin Hout Herr Hrc Hdepth.
  apply run_inv in Hin as (kvs & pre & d & bs & f2 & H); cbn zeta in H.
  destruct H as (_ & _ & _ & _ & _ & _ & _ & _ & _ & _ & Hreplies).
  exists (json_response rt (tool_response cp) 200),
         (json_dumps (render rt) (tool_response cp)).
  split_and!; [done | done | |].
  - apply utf8_decode_ascii_bytes, json_dumps_flat_dict, tool_response_flat.
  - apply json_loads_dumps_dict;
      [done | by apply tool_response_sendable | apply tool_response_keys].
Qed.

Lemma tool_reply_parses_back_witness :
  exists r text,
    replies_of (do_POST (sample_runtime (Ok tool_noisy)) (post body_print))
      (sample_state [] body_print) = [r]
    /\ utf8_decode (body_of r) = Some text
    /\ json_loads 1 text
       = inr (PDict [(lit "ok", PBool false); (lit "returncode", PInt 3);
                     (lit "output", PStr (0x22 :: 0x09 :: 0xE9 :: 0x1F600 :: lit "\n"));
                     (lit "stderr", PStr (lit "line 1: unexpected symbol near '<eof>'"))]).
Proof.
  destruct (tool_reply_parses_back (sample_runtime (Ok tool_noisy)) (post body_print)
              (sample_state [] body_print) argv_print (lit "/srv/luraph") tool_noisy 1)
    as (r & text & Hrs & _ & Hdec & Hload).
  - vm_compute. repeat first [apply list_elem_of_here | apply list_elem_of_further].
  - apply Forall_scalar_check. vm_compute. reflexivity.
  - apply Forall_scalar_check. vm_compute. reflexivity.
  - by vm_compute.
  - lia.
  - by exists r, text.
Defined.

(** X17. The decoder reads back what a client dumps: for an object with
    distinct keys, key texts without lone surrogates and values that are
    null, booleans, integers within the limit on digits or texts without
    lone surrogates, a body that is [json.dumps] of the object, read with
    its length declared and one level of nesting available, is decoded to
    that very object; exactly the declared bytes are consumed. *)
Theorem dumped_body_decoded (rt : runtime) (req : request) (st : state)
    (kvs : list (pystr * pyobj)) (rest : bytes) :
  Forall (fun kv => Forall scalar kv.1 /\ sendable kv.2) kvs ->
  NoDup kvs.*1 ->
  (1 <= json_depth rt)%nat ->
  reads_body rt req
    (Z.of_nat (length (ascii_bytes (json_dumps (render rt) (PDict kvs))))) ->
  rfile st = ascii_bytes (json_dumps (render rt) (PDict kvs)) ++ rest ->
  exists st1,
    _read_request_json rt req st = (Ok (PDict kvs), st1)
    /\ rfile st1 = rest
    /\ fs st1 = fs st /\ wfile st1 = wfile st.
Proof.
  intros Hall Hnd Hdepth Hreads Hbody.
  set (body := ascii_bytes (json_dumps (render rt) (PDict kvs))) in *.
  exists (after_read (Z.of_nat (length body)) st).
  rewrite (read_request_json_body rt req st _ Hreads).
  rewrite Nat2Z.id, Hbody, take_app_length.
  subst body.
  rewrite utf8_decode_ascii_bytes
    by by apply json_dumps_flat_dict, sendable_flat.
  rewrite json_loads_dumps_dict by done.
  split_and!; try done.
  cbn [after_read rfile]. by rewrite Nat2Z.id, Hbody, drop_app_length.
Qed.

Lemma dumped_body_decoded_witness :
  exists st1,
    _read_request_json (sample_runtime (Ok tool_ok)) (post body_dumped)
      (sample_state [] (body_dumped ++ [x47]))
    = (Ok (PDict [(lit "source", PStr (lit "print(" ++ 0x22 :: 0x68 :: 0xE9 :: 0x22 :: lit ")"));
                  (lit "script_key", PNone); (lit "tries", PInt (-3))]), st1)
    /\ rfile st1 = [x47].
Proof.
  destruct (dumped_body_decoded (sample_runtime (Ok tool_ok)) (post body_dumped)
              (sample_state [] (body_dumped ++ [x47]))
              [(lit "source", PStr (lit "print(" ++ 0x22 :: 0x68 :: 0xE9 :: 0x22 :: lit ")"));
               (lit "script_key", PNone); (lit "tries", PInt (-3))] [x47])
    as (st1 & Hread & Hrest & _).
  - repeat (constructor;
            [split; [apply Forall_scalar_check; vm_compute; reflexivity
                    | first [exact I | by vm_compute
                            | apply Forall_scalar_check; vm_compute; reflexivity]]|]).
    constructor.
  - apply (bool_decide_unpack _). vm_compute. exact I.
  - apply Nat.leb_le. vm_compute. reflexivity.
  - sample_reads.
  - vm_compute. reflexivity.
  - by exists st1.
Defined.

(** X20. A declared length that the read refuses is a fault before
    anything happens: above [sys.maxsize] the read raises [OverflowError],
    and where no buffer of the declared size can be had it raises what the
    allocation raises; [do_POST] ends there with nothing read, nothing
    answered and nothing staged. *)
Theorem refused_read_faults (rt : runtime) (req : request) (st : state) (n : Z) :
  req_path req = lit "/deobfuscate" ->
  declared_length rt req = Some n ->
  ((sys_maxsize < n)%Z -> do_POST rt req st = (Raise OverflowError, st))
  /\ (forall e, (0 < n <= sys_maxsize)%Z -> read_fault rt n = Some e ->
        do_POST rt req st = (Raise e, st)).
Proof.
  intros Hp Hn. split.
  - intros Hbig. apply do_POST_decoder_raise; [done|].
    rewrite read_request_json_eq, Hn.
    assert (0 < sys_maxsize)%Z by done.
    destruct (Z.leb_spec n 0); [lia|].
    by destruct (Z.ltb_spec sys_maxsize n); [|lia].
  - intros e Hpos Hfault. apply do_POST_decoder_raise; [done|].
    rewrite read_request_json_eq, Hn, Hfault.
    destruct (Z.leb_spec n 0); [lia|].
    by destruct (Z.ltb_spec sys_maxsize n); [lia|].
Qed.

Lemma refused_read_faults_witness :
  do_POST (sample_runtime (Ok tool_ok)) (post_with_length "9223372036854775808")
    (sample_state [] body_print)
  = (Raise OverflowError, sample_state [] body_print).
Proof.
  refine (proj1 (refused_read_faults (sample_runtime (Ok tool_ok))
                   (post_with_length "9223372036854775808")
                   (sample_state [] body_print) (2 ^ 63) _ _) _).
  - reflexivity.
  - vm_compute. reflexivity.
  - by vm_compute.
Defined.

(** X21. A body that opens more arrays than the stack takes is a fault,
    not a rejection: when the text read starts with one opening bracket
    more than the nesting available, [json.loads] raises [RecursionError]
    (which [except json.JSONDecodeError] lets through) whatever follows,
    and [do_POST] ends after the read with nothing answered and nothing
    staged. *)
Theorem deep_nesting_faults (rt : runtime) (req : request) (st : state)
    (n : Z) (rest : pystr) :
  req_path req = lit "/deobfuscate" ->
  reads_body rt req n ->
  utf8_decode (take (Z.to_nat n) (rfile st))
  = Some (List.repeat 0x5B (S (json_depth rt)) ++ rest) ->
  (do_POST rt req st).1 = Raise RecursionError
  /\ replies_of (do_POST rt req) st = []
  /\ events_of (do_POST rt req) st = [EvRead n]
  /\ fs (do_POST rt req st).2 = fs st.
Proof.
  intros Hp Hn Hdec. apply do_POST_fault_after_read; [done|].
  by rewrite (read_request_json_body rt req st n Hn), Hdec, json_loads_too_deep.
Qed.

Lemma deep_nesting_faults_witness :
  (do_POST (sample_runtime (Ok tool_ok)) (post body_deep) (sample_state [] body_deep)).1
  = Raise RecursionError
  /\ replies_of (do_POST (sample_runtime (Ok tool_ok)) (post body_deep))
       (sample_state [] body_deep) = [].
Proof.
  destruct (deep_nesting_faults (sample_runtime (Ok tool_ok)) (post body_deep)
              (sample_state [] body_deep) 991 [])
    as (Hres & Hrs & _).
  - reflexivity.
  - sample_reads.
  - vm_compute. reflexivity.
  - by split.
Defined.

(** X22. An integer of more digits than [int()] takes is a fault as well:
    when [json.loads] raises the [ValueError] of the limit for integer
    string conversion on the text read, it leaves [do_POST] after the read
    with nothing answered and nothing staged. *)
Theorem long_integer_faults (rt : runtime) (req : request) (st : state)
    (n : Z) (text : pystr) :
  req_path req = lit "/deobfuscate" ->
  reads_body rt req n ->
  utf8_decode (take (Z.to_nat n) (rfile st)) = Some text ->
  json_loads (json_depth rt) text = inl TooLong ->
  (do_POST rt req st).1 = Raise ValueError
  /\ replies_of (do_POST rt req) st = []
  /\ events_of (do_POST rt req) st = [EvRead n]
  /\ fs (do_POST rt req st).2 = fs st.
Proof.
  intros Hp Hn Hdec Hjson. apply do_POST_fault_after_read; [done|].
  by rewrite (read_request_json_body rt req st n Hn), Hdec, Hjson.
Qed.

Lemma long_integer_faults_witness :
  (do_POST (sample_runtime (Ok tool_ok)) (post body_long_int)
     (sample_state [] body_long_int)).1
  = Raise ValueError
  /\ replies_of (do_POST (sample_runtime (Ok tool_ok)) (post body_long_int))
       (sample_state [] body_long_int) = [].
Proof.
  destruct (long_integer_faults (sample_runtime (Ok tool_ok)) (post body_long_int)
              (sample_state [] body_long_int) 4313
              (json_text "{'source': " ++ List.repeat 0x31 4301 ++ lit "}"))
    as (Hres & Hrs & _).
  - reflexivity.
  - sample_reads.
  - vm_compute. reflexivity.
  - vm_compute. reflexivity.
  - by split.
Defined.

(* ===================================================================== *)
(** ** Properties of [main] *)
(* ===================================================================== *)

(** X18. [main] opens no listener for a missing page: a socket is bound
    only after [index.html] was found to exist; when it does not exist and
    the options parse, [main] ends with [SystemExit] and the message naming
    the path, having bound and printed nothing, and a GET of [/] on that
    file system is indeed one that [do_GET] answers with 500.  A port that
    [int()] refuses ends [main] with a usage error before the page is
    looked for. *)
Theorem main_requires_page (rt : runtime) (w : surroundings) (cl : command_line)
    (f : filesystem) :
  (forall h p, Bound h p ∈ (main rt w cl f).2 -> is_Some (f !! INDEX_PATH rt))
  /\ (f !! INDEX_PATH rt = None ->
        forall args, parse_args rt cl = inr args ->
          main rt w cl f = (SystemExit (missing_message rt), [])
          /\ forall st, fs st = f ->
               replies_of (do_GET rt {| req_path := lit "/"; req_headers := [] |}) st
               = [ErrorResponse 500 (lit "index.html missing")])
  /\ (forall t, given_port cl = Some t -> py_int (unicode_decimal rt) t = None ->
        main rt w cl f = (UsageError, [])).
Proof.
  split_and!.
  - intros h p. unfold main, exists_.
    destruct (parse_args rt cl) as [e|args]; [by intros ?%elem_of_nil|].
    destruct (decide (is_Some (f !! INDEX_PATH rt))) as [Hsome|Hnone]; [done|].
    rewrite bool_decide_eq_false_2 by done. by intros ?%elem_of_nil.
  - intros Hnone args Hargs. split.
    + unfold main, exists_. rewrite Hargs, Hnone.
      rewrite bool_decide_eq_false_2; [done|]. by intros [x Hx].
    + intros st <-. apply replies_of_wfile.
      by rewrite do_GET_eq, Hnone.
  - intros t Ht Hint. unfold main, parse_args. by rewrite Ht, Hint.
Qed.

Lemma main_requires_page_witness :
  main (sample_runtime (Ok tool_ok)) (sample_surroundings KeyboardInterrupt) no_options ∅
  = (SystemExit
       (lit "Missing /srv/luraph/web_gui/index.html; did you checkout the web_gui folder?"),
     [])
  /\ main (sample_runtime (Ok tool_ok)) (sample_surroundings KeyboardInterrupt)
       {| given_host := None; given_port := Some (0x1F :: lit "8000") |}
       (fs (sample_state asset_lf []))
     = (UsageError, []).
Proof.
  split.
  - refine (proj1 (proj1 (proj2 (main_requires_page (sample_runtime (Ok tool_ok))
                            (sample_surroundings KeyboardInterrupt) no_options ∅))
                     _ {| host := lit "127.0.0.1"; port := 8000 |} _)).
    + reflexivity.
    + reflexivity.
  - refine (proj2 (proj2 (main_requires_page (sample_runtime (Ok tool_ok))
                            (sample_surroundings KeyboardInterrupt)
                            {| given_host := None; given_port := Some (0x1F :: lit "8000") |}
                            (fs (sample_state asset_lf []))))
                  (0x1F :: lit "8000") _ _).
    + reflexivity.
    + vm_compute. reflexivity.
Defined.

(** X19. Once the options parse, the page exists and the listener is
    bound, [main] binds the host of the command line (127.0.0.1 when not
    given) and the port [int()] reads from it (8000 when not given), prints
    the URL with that same host and port, then serves; an interrupt of the
    serving ends [main] with return value 0, any other exception goes
    through. *)
Theorem main_serves (rt : runtime) (w : surroundings) (cl : command_line)
    (f : filesystem) (args : Namespace) :
  parse_args rt cl = inr args ->
  is_Some (f !! INDEX_PATH rt) ->
  bind_error w (host args) (port args) = None ->
  host args = default (lit "127.0.0.1") (given_host cl)
  /\ (given_port cl = None -> port args = 8000%Z)
  /\ (forall t, given_port cl = Some t ->
        py_int (unicode_decimal rt) t = Some (port args))
  /\ (main rt w cl f).2
     = [Bound (host args) (port args);
        Printed (lit "Listening on http://" ++ host args ++ lit ":" ++ str_of_Z (port args));
        Served]
  /\ (serving w = KeyboardInterrupt -> (main rt w cl f).1 = Returns 0)
  /\ (forall e, serving w = ServeRaises e -> (main rt w cl f).1 = Propagates e).
Proof.
  intros Hargs Hpage Hbind.
  assert (Hmain : main rt w cl f
                  = (match serving w with
                     | ServeRaises e => Propagates e
                     | _ => Returns 0
                     end,
                     [Bound (host args) (port args); Printed (listening_line args); Served])).
  { unfold main, exists_. rewrite Hargs, bool_decide_eq_true_2 by done.
    cbn [negb]. rewrite Hbind. by destruct (serving w). }
  rewrite Hmain. split_and!; try done.
  - unfold parse_args in Hargs.
    destruct (given_port cl) as [t|]; [destruct (py_int _ t)|]; by simplify_eq.
  - intros Hnone. unfold parse_args in Hargs. rewrite Hnone in Hargs. by simplify_eq.
  - intros t Ht. unfold parse_args in Hargs. rewrite Ht in Hargs.
    destruct (py_int _ t); by simplify_eq.
  - by intros ->.
  - by intros e ->.
Qed.

Lemma main_serves_witness :
  main (sample_runtime (Ok tool_ok)) (sample_surroundings KeyboardInterrupt)
    {| given_host := Some (lit "0.0.0.0");
       given_port := Some [0xFF18; 0xFF10; 0xFF18; 0xFF10] |}
    (fs (sample_state asset_lf []))
  = (Returns 0,
     [Bound (lit "0.0.0.0") 8080; Printed (lit "Listening on http://0.0.0.0:8080"); Served]).
Proof.
  destruct (main_serves (sample_runtime (Ok tool_ok)) (sample_surroundings KeyboardInterrupt)
              {| given_host := Some (lit "0.0.0.0");
                 given_port := Some [0xFF18; 0xFF10; 0xFF18; 0xFF10] |}
              (fs (sample_state asset_lf []))
              {| host := lit "0.0.0.0"; port := 8080 |})
    as (_ & _ & _ & Hacts & Hret & _).
  - vm_compute. reflexivity.
  - by eexists.
  - reflexivity.
  - apply injective_projections; [by apply Hret | exact Hacts].
Defined.
